(** * Weather dashboard: the data acquisition and normalisation pipeline

    A shallow embedding of [src/lib/mockData.ts], [src/lib/weatherApi.ts]
    (the transport client, the location and weather services, the two
    transformers) and of the [useWeatherData] hook of [src/hooks/useWeather.ts].

    Conventions of the embedding.
    - A JavaScript number is a rational ([Q]); [None] in an [option Q] stands
      for [NaN] or [undefined].  The numbers that arrive in a response are
      any rationals and arithmetic on them is exact; [Number(string)] returns
      the double nearest to the value of the literal.
    - A JavaScript string is a [string] of 8-bit code units; the helpers that
      scan a string work on its [list ascii].
    - An [async] function is a computation in the monad [M]: it reads the
      outside world, appends the HTTP requests it issues to a trace and ends
      normally or by throwing.  [console.error] is diagnostic only and is not
      recorded. *)

From Stdlib Require Import ZArith QArith Qround List String Ascii Bool Lia Permutation.
From Stdlib Require Import DecimalString Lqa Qabs Qpower.
Import ListNotations.


Local Open Scope string_scope.
Local Open Scope Z_scope.
Local Open Scope Q_scope.

(* ================================================================== *)
(** * The host language *)
(* ================================================================== *)

Module JS.

(** ** Numbers *)

Definition Math_floor (x : Q) : Z := Qfloor x.

(** [Math.round] rounds half up: [Math.round(-2.5) = -2]. *)
Definition Math_round (x : Q) : Z := Qfloor (x + 0.5).

Definition Math_max (a b : Q) : Q := if Qle_bool a b then b else a.
Definition Math_min (a b : Q) : Q := if Qle_bool a b then a else b.

(** [a > b] on numbers. *)
Definition gt (a b : Q) : bool := negb (Qle_bool a b).

(** Truthiness of a number: everything but [0] (and [NaN]). *)
Definition truthy (x : Q) : bool := negb (Qeq_bool x 0).

Definition truthy_opt (x : option Q) : bool :=
  match x with Some q => truthy q | None => false end.

(** [x || d] for an optional number. *)
Definition or_else (x : option Q) (d : Q) : Q :=
  match x with Some q => if truthy q then q else d | None => d end.

(** The remainder operator [%] truncates towards zero. *)
Definition rem (a b : Z) : Z := Z.rem a b.

(** [a < b], [a >= b], [a <= b] and [a === b] on numbers. *)
Definition lt (a b : Q) : bool := negb (Qle_bool b a).
Definition ge (a b : Q) : bool := Qle_bool b a.
Definition le (a b : Q) : bool := Qle_bool a b.
Definition eq (a b : Q) : bool := Qeq_bool a b.

(** A whole number in decimal digits, as [String(n)] prints it. *)
Definition decimal (n : Z) : string := NilZero.string_of_int (Z.to_int n).

(** [Math.trunc], and [%] on numbers that need not be integers. *)
Definition trunc (x : Q) : Z := if Qle_bool 0 x then Qfloor x else Qceiling x.
Definition fmod (a b : Q) : Q := a - b * inject_Z (trunc (a / b)).

(** [xs[i]] on an array: [undefined] outside of it. *)
Definition index {A : Type} (xs : list A) (i : Z) : option A :=
  if (i <? 0)%Z then None else nth_error xs (Z.to_nat i).

(** ** Strings *)

Definition chars (s : string) : list ascii := list_ascii_of_string s.
Definition str (cs : list ascii) : string := string_of_list_ascii cs.

(** White space and line terminators among the 8-bit code units: TAB, LF,
    VT, FF, CR, SP and NBSP.  The same set is used by [\s], by [trim] and by
    [Number]. *)
Definition is_space (c : ascii) : bool :=
  let n := nat_of_ascii c in
  ((9 <=? n) && (n <=? 13) || (n =? 32) || (n =? 160))%nat.

Definition is_digit (c : ascii) : bool :=
  let n := nat_of_ascii c in ((48 <=? n) && (n <=? 57))%nat.

Fixpoint trimStart (cs : list ascii) : list ascii :=
  match cs with
  | c :: r => if is_space c then trimStart r else cs
  | [] => []
  end.

Definition trimEnd (cs : list ascii) : list ascii := rev (trimStart (rev cs)).

Definition trim_chars (cs : list ascii) : list ascii := trimEnd (trimStart cs).

Definition trim (s : string) : string := str (trim_chars (chars s)).

(** [toLowerCase] on 8-bit code units: A-Z and the Latin-1 capitals. *)
Definition lower_char (c : ascii) : ascii :=
  let n := nat_of_ascii c in
  if ((65 <=? n) && (n <=? 90))%nat then ascii_of_nat (n + 32)
  else if ((192 <=? n) && (n <=? 222) && negb (n =? 215))%nat
       then ascii_of_nat (n + 32)
       else c.

Definition toLowerCase (s : string) : string := str (map lower_char (chars s)).

Fixpoint starts_with (p cs : list ascii) : bool :=
  match p, cs with
  | [], _ => true
  | _ :: _, [] => false
  | a :: p', b :: cs' => Ascii.eqb a b && starts_with p' cs'
  end.

Fixpoint includes_chars (cs p : list ascii) : bool :=
  starts_with p cs ||
  match cs with
  | [] => false
  | _ :: r => includes_chars r p
  end.

(** [s.includes(p)] *)
Definition includes (s p : string) : bool := includes_chars (chars s) (chars p).

(** [s.split(sep)] for a one-character separator. *)
Fixpoint split_chars (sep : ascii) (cs : list ascii) : list (list ascii) :=
  match cs with
  | [] => [[]]
  | c :: r =>
      if Ascii.eqb c sep then [] :: split_chars sep r
      else match split_chars sep r with
           | w :: ws => (c :: w) :: ws
           | [] => [[c]]
           end
  end.

Definition split (sep : ascii) (s : string) : list string :=
  map str (split_chars sep (chars s)).

(** ** The Number value for a real number

    The double nearest to it, the one with the even significand when two
    are as near; what is nearer to zero than half of the smallest double
    becomes [0].  Infinity is no rational: [2 ^ 1024], the first power of
    two beyond the doubles, stands for it. *)

(** [floor (log2 q)] for a positive [q]. *)
Definition exponent_of (q : Q) : Z :=
  let e := (Z.log2 (Qnum q) - Z.log2 (Zpos (Qden q)))%Z in
  if Qle_bool (2 ^ e) q then e else (e - 1)%Z.

(** The nearest integer, the even one of two. *)
Definition round_half_even (x : Q) : Z :=
  let f := Qfloor x in
  match Qcompare (x - inject_Z f) (1 # 2) with
  | Lt => f
  | Gt => (f + 1)%Z
  | Eq => if Z.even f then f else (f + 1)%Z
  end.

(** For a positive [q]: 53 bits of significand from the leading bit down,
    and no bit below [2 ^ -1074]. *)
Definition to_double_pos (q : Q) : Q :=
  let e := Z.max (exponent_of q) (-1022) in
  let ulp := 2 ^ (e - 52) in
  let r := inject_Z (round_half_even (q / ulp)) * ulp in
  if Qle_bool (2 ^ 1024) r then 2 ^ 1024 else r.

Definition to_double (q : Q) : Q :=
  Qred (match Qcompare q 0 with
        | Eq => 0
        | Gt => to_double_pos (Qred q)
        | Lt => - to_double_pos (Qred (- q))
        end).

(** ** Time values of [Date]

    [new Date(t)] is an invalid date when [t] is beyond 8.64e15
    milliseconds on either side of the epoch. *)
Definition valid_time (t : Q) : bool := Qle_bool (Qabs t) 8640000000000000.

(** ** [Number(string)]

    The decimal literals without exponent: optional sign, digits, optional
    fraction, between optional white space; the empty string is [0].  The
    result is the Number value for the value of the literal, as the engines
    compute it: a long literal is not cut to 20 significant digits first,
    which the language would allow.  Every other string gives [None]:
    [NaN], or a literal form (exponent, radix prefix, [Infinity]) that the
    embedding leaves out. *)

Definition digit_of (c : ascii) : Z := Z.of_nat (nat_of_ascii c - 48).

(** Scans a run of digits: the mantissa so far, the digits read, the rest. *)
Fixpoint scan_digits (acc : Z) (n : nat) (cs : list ascii) : Z * nat * list ascii :=
  match cs with
  | c :: r =>
      if is_digit c then scan_digits (acc * 10 + digit_of c)%Z (S n) r
      else (acc, n, cs)
  | [] => (acc, n, [])
  end.

Definition pow10 (n : nat) : Q := inject_Z (10 ^ Z.of_nat n).

Definition unsigned_decimal (cs : list ascii) : option Q :=
  let '(ip, ni, r) := scan_digits 0 0 cs in
  match r with
  | [] => if (ni =? 0)%nat then None else Some (inject_Z ip)
  | c :: r' =>
      if Ascii.eqb c "."%char then
        let '(m, nf, r'') := scan_digits ip 0 r' in
        match r'' with
        | [] => if ((ni =? 0) && (nf =? 0))%nat then None
                else Some (inject_Z m / pow10 nf)
        | _ :: _ => None
        end
      else None
  end.

(** The value of the literal, before it is rounded. *)
Definition literal_chars (cs : list ascii) : option Q :=
  match trim_chars cs with
  | [] => Some 0
  | c :: r =>
      if Ascii.eqb c "-"%char then option_map Qopp (unsigned_decimal r)
      else if Ascii.eqb c "+"%char then unsigned_decimal r
      else unsigned_decimal (c :: r)
  end.

Definition Number_chars (cs : list ascii) : option Q :=
  option_map to_double (literal_chars cs).

Definition Number (s : string) : option Q := Number_chars (chars s).

(** ** Regular expressions

    The fragment used by the source: characters, character classes,
    concatenation, [?], [+] and [*], anchored at both ends.  [test] matches
    with derivatives. *)

Inductive RegExp : Type :=
| Empty                                 (* matches nothing *)
| Eps                                   (* the empty string *)
| Class (p : ascii -> bool)
| Cat (r1 r2 : RegExp)
| Alt (r1 r2 : RegExp)
| Star (r : RegExp).

Definition Chr (c : ascii) : RegExp := Class (Ascii.eqb c).
Definition Opt (r : RegExp) : RegExp := Alt r Eps.
Definition Plus (r : RegExp) : RegExp := Cat r (Star r).
(** [\d] and [\s] *)
Definition Digit : RegExp := Class is_digit.
Definition Space : RegExp := Class is_space.

Fixpoint nullable (r : RegExp) : bool :=
  match r with
  | Empty => false
  | Eps => true
  | Class _ => false
  | Cat r1 r2 => nullable r1 && nullable r2
  | Alt r1 r2 => nullable r1 || nullable r2
  | Star _ => true
  end.

Fixpoint deriv (c : ascii) (r : RegExp) : RegExp :=
  match r with
  | Empty => Empty
  | Eps => Empty
  | Class p => if p c then Eps else Empty
  | Cat r1 r2 =>
      if nullable r1 then Alt (Cat (deriv c r1) r2) (deriv c r2)
      else Cat (deriv c r1) r2
  | Alt r1 r2 => Alt (deriv c r1) (deriv c r2)
  | Star r1 => Cat (deriv c r1) (Star r1)
  end.

Fixpoint matches (r : RegExp) (cs : list ascii) : bool :=
  match cs with
  | [] => nullable r
  | c :: cs' => matches (deriv c r) cs'
  end.

(** [/^r$/.test(s)] *)
Definition test (r : RegExp) (s : string) : bool := matches r (chars s).

End JS.

(** The parts of the platform that the code calls and that are not arithmetic:
    the calendar and locale of [Date], number formatting and [Math.sin].  An
    instant is its number of milliseconds since the epoch. *)
Class Platform : Type := {
  (** [new Date(ms).getHours()] *)
  getHours : Q -> Z;
  (** [new Date(ms).toLocaleTimeString([], {hour: '2-digit', minute: '2-digit'})] *)
  toLocaleTimeString : Q -> string;
  (** [new Date(ms).toLocaleDateString(undefined, {weekday: 'short'})] *)
  toLocaleDateString_weekday : Q -> string;
  (** [new Date(ms).toISOString()] *)
  toISOString : Q -> string;
  (** [String(x)] and [`${x}`] for a number *)
  String_of_number : Q -> string;
  Math_sin : Q -> Q;
  Math_PI : Q
}.

(* ================================================================== *)
(** * [src/types/weather.ts] *)
(* ================================================================== *)

Inductive WeatherCondition : Type :=
| sunny | cloudy | rainy | snowy | windy | partly_cloudy | thunderstorm | fog.

(** What an [icon] field holds at run time.  The declared type is
    [WeatherCondition]; the two other cases are the values that the untyped
    lookups of the code can also produce: a member that an object literal
    inherits from [Object.prototype], and [undefined]. *)
Inductive IconValue : Type :=
| Tag (c : WeatherCondition)
| Inherited (name : string)
| Undefined.

Module CurrentWeatherData.
Record t : Type := {
  temperature : Q;
  condition : string;
  description : string;
  icon : IconValue;
  feelsLike : Q;
  humidity : Q;
  windSpeed : Q;
  windDirection : option string;
  pressure : Q;
  visibility : Q;
  uvIndex : Q;
  sunrise : string;
  sunset : string;
  dewPoint : Q;
  timestamp : option Q
}.
End CurrentWeatherData.

Module HourlyWeatherData.
Record t : Type := {
  time : string;
  temperature : Q;
  icon : IconValue;
  precipitation : Q;
  humidity : Q;
  pressure : Q;
  windSpeed : option Q;
  feelsLike : option Q
}.
End HourlyWeatherData.

Module DailyWeatherData.
Record t : Type := {
  day : string;
  date : option string;
  high : Q;
  low : Q;
  icon : IconValue;
  precipitation : Q;
  humidity : option Q;
  windSpeed : option Q;
  description : option string
}.
End DailyWeatherData.

Module LocationData.
Record t : Type := {
  name : string;
  country : option string;
  region : option string;
  lat : option Q;
  lon : option Q;
  timezone : option string
}.
End LocationData.

Module WeatherData.
Record t : Type := {
  current : CurrentWeatherData.t;
  hourly : list HourlyWeatherData.t;
  daily : list DailyWeatherData.t;
  location : option LocationData.t;
  lastUpdated : option string
}.
End WeatherData.

Module LocationSuggestion.
Record t : Type := {
  id : string;
  name : string;
  country : string;
  state : option string;
  lat : Q;
  lon : Q
}.
End LocationSuggestion.

(** The fields of the two wire formats that the transformers read. *)
Module OpenWeather.
Record weather_item : Type := {
  main : string;
  description : string;
  icon : string
}.

Record main_block : Type := {
  temp : Q;
  feels_like : Q;
  temp_min : Q;
  temp_max : Q;
  pressure : Q;
  humidity : Q
}.
End OpenWeather.

Module OpenWeatherApiResponse.
Record t : Type := {
  coord_lon : Q;
  coord_lat : Q;
  weather : list OpenWeather.weather_item;
  main : OpenWeather.main_block;
  visibility : option Q;
  wind_speed : Q;
  wind_deg : option Q;
  dt : Q;
  sys_country : string;
  sys_sunrise : Q;
  sys_sunset : Q;
  name : string
}.
End OpenWeatherApiResponse.

Module ForecastItem.
Record t : Type := {
  dt : Q;
  main : OpenWeather.main_block;
  weather : list OpenWeather.weather_item;
  wind_speed : Q;
  visibility : option Q;
  pop : option Q
}.
End ForecastItem.

Module ForecastApiResponse.
Record t : Type := {
  list_ : list ForecastItem.t;
  city_name : string;
  city_coord_lat : Q;
  city_coord_lon : Q;
  city_country : string;
  city_timezone : Q;
  city_sunrise : Q;
  city_sunset : Q
}.
End ForecastApiResponse.

(* ================================================================== *)
(** * [src/lib/mockData.ts] *)
(* ================================================================== *)

Module mockData.

(** [Math.random] is a stream of numbers and the position of the next
    draw. *)
Definition Rand (A : Type) : Type := (nat -> Q) -> nat -> A * nat.

Definition rret {A} (a : A) : Rand A := fun _ k => (a, k).
Definition rbind {A B} (m : Rand A) (f : A -> Rand B) : Rand B :=
  fun rnd k => let '(a, k') := m rnd k in f a rnd k'.
Definition Math_random : Rand Q := fun rnd k => (rnd k, S k).

Notation "x <~ m ;; f" := (rbind m (fun x => f))
  (at level 61, m at next level, right associativity).

Definition weatherPatterns : list IconValue :=
  [ Tag sunny; Tag sunny; Tag cloudy; Tag cloudy; Tag rainy; Tag partly_cloudy;
    Tag sunny; Tag cloudy; Tag partly_cloudy; Tag rainy; Tag sunny; Tag cloudy ].

Definition baseTemp : Q := 68.

(** [forecastTime.getHours()] after [forecastTime.setHours(currentHour + i)]:
    the hour of day [i] hours later (a day without clock change). *)
Definition hourAfter (currentHour i : Z) : Z := ((currentHour + i) mod 24)%Z.

Section Generate.
Context `{Platform}.
Variable currentHour : Z.

Definition timeString (i : Z) : string :=
  if (i =? 0)%Z then "Now"
  else
    let hour := hourAfter currentHour i in
    let isPM := (12 <=? hour)%Z in
    let displayHour :=
      if (hour =? 0)%Z then 12%Z
      else if (12 <? hour)%Z then (hour - 12)%Z else hour in
    String_of_number (inject_Z displayHour) ++ " " ++ (if isPM then "PM" else "AM").

Definition pick_precipitation (icon : IconValue) : Rand Q :=
  match icon with
  | Tag rainy => r <~ Math_random ;; rret (60 + r * 30)
  | Tag cloudy => r <~ Math_random ;; rret (r * 20)
  | Tag partly_cloudy => r <~ Math_random ;; rret (r * 10)
  | _ => rret 0
  end.

(** The body of the loop, for one [i]. *)
Definition hourEntry (i : Z) : Rand HourlyWeatherData.t :=
  let hourInDay := hourAfter currentHour i in
  tempVariation <~
    (if ((6 <=? hourInDay) && (hourInDay <=? 18))%Z
     then rret (Math_sin (inject_Z (hourInDay - 6) * Math_PI / 12) * 8)
     else r <~ Math_random ;; rret (-5 + r * 3)) ;;
  r1 <~ Math_random ;;
  let temperature := JS.Math_round (baseTemp + tempVariation + (r1 - 0.5) * 4) in
  r2 <~ Math_random ;;
  let weatherIndex :=
    JS.rem (i + JS.Math_floor (r2 * 3)) (Z.of_nat (List.length weatherPatterns)) in
  let icon :=
    match JS.index weatherPatterns weatherIndex with
    | Some v => v
    | None => Undefined
    end in
  precipitation <~ pick_precipitation icon ;;
  r3 <~ Math_random ;;
  let humidity := JS.Math_round (45 + r3 * 30 + (precipitation / 100) * 20) in
  r4 <~ Math_random ;;
  let pressure := JS.Math_round (1010 + r4 * 15) in
  r5 <~ Math_random ;;
  let windSpeed := JS.Math_round (5 + r5 * 10) in
  rret {| HourlyWeatherData.time := timeString i;
          HourlyWeatherData.temperature := inject_Z temperature;
          HourlyWeatherData.icon := icon;
          HourlyWeatherData.precipitation := inject_Z (JS.Math_round precipitation);
          HourlyWeatherData.humidity := inject_Z humidity;
          HourlyWeatherData.pressure := inject_Z pressure;
          HourlyWeatherData.windSpeed := Some (inject_Z windSpeed);
          HourlyWeatherData.feelsLike := None |}.

(** [for (let i = 0; i < 24; i++) { ...; forecast.push(entry) }] *)
Fixpoint forLoop (steps : nat) (i : Z) (forecast : list HourlyWeatherData.t)
  : Rand (list HourlyWeatherData.t) :=
  match steps with
  | O => rret forecast
  | S steps' =>
      if (i <? 24)%Z then
        e <~ hourEntry i ;;
        forLoop steps' (i + 1)%Z (forecast ++ [e])%list
      else rret forecast
  end.

Definition generate24HourForecast : Rand (list HourlyWeatherData.t) :=
  forLoop 24 0%Z [].

Definition mock_current : CurrentWeatherData.t :=
  {| CurrentWeatherData.temperature := 68;
     CurrentWeatherData.condition := "partly cloudy";
     CurrentWeatherData.description := "partly cloudy with a chance of sunshine";
     CurrentWeatherData.icon := Tag partly_cloudy;
     CurrentWeatherData.feelsLike := 72;
     CurrentWeatherData.humidity := 65;
     CurrentWeatherData.windSpeed := 8;
     CurrentWeatherData.pressure := 1013;
     CurrentWeatherData.visibility := 10;
     CurrentWeatherData.uvIndex := 5;
     CurrentWeatherData.sunrise := "6:42 AM";
     CurrentWeatherData.sunset := "7:18 PM";
     CurrentWeatherData.windDirection := Some "NW";
     CurrentWeatherData.dewPoint := 58;
     CurrentWeatherData.timestamp := None |}.

Definition mock_day (d : string) (hi lo : Q) (ic : WeatherCondition) (p : Q)
  : DailyWeatherData.t :=
  {| DailyWeatherData.day := d;
     DailyWeatherData.date := None;
     DailyWeatherData.high := hi;
     DailyWeatherData.low := lo;
     DailyWeatherData.icon := Tag ic;
     DailyWeatherData.precipitation := p;
     DailyWeatherData.humidity := None;
     DailyWeatherData.windSpeed := None;
     DailyWeatherData.description := None |}.

Definition mock_daily : list DailyWeatherData.t :=
  [ mock_day "Today" 78 55 rainy 60;
    mock_day "Tue" 82 58 sunny 0;
    mock_day "Wed" 79 56 cloudy 20;
    mock_day "Thu" 75 52 rainy 80;
    mock_day "Fri" 71 48 rainy 90;
    mock_day "Sat" 73 50 cloudy 30;
    mock_day "Sun" 77 54 sunny 10 ].

(** The initialiser of the exported constant: it runs when the module is
    loaded, at the hour [currentHour], and draws from [Math.random]. *)
Definition mockWeatherData : Rand WeatherData.t :=
  h <~ generate24HourForecast ;;
  rret {| WeatherData.current := mock_current;
          WeatherData.hourly := h;
          WeatherData.daily := mock_daily;
          WeatherData.location := None;
          WeatherData.lastUpdated := None |}.
End Generate.

End mockData.

(* ================================================================== *)
(** * Effects: the world, requests, completions *)
(* ================================================================== *)

(** What has been fixed once the bundle is loaded: the environment value of
    the API key and the exported constant of [mockData.ts], whose initialiser
    has run once, at load time. *)
Class Bundle : Type := {
  VITE_OPENWEATHER_API_KEY : option string;
  mockWeatherData : WeatherData.t
}.

(** Loading the bundle at the hour [currentHour], with [rnd] the numbers
    that [Math.random] is about to return. *)
Definition load `{Platform} (key : option string) (currentHour : Z) (rnd : nat -> Q)
  : Bundle :=
  {| VITE_OPENWEATHER_API_KEY := key;
     mockWeatherData := fst (mockData.mockWeatherData currentHour rnd 0%nat) |}.

Module Http.

(** A URL with its search parameters, in the order they were appended. *)
Record Request : Type := {
  endpoint : string;
  searchParams : list (string * string)
}.

Record GeoEntry : Type := {
  geo_name : string;
  geo_country : string;
  geo_state : option string;
  geo_lat : Q;
  geo_lon : Q
}.

(** A parsed JSON body: one of the three payloads, or any other object,
    of which only the [message] member matters. *)
Inductive Json : Type :=
| JOther (message : option string)
| JGeo (results : list GeoEntry)
| JWeather (data : OpenWeatherApiResponse.t)
| JForecast (data : ForecastApiResponse.t).

Inductive Body : Type :=
| NotJson
| IsJson (j : Json).

(** The outcome of [fetch(url)]: the promise rejects (network failure), or
    a response arrives. *)
Inductive Response : Type :=
| Rejected (message : string)
| Replied (status : Z) (statusText : string) (body : Body).

Definition ok (status : Z) : bool := ((200 <=? status) && (status <=? 299))%Z.

End Http.

Inductive JSError : Type :=
| WeatherAPIError (message : string) (statusCode : option Z)
| TypeError (message : string)
| SyntaxError (message : string)
| RangeError (message : string).

Definition error_message (e : JSError) : string :=
  match e with
  | WeatherAPIError m _ => m
  | TypeError m => m
  | SyntaxError m => m
  | RangeError m => m
  end.

Inductive Completion (A : Type) : Type :=
| Normal (a : A)
| Throw (e : JSError).
Arguments Normal {A} a.
Arguments Throw {A} e.

Definition cbind {A B} (c : Completion A) (f : A -> Completion B) : Completion B :=
  match c with
  | Normal a => f a
  | Throw e => Throw e
  end.

Notation "x <-! c ;; f" := (cbind c (fun x => f))
  (at level 61, c at next level, right associativity).

(** [xs.map(f)] where [f] may throw. *)
Fixpoint cmap {A B} (f : A -> Completion B) (xs : list A) : Completion (list B) :=
  match xs with
  | [] => Normal []
  | x :: r => y <-! f x ;; ys <-! cmap f r ;; Normal (y :: ys)
  end.

(** [xs.forEach(item => ...)] on a local state, where the body may throw. *)
Fixpoint cfold {A S} (f : S -> A -> Completion S) (xs : list A) (s : S) : Completion S :=
  match xs with
  | [] => Normal s
  | x :: r => s' <-! f s x ;; cfold f r s'
  end.

(** The outside world during one call: what the network answers to each
    request, and the reading of the clock (milliseconds). *)
Record World : Type := {
  fetch : Http.Request -> Http.Response;
  Date_now : Q
}.

(** Asynchronous code: run in a world, from the trace of the requests issued
    so far, to a completion and the extended trace. *)
Definition M (A : Type) : Type :=
  World -> list Http.Request -> Completion A * list Http.Request.

Definition ret {A} (a : A) : M A := fun _ t => (Normal a, t).
Definition throw {A} (e : JSError) : M A := fun _ t => (Throw e, t).
Definition lift {A} (c : Completion A) : M A := fun _ t => (c, t).

Definition bind {A B} (m : M A) (f : A -> M B) : M B :=
  fun w t =>
    match m w t with
    | (Normal a, t') => f a w t'
    | (Throw e, t') => (Throw e, t')
    end.

Definition try_catch {A} (m : M A) (handler : JSError -> M A) : M A :=
  fun w t =>
    match m w t with
    | (Normal a, t') => (Normal a, t')
    | (Throw e, t') => handler e w t'
    end.

Definition clock : M Q := fun w t => (Normal (Date_now w), t).

(** [await fetch(url)]: the request is issued, then the answer is awaited. *)
Definition await_fetch (url : Http.Request) : M (Z * string * Http.Body) :=
  fun w t =>
    match fetch w url with
    | Http.Rejected m => (Throw (TypeError m), (t ++ [url])%list)
    | Http.Replied status statusText body =>
        (Normal (status, statusText, body), (t ++ [url])%list)
    end.

(** [await Promise.all([p, q])]: both are started, in this order, before
    either is awaited; the result rejects as soon as one of them does. *)
Definition Promise_all2 {A B} (p : M A) (q : M B) : M (A * B) :=
  fun w t =>
    let '(a, t1) := p w t in
    let '(b, t2) := q w t1 in
    match a, b with
    | Normal x, Normal y => (Normal (x, y), t2)
    | Throw e, _ => (Throw e, t2)
    | Normal _, Throw e => (Throw e, t2)
    end.

Notation "x <- m ;; f" := (bind m (fun x => f))
  (at level 61, m at next level, right associativity).

(** Runs a computation from the empty trace. *)
Definition run {A} (m : M A) (w : World) : Completion A * list Http.Request := m w [].

(* ================================================================== *)
(** * [src/lib/weatherApi.ts] *)
(* ================================================================== *)

Module weatherApi.
Import Http.

Module API_CONFIG.
Definition BASE_URL : string := "https://api.openweathermap.org/data/2.5".
Definition GEO_URL : string := "https://api.openweathermap.org/geo/1.0".
(** [import.meta.env.VITE_OPENWEATHER_API_KEY || ''] *)
Definition API_KEY `{Bundle} : string :=
  match VITE_OPENWEATHER_API_KEY with
  | Some k => k
  | None => ""
  end.
Definition DEFAULT_UNITS : string := "metric".
Definition DEFAULT_LANG : string := "en".
End API_CONFIG.

(** Truthiness of a string: not empty. *)
Definition nonempty (s : string) : bool := negb (s =? "")%string.

Inductive ParamValue : Type :=
| PStr (s : string)
| PNum (x : Q).

Module apiClient.
Section Client.
Context `{Platform} `{Bundle}.

Definition request (url : Request) : M Json :=
  try_catch
    (response <- await_fetch url ;;
     let '(status, statusText, body) := response in
     if negb (ok status) then
       let errorMessage :=
         ("HTTP " ++ String_of_number (inject_Z status) ++ ": " ++ statusText)%string in
       let errorMessage :=
         match body with
         | IsJson (JOther (Some m)) => if nonempty m then m else errorMessage
         | _ => errorMessage
         end in
       throw (WeatherAPIError errorMessage (Some status))
     else
       match body with
       | IsJson j => ret j
       | NotJson => throw (SyntaxError "Unexpected token in JSON")
       end)
    (fun error =>
       match error with
       | WeatherAPIError _ _ => throw error
       | _ => throw (WeatherAPIError (error_message error) None)
       end).

Definition String_of_param (v : ParamValue) : string :=
  match v with
  | PStr s => s
  | PNum x => String_of_number x
  end.

(** The URL that [get] builds: the endpoint, the API key when there is
    one, then every parameter appended to the search parameters. *)
Definition url_of (endpoint : string) (params : list (string * ParamValue)) : Request :=
  let params :=
    if nonempty API_CONFIG.API_KEY
    then (params ++ [("appid", PStr API_CONFIG.API_KEY)])%list
    else params in
  {| endpoint := endpoint;
     searchParams := map (fun kv => (fst kv, String_of_param (snd kv))) params |}.

Definition get (endpoint : string) (params : list (string * ParamValue)) : M Json :=
  request (url_of endpoint params).
End Client.
End apiClient.

Definition mockLocation (id name country : string) (state : option string) (lat lon : Q)
  : LocationSuggestion.t :=
  {| LocationSuggestion.id := id;
     LocationSuggestion.name := name;
     LocationSuggestion.country := country;
     LocationSuggestion.state := state;
     LocationSuggestion.lat := lat;
     LocationSuggestion.lon := lon |}.

Definition mockLocations : list LocationSuggestion.t :=
  [ mockLocation "1" "New York" "US" (Some "NY") 40.7128 (-74.0060);
    mockLocation "2" "London" "GB" None 51.5074 (-0.1278);
    mockLocation "3" "Tokyo" "JP" None 35.6762 139.6503;
    mockLocation "4" "Paris" "FR" None 48.8566 2.3522;
    mockLocation "5" "Sydney" "AU" None (-33.8688) 151.2093 ].

Definition getMockLocationSuggestions (query : string) : list LocationSuggestion.t :=
  filter (fun location =>
            JS.includes (JS.toLowerCase (LocationSuggestion.name location))
                        (JS.toLowerCase query))
         mockLocations.

Definition getMockWeatherData `{Bundle} : WeatherData.t := mockWeatherData.

(** [results.map((location, index) => ...)] from the position [index]. *)
Fixpoint map_results `{Platform} (index : nat) (results : list GeoEntry)
  : list LocationSuggestion.t :=
  match results with
  | [] => []
  | location :: rest =>
      {| LocationSuggestion.id :=
           (String_of_number (geo_lat location) ++ "-"
            ++ String_of_number (geo_lon location) ++ "-"
            ++ String_of_number (inject_Z (Z.of_nat index)))%string;
         LocationSuggestion.name := geo_name location;
         LocationSuggestion.country := geo_country location;
         LocationSuggestion.state := geo_state location;
         LocationSuggestion.lat := geo_lat location;
         LocationSuggestion.lon := geo_lon location |}
      :: map_results (S index) rest
  end.

Module locationService.
Section Service.
Context `{Platform} `{Bundle}.

Definition searchLocations (query : string) (limit : Q) : M (list LocationSuggestion.t) :=
  if negb (nonempty (JS.trim query)) then ret []
  else
    try_catch
      (results <- apiClient.get (API_CONFIG.GEO_URL ++ "/direct")%string
                    [("q", PStr query); ("limit", PNum limit)] ;;
       match results with
       | JGeo results => ret (map_results 0 results)
       | _ => throw (TypeError "results.map is not a function")
       end)
      (fun error => ret (getMockLocationSuggestions query)).

Definition getLocationByCoords (lat lon : Q) : M (option LocationSuggestion.t) :=
  try_catch
    (results <- apiClient.get (API_CONFIG.GEO_URL ++ "/reverse")%string
                  [("lat", PNum lat); ("lon", PNum lon); ("limit", PNum 1)] ;;
     match results with
     | JGeo [] => ret None
     | JGeo (location :: _) =>
         ret (Some {| LocationSuggestion.id :=
                        (String_of_number (geo_lat location) ++ "-"
                         ++ String_of_number (geo_lon location))%string;
                      LocationSuggestion.name := geo_name location;
                      LocationSuggestion.country := geo_country location;
                      LocationSuggestion.state := geo_state location;
                      LocationSuggestion.lat := geo_lat location;
                      LocationSuggestion.lon := geo_lon location |})
     | _ => throw (TypeError "Cannot read properties of undefined")
     end)
    (fun error => ret None).
End Service.
End locationService.

(** ** The transformers *)

(** The own properties of the object literal [iconMapping]; both
    transformers declare the same table. *)
Definition iconMapping : list (string * WeatherCondition) :=
  [ ("01d", sunny); ("01n", sunny);
    ("02d", partly_cloudy); ("02n", partly_cloudy);
    ("03d", cloudy); ("03n", cloudy);
    ("04d", cloudy); ("04n", cloudy);
    ("09d", rainy); ("09n", rainy);
    ("10d", rainy); ("10n", rainy);
    ("11d", thunderstorm); ("11n", thunderstorm);
    ("13d", snowy); ("13n", snowy);
    ("50d", fog); ("50n", fog) ].

(** The members that every object literal inherits from
    [Object.prototype]; each of them is a function or an object. *)
Definition Object_prototype : list string :=
  [ "constructor"; "__defineGetter__"; "__defineSetter__"; "hasOwnProperty";
    "__lookupGetter__"; "__lookupSetter__"; "isPrototypeOf";
    "propertyIsEnumerable"; "toString"; "valueOf"; "__proto__";
    "toLocaleString" ].

Fixpoint own_property {A} (o : list (string * A)) (key : string) : option A :=
  match o with
  | [] => None
  | (k, v) :: rest => if (k =? key)%string then Some v else own_property rest key
  end.

(** [iconMapping[code]]: an own property, else an inherited member, else
    [undefined]. *)
Definition iconMapping_get (code : string) : IconValue :=
  match own_property iconMapping code with
  | Some c => Tag c
  | None =>
      if existsb (String.eqb code) Object_prototype then Inherited code
      else Undefined
  end.

(** [iconMapping[code] || 'sunny'] *)
Definition icon_of (code : string) : IconValue :=
  match iconMapping_get code with
  | Undefined => Tag sunny
  | v => v
  end.

Definition directions : list string :=
  [ "N"; "NNE"; "NE"; "ENE"; "E"; "ESE"; "SE"; "SSE";
    "S"; "SSW"; "SW"; "WSW"; "W"; "WNW"; "NW"; "NNW" ].

Definition getWindDirection (degrees : Q) : option string :=
  let index := JS.rem (JS.Math_round (degrees / 22.5)) 16 in
  JS.index directions index.

(** [xs[0]] followed by a member access: a [TypeError] on an empty array. *)
Definition first {A} (xs : list A) : Completion A :=
  match xs with
  | x :: _ => Normal x
  | [] => Throw (TypeError "Cannot read properties of undefined")
  end.

(** [v ? v / 1000 : 10] *)
Definition visibility_km (v : option Q) : Q :=
  match v with
  | Some x => if JS.truthy x then x / 1000 else 10
  | None => 10
  end.

Section Transform.
Context `{Platform}.

Definition transformWeatherData (apiData : OpenWeatherApiResponse.t)
  : Completion WeatherData.t :=
  w0 <-! first (OpenWeatherApiResponse.weather apiData) ;;
  let main := OpenWeatherApiResponse.main apiData in
  Normal
    {| WeatherData.location :=
         Some {| LocationData.name := OpenWeatherApiResponse.name apiData;
                 LocationData.country := Some (OpenWeatherApiResponse.sys_country apiData);
                 LocationData.region := None;
                 LocationData.lat := Some (OpenWeatherApiResponse.coord_lat apiData);
                 LocationData.lon := Some (OpenWeatherApiResponse.coord_lon apiData);
                 LocationData.timezone := None |};
       WeatherData.current :=
         {| CurrentWeatherData.temperature :=
              inject_Z (JS.Math_round (OpenWeather.temp main));
            CurrentWeatherData.feelsLike :=
              inject_Z (JS.Math_round (OpenWeather.feels_like main));
            CurrentWeatherData.condition := OpenWeather.main w0;
            CurrentWeatherData.description := OpenWeather.description w0;
            CurrentWeatherData.icon := icon_of (OpenWeather.icon w0);
            CurrentWeatherData.humidity := OpenWeather.humidity main;
            CurrentWeatherData.windSpeed := OpenWeatherApiResponse.wind_speed apiData;
            CurrentWeatherData.windDirection :=
              getWindDirection (JS.or_else (OpenWeatherApiResponse.wind_deg apiData) 0);
            CurrentWeatherData.pressure := OpenWeather.pressure main;
            CurrentWeatherData.visibility :=
              visibility_km (OpenWeatherApiResponse.visibility apiData);
            CurrentWeatherData.uvIndex := 0;
            CurrentWeatherData.sunrise :=
              toLocaleTimeString (OpenWeatherApiResponse.sys_sunrise apiData * 1000);
            CurrentWeatherData.sunset :=
              toLocaleTimeString (OpenWeatherApiResponse.sys_sunset apiData * 1000);
            CurrentWeatherData.dewPoint := 0;
            CurrentWeatherData.timestamp := Some (OpenWeatherApiResponse.dt apiData * 1000) |};
       WeatherData.hourly := [];
       WeatherData.daily := [];
       WeatherData.lastUpdated := None |}.

(** [Math.round((item.pop || 0) * 100)] *)
Definition percent (pop : option Q) : Q :=
  inject_Z (JS.Math_round (JS.or_else pop 0 * 100)).

(** The callback of [apiData.list.slice(0, 8).map]. *)
Definition hourlyEntry (now : Q) (item : ForecastItem.t) : Completion HourlyWeatherData.t :=
  let date := ForecastItem.dt item * 1000 in
  let main := ForecastItem.main item in
  w0 <-! first (ForecastItem.weather item) ;;
  Normal
    {| HourlyWeatherData.time :=
         if (getHours date =? getHours now)%Z then "Now" else toLocaleTimeString date;
       HourlyWeatherData.temperature := inject_Z (JS.Math_round (OpenWeather.temp main));
       HourlyWeatherData.icon := icon_of (OpenWeather.icon w0);
       HourlyWeatherData.precipitation := percent (ForecastItem.pop item);
       HourlyWeatherData.humidity := OpenWeather.humidity main;
       HourlyWeatherData.pressure := OpenWeather.pressure main;
       HourlyWeatherData.windSpeed := Some (ForecastItem.wind_speed item);
       HourlyWeatherData.feelsLike :=
         Some (inject_Z (JS.Math_round (OpenWeather.feels_like main))) |}.
End Transform.

(** ** The daily aggregation

    [daysMap] is an object used as a map from weekday labels to daily
    records; [Object.values] lists it in insertion order.  Its keys are
    labels produced by the weekday formatter of the platform, none of which
    names a member of [Object.prototype], so only own properties count. *)

Definition DaysMap : Type := list (string * DailyWeatherData.t).

(** [o[key] = v]: replaces the property in place or appends a new one. *)
Fixpoint assign {A} (o : list (string * A)) (key : string) (v : A) : list (string * A) :=
  match o with
  | [] => [(key, v)]
  | (k, x) :: rest =>
      if (k =? key)%string then (k, v) :: rest else (k, x) :: assign rest key v
  end.

Definition Object_values {A} (o : list (string * A)) : list A := map snd o.

Definition set_high (d : DailyWeatherData.t) (x : Q) : DailyWeatherData.t :=
  {| DailyWeatherData.day := DailyWeatherData.day d;
     DailyWeatherData.date := DailyWeatherData.date d;
     DailyWeatherData.high := x;
     DailyWeatherData.low := DailyWeatherData.low d;
     DailyWeatherData.icon := DailyWeatherData.icon d;
     DailyWeatherData.precipitation := DailyWeatherData.precipitation d;
     DailyWeatherData.humidity := DailyWeatherData.humidity d;
     DailyWeatherData.windSpeed := DailyWeatherData.windSpeed d;
     DailyWeatherData.description := DailyWeatherData.description d |}.

Definition set_low (d : DailyWeatherData.t) (x : Q) : DailyWeatherData.t :=
  {| DailyWeatherData.day := DailyWeatherData.day d;
     DailyWeatherData.date := DailyWeatherData.date d;
     DailyWeatherData.high := DailyWeatherData.high d;
     DailyWeatherData.low := x;
     DailyWeatherData.icon := DailyWeatherData.icon d;
     DailyWeatherData.precipitation := DailyWeatherData.precipitation d;
     DailyWeatherData.humidity := DailyWeatherData.humidity d;
     DailyWeatherData.windSpeed := DailyWeatherData.windSpeed d;
     DailyWeatherData.description := DailyWeatherData.description d |}.

(** The three assignments of the inner [if]. *)
Definition set_representative (d : DailyWeatherData.t)
           (icon : IconValue) (description : string) (precipitation : Q)
  : DailyWeatherData.t :=
  {| DailyWeatherData.day := DailyWeatherData.day d;
     DailyWeatherData.date := DailyWeatherData.date d;
     DailyWeatherData.high := DailyWeatherData.high d;
     DailyWeatherData.low := DailyWeatherData.low d;
     DailyWeatherData.icon := icon;
     DailyWeatherData.precipitation := precipitation;
     DailyWeatherData.humidity := DailyWeatherData.humidity d;
     DailyWeatherData.windSpeed := DailyWeatherData.windSpeed d;
     DailyWeatherData.description := Some description |}.

Section Forecast.
Context `{Platform}.

(** The weekday label of a forecast entry. *)
Definition day_of (item : ForecastItem.t) : string :=
  toLocaleDateString_weekday (ForecastItem.dt item * 1000).

(** [new Date(t).toISOString()] throws on an invalid date. *)
Definition Date_toISOString (t : Q) : Completion string :=
  if JS.valid_time t then Normal (toISOString t)
  else Throw (RangeError "Invalid time value").

(** The callback of [apiData.list.forEach], on the current [daysMap].
    The members of the new record are evaluated in the order of the
    source: the weather item before the date. *)
Definition aggregate (daysMap : DaysMap) (item : ForecastItem.t) : Completion DaysMap :=
  let date := ForecastItem.dt item * 1000 in
  let day := toLocaleDateString_weekday date in
  let main := ForecastItem.main item in
  match own_property daysMap day with
  | None =>
      w0 <-! first (ForecastItem.weather item) ;;
      iso <-! Date_toISOString date ;;
      Normal (assign daysMap day
                {| DailyWeatherData.day := day;
                   DailyWeatherData.high := OpenWeather.temp_max main;
                   DailyWeatherData.low := OpenWeather.temp_min main;
                   DailyWeatherData.icon := icon_of (OpenWeather.icon w0);
                   DailyWeatherData.precipitation := percent (ForecastItem.pop item);
                   DailyWeatherData.humidity := Some (OpenWeather.humidity main);
                   DailyWeatherData.windSpeed := Some (ForecastItem.wind_speed item);
                   DailyWeatherData.description := Some (OpenWeather.description w0);
                   DailyWeatherData.date := Some iso |})
  | Some d =>
      let d := set_high d (JS.Math_max (DailyWeatherData.high d) (OpenWeather.temp_max main)) in
      let d := set_low d (JS.Math_min (DailyWeatherData.low d) (OpenWeather.temp_min main)) in
      if JS.gt (JS.or_else (ForecastItem.pop item) 0)
               (JS.or_else (Some (DailyWeatherData.precipitation d)) 0)
      then
        w0 <-! first (ForecastItem.weather item) ;;
        Normal (assign daysMap day
                  (set_representative d (icon_of (OpenWeather.icon w0))
                     (OpenWeather.description w0) (percent (ForecastItem.pop item))))
      else Normal (assign daysMap day d)
  end.

(** [Object.values(daysMap).slice(0, 7)] after the [forEach]. *)
Definition dailyOf (items : list ForecastItem.t) : Completion (list DailyWeatherData.t) :=
  daysMap <-! cfold aggregate items [] ;;
  Normal (firstn 7 (Object_values daysMap)).

(** [now] is the reading of the clock by [Date.now()] and [new Date()]. *)
Definition transformForecastData (now : Q) (apiData : ForecastApiResponse.t)
  : Completion WeatherData.t :=
  let list := ForecastApiResponse.list_ apiData in
  hourly <-! cmap (hourlyEntry now) (firstn 8 list) ;;
  daily <-! dailyOf list ;;
  item0 <-! first list ;;
  w0 <-! first (ForecastItem.weather item0) ;;
  let main := ForecastItem.main item0 in
  Normal
    {| WeatherData.current :=
         {| CurrentWeatherData.temperature := inject_Z (JS.Math_round (OpenWeather.temp main));
            CurrentWeatherData.condition := OpenWeather.main w0;
            CurrentWeatherData.description := OpenWeather.description w0;
            CurrentWeatherData.icon := icon_of (OpenWeather.icon w0);
            CurrentWeatherData.feelsLike :=
              inject_Z (JS.Math_round (OpenWeather.feels_like main));
            CurrentWeatherData.humidity := OpenWeather.humidity main;
            CurrentWeatherData.windSpeed := ForecastItem.wind_speed item0;
            CurrentWeatherData.windDirection := Some "";
            CurrentWeatherData.pressure := OpenWeather.pressure main;
            CurrentWeatherData.visibility := visibility_km (ForecastItem.visibility item0);
            CurrentWeatherData.uvIndex := 0;
            CurrentWeatherData.sunrise :=
              toLocaleTimeString (ForecastApiResponse.city_sunrise apiData * 1000);
            CurrentWeatherData.sunset :=
              toLocaleTimeString (ForecastApiResponse.city_sunset apiData * 1000);
            CurrentWeatherData.dewPoint := 0;
            CurrentWeatherData.timestamp := Some (ForecastItem.dt item0 * 1000) |};
       WeatherData.hourly := hourly;
       WeatherData.daily := daily;
       WeatherData.location :=
         Some {| LocationData.name := ForecastApiResponse.city_name apiData;
                 LocationData.country := Some (ForecastApiResponse.city_country apiData);
                 LocationData.region := None;
                 LocationData.lat := Some (ForecastApiResponse.city_coord_lat apiData);
                 LocationData.lon := Some (ForecastApiResponse.city_coord_lon apiData);
                 LocationData.timezone :=
                   Some (String_of_number (ForecastApiResponse.city_timezone apiData)) |};
       WeatherData.lastUpdated := Some (toISOString now) |}.
End Forecast.

Module weatherService.
Section Service.
Context `{Platform} `{Bundle}.

Definition getCurrentWeather (lat lon : Q) : M WeatherData.t :=
  try_catch
    (data <- apiClient.get (API_CONFIG.BASE_URL ++ "/weather")%string
               [("lat", PNum lat); ("lon", PNum lon);
                ("units", PStr API_CONFIG.DEFAULT_UNITS);
                ("lang", PStr API_CONFIG.DEFAULT_LANG)] ;;
     match data with
     | JWeather apiData => lift (transformWeatherData apiData)
     | _ => throw (TypeError "Cannot read properties of undefined")
     end)
    (fun error => ret getMockWeatherData).

Definition getForecast (lat lon : Q) : M WeatherData.t :=
  try_catch
    (data <- apiClient.get (API_CONFIG.BASE_URL ++ "/forecast")%string
               [("lat", PNum lat); ("lon", PNum lon);
                ("units", PStr API_CONFIG.DEFAULT_UNITS);
                ("lang", PStr API_CONFIG.DEFAULT_LANG)] ;;
     match data with
     | JForecast apiData =>
         now <- clock ;;
         lift (transformForecastData now apiData)
     | _ => throw (TypeError "Cannot read properties of undefined")
     end)
    (fun error => ret getMockWeatherData).

Definition getWeatherByLocation (location : LocationSuggestion.t) : M WeatherData.t :=
  getCurrentWeather (LocationSuggestion.lat location) (LocationSuggestion.lon location).
End Service.
End weatherService.

Module weatherUtils.
Definition isAPIConfigured `{Bundle} : bool := nonempty API_CONFIG.API_KEY.

Definition getAPIStatus `{Bundle} : string :=
  if negb isAPIConfigured then "API key not configured - using mock data"
  else "API ready".
End weatherUtils.

End weatherApi.

(* ================================================================== *)
(** * [src/hooks/useWeather.ts]: the hook [useWeatherData] *)
(* ================================================================== *)

Module useWeather.
Import weatherApi.

(** [-?\d+(\.\d+)?] *)
Definition decimalPattern : JS.RegExp :=
  JS.Cat (JS.Opt (JS.Chr "-"))
         (JS.Cat (JS.Plus JS.Digit)
                 (JS.Opt (JS.Cat (JS.Chr ".") (JS.Plus JS.Digit)))).

(** [/^-?\d+(\.\d+)?\s*,\s*-?\d+(\.\d+)?$/] *)
Definition coordinatePattern : JS.RegExp :=
  JS.Cat decimalPattern
         (JS.Cat (JS.Star JS.Space)
                 (JS.Cat (JS.Chr ",")
                         (JS.Cat (JS.Star JS.Space) decimalPattern))).

Record Coords : Type := {
  lat : option Q;
  lon : option Q
}.

(** The state cells of the hook. *)
Record State : Type := {
  weatherData : WeatherData.t;
  isLoading : bool;
  error : option string;
  lastUpdated : Q
}.

Definition setIsLoading (b : bool) (st : State) : State :=
  {| weatherData := weatherData st; isLoading := b;
     error := error st; lastUpdated := lastUpdated st |}.

Definition setError (e : option string) (st : State) : State :=
  {| weatherData := weatherData st; isLoading := isLoading st;
     error := e; lastUpdated := lastUpdated st |}.

Definition setWeatherData (d : WeatherData.t) (st : State) : State :=
  {| weatherData := d; isLoading := isLoading st;
     error := error st; lastUpdated := lastUpdated st |}.

Definition setLastUpdated (x : Q) (st : State) : State :=
  {| weatherData := weatherData st; isLoading := isLoading st;
     error := error st; lastUpdated := x |}.

(** [{...current, hourly: forecast.hourly, daily: forecast.daily}] *)
Definition merge (current forecast : WeatherData.t) : WeatherData.t :=
  {| WeatherData.current := WeatherData.current current;
     WeatherData.hourly := WeatherData.hourly forecast;
     WeatherData.daily := WeatherData.daily forecast;
     WeatherData.location := WeatherData.location current;
     WeatherData.lastUpdated := WeatherData.lastUpdated current |}.

(** [const [lat, lon] = xs]: a missing element is [undefined]. *)
Definition element (xs : list (option Q)) (i : nat) : option Q :=
  match nth_error xs i with
  | Some x => x
  | None => None
  end.

Section Hook.
Context `{Platform} `{Bundle}.

(** The state of the first render. *)
Definition initialState (now : Q) : State :=
  {| weatherData := mockWeatherData; isLoading := false;
     error := None; lastUpdated := now |}.

Definition parseLocation (location : option string) : M (option Coords) :=
  match location with
  | None => ret None
  | Some location =>
      if negb (nonempty location) then ret None
      else if JS.test coordinatePattern location then
        let numbers := map JS.Number (JS.split "," location) in
        ret (Some {| lat := element numbers 0; lon := element numbers 1 |})
      else
        results <- locationService.searchLocations location 1 ;;
        match results with
        | r0 :: _ =>
            ret (Some {| lat := Some (LocationSuggestion.lat r0);
                         lon := Some (LocationSuggestion.lon r0) |})
        | [] => ret None
        end
  end.

(** The body of the [try] block, from the state [st] after the two
    initial setters. *)
Definition fetchBody (st : State) (location : option string) : M State :=
  coords <-
    (match location with
     | Some l => if nonempty l then parseLocation (Some l) else ret None
     | None => ret None
     end) ;;
  data <-
    (match coords with
     | Some {| lat := Some lat; lon := Some lon |} =>
         if weatherUtils.isAPIConfigured && JS.truthy lat && JS.truthy lon then
           both <- Promise_all2 (weatherService.getCurrentWeather lat lon)
                                (weatherService.getForecast lat lon) ;;
           ret (merge (fst both) (snd both))
         else ret mockWeatherData
     | _ => ret mockWeatherData
     end) ;;
  now <- clock ;;
  ret (setLastUpdated now (setWeatherData data st)).

Definition fetchWeatherData (st : State) (location : option string) : M State :=
  let st := setError None (setIsLoading true st) in
  st' <- try_catch (fetchBody st location)
                   (fun err => ret (setError (Some (error_message err)) st)) ;;
  ret (setIsLoading false st').

Definition refreshWeatherData (st : State) : M State := fetchWeatherData st None.
End Hook.

(** ** The hook [useLocationSearch] *)

(** An element of [searchResults]: the fields of [LocationData] that the
    hook fills, and the suggestion it was made from. *)
Module LocationResult.
Record t : Type := {
  name : string;
  country : string;
  region : option string;
  lat : Q;
  lon : Q;
  originalLocation : LocationSuggestion.t
}.
End LocationResult.

Module useLocationSearch.

Record State : Type := {
  searchQuery : string;
  isSearching : bool;
  searchResults : list LocationResult.t
}.

Definition setIsSearching (b : bool) (st : State) : State :=
  {| searchQuery := searchQuery st; isSearching := b; searchResults := searchResults st |}.

Definition setSearchResults (rs : list LocationResult.t) (st : State) : State :=
  {| searchQuery := searchQuery st; isSearching := isSearching st; searchResults := rs |}.

(** [x ? `, ${x}` : ""] *)
Definition suffix (x : string) : string :=
  if weatherApi.nonempty x then (", " ++ x)%string else "".

(** The callback of [results.map]. *)
Definition toLocationData (loc : LocationSuggestion.t) : LocationResult.t :=
  {| LocationResult.name :=
       (LocationSuggestion.name loc
        ++ match LocationSuggestion.state loc with
           | Some s => suffix s
           | None => ""
           end
        ++ suffix (LocationSuggestion.country loc))%string;
     LocationResult.country := LocationSuggestion.country loc;
     LocationResult.region := LocationSuggestion.state loc;
     LocationResult.lat := LocationSuggestion.lat loc;
     LocationResult.lon := LocationSuggestion.lon loc;
     LocationResult.originalLocation := loc |}.

Section Search.
Context `{Platform} `{Bundle}.

Definition searchLocations (st : State) (query : string) : M State :=
  if negb (weatherApi.nonempty (JS.trim query)) then ret (setSearchResults [] st)
  else
    let st := setIsSearching true st in
    st' <- try_catch
             (results <- weatherApi.locationService.searchLocations query 5 ;;
              ret (setSearchResults (map toLocationData results) st))
             (fun err => ret (setSearchResults [] st)) ;;
    ret (setIsSearching false st').
End Search.
End useLocationSearch.

(** ** The hook [useResponsive] *)

Module useResponsive.

Record State : Type := {
  isMobile : bool;
  isTablet : bool;
  isPortrait : bool
}.

(** The state before the effect has run. *)
Definition initialState : State :=
  {| isMobile := false; isTablet := false; isPortrait := false |}.

(** [checkViewport] on a window of [width] by [height]. *)
Definition checkViewport (width height : Q) : State :=
  {| isMobile := JS.lt width 768;
     isTablet := JS.ge width 768 && JS.lt width 1024;
     isPortrait := JS.gt height width |}.

(** What the hook returns. *)
Module Result.
Record t : Type := {
  isMobile : bool;
  isTablet : bool;
  isDesktop : bool;
  isPortrait : bool;
  isLandscape : bool
}.
End Result.

Definition result (st : State) : Result.t :=
  {| Result.isMobile := isMobile st;
     Result.isTablet := isTablet st;
     Result.isDesktop := negb (isMobile st) && negb (isTablet st);
     Result.isPortrait := isPortrait st;
     Result.isLandscape := negb (isPortrait st) |}.
End useResponsive.

End useWeather.

(* ================================================================== *)
(** * [src/lib/weatherUtils.ts]: clock times *)
(* ================================================================== *)

Module weatherUtilsTs.

(** [s.padStart(2, '0')] *)
Definition padStart2 (s : string) : string :=
  match String.length s with
  | O => "00"
  | S O => ("0" ++ s)%string
  | _ => s
  end.

(** [period === p], where [period] may be undefined. *)
Definition is_period (p : string) (period : option string) : bool :=
  match period with
  | Some x => (x =? p)%string
  | None => false
  end.

(** A [Date] seen through [getHours] and [getMinutes]. *)
Record Clock : Type := {
  hours : Z;
  minutes : Z
}.

Section Times.
Context `{Platform}.

(** [x.toString()] for a number that may be [NaN]. *)
Definition toString (x : option Q) : string :=
  match x with
  | Some q => String_of_number q
  | None => "NaN"
  end.

(** The [catch] branch is taken when [minutes] is undefined: the string
    has no colon. *)
Definition convertTo12Hour (time24 : string) : string :=
  match map JS.Number (JS.split ":" time24) with
  | hours :: minutes :: _ =>
      let period :=
        if match hours with Some h => JS.ge h 12 | None => false end
        then "PM" else "AM" in
      let hour12 :=
        match hours with
        | Some h => let r := JS.fmod h 12 in if JS.truthy r then r else 12
        | None => 12
        end in
      (String_of_number hour12 ++ ":" ++ padStart2 (toString minutes) ++ " " ++ period)%string
  | _ => time24
  end.

(** [None] is [NaN]: a part that is no number, or no minutes at all. *)
Definition parseTimeString (timeStr : string) : option Q :=
  let parts := JS.split " " timeStr in
  let time := match parts with t :: _ => t | [] => "" end in
  let period := nth_error parts 1 in
  let numbers := map JS.Number (JS.split ":" time) in
  match useWeather.element numbers 0, useWeather.element numbers 1 with
  | Some hours, Some minutes =>
      let totalMinutes := hours * 60 + minutes in
      let totalMinutes :=
        if is_period "PM" period && negb (JS.eq hours 12)
        then totalMinutes + 12 * 60 else totalMinutes in
      let totalMinutes :=
        if is_period "AM" period && JS.eq hours 12
        then totalMinutes - 12 * 60 else totalMinutes in
      Some totalMinutes
  | _, _ => None
  end.

(** A comparison with [NaN] is false. *)
Definition isDayTime (currentTime : option Clock) (sunrise sunset : option string) : bool :=
  match currentTime, sunrise, sunset with
  | Some c, Some sr, Some ss =>
      if weatherApi.nonempty sr && weatherApi.nonempty ss then
        let now := inject_Z (hours c * 60 + minutes c) in
        match parseTimeString sr, parseTimeString ss with
        | Some sunriseTime, Some sunsetTime => JS.ge now sunriseTime && JS.le now sunsetTime
        | _, _ => false
        end
      else true
  | _, _, _ => true
  end.
End Times.
End weatherUtilsTs.

(* ================================================================== *)
(** * [src/components/weather/WeatherDetails.tsx]: the handlers of
      [WeatherDashboard] *)
(* ================================================================== *)

Module WeatherDashboard.
Import Http weatherApi.

(** [s.replace(/\s+/g, ', ')]: every maximal run of white space becomes a
    comma and a space.  [in_run] tells that the previous character was white
    space. *)
Fixpoint commas_chars (in_run : bool) (cs : list ascii) : list ascii :=
  match cs with
  | [] => []
  | c :: r =>
      if JS.is_space c
      then (if in_run then commas_chars true r
            else "," :: " " :: commas_chars true r)%char
      else c :: commas_chars false r
  end.

Definition commas (s : string) : string := JS.str (commas_chars false (JS.chars s)).

(** [s.replace(/([p1])([p2])/g, '$1 $2')]: the matches are taken from left
    to right and do not overlap, so the search goes on after the second
    character of a match. *)
Fixpoint spaced_chars (p1 p2 : ascii -> bool) (cs : list ascii) : list ascii :=
  match cs with
  | [] => []
  | a :: rest =>
      match rest with
      | [] => [a]
      | b :: r =>
          if p1 a && p2 b then (a :: " " :: b :: spaced_chars p1 p2 r)%char
          else a :: spaced_chars p1 p2 rest
      end
  end.

(** The classes [a-z], [A-Z0-9] and [a-zA-Z]. *)
Definition is_lower (c : ascii) : bool :=
  let n := nat_of_ascii c in ((97 <=? n) && (n <=? 122))%nat.
Definition is_upper (c : ascii) : bool :=
  let n := nat_of_ascii c in ((65 <=? n) && (n <=? 90))%nat.
Definition is_upper_or_digit (c : ascii) : bool := is_upper c || JS.is_digit c.
Definition is_letter (c : ascii) : bool := is_lower c || is_upper c.

(** [s.replace(/([a-z])([A-Z0-9])/g, '$1 $2').replace(/([0-9])([a-zA-Z])/g, '$1 $2')] *)
Definition spaced (s : string) : string :=
  JS.str (spaced_chars JS.is_digit is_letter
            (spaced_chars is_lower is_upper_or_digit (JS.chars s))).

(** The spellings that [handleDirectSearch] tries, in order. *)
Definition attempts (original : string) : list string :=
  [original; commas original; spaced original; commas (spaced original)].

(** [[loc.name, loc.state, loc.country].filter(Boolean).join(", ")] *)
Definition Boolean_string (x : option string) : bool :=
  match x with
  | Some s => nonempty s
  | None => false
  end.

Fixpoint somes (xs : list (option string)) : list string :=
  match xs with
  | [] => []
  | Some s :: r => s :: somes r
  | None :: r => somes r
  end.

Definition formatted (loc : LocationSuggestion.t) : string :=
  String.concat ", "
    (somes (filter Boolean_string
              [Some (LocationSuggestion.name loc); LocationSuggestion.state loc;
               Some (LocationSuggestion.country loc)])).

Record Toast : Type := {
  title : string;
  description : string;
  variant : string
}.

(** The state that the handlers read and write: the [location] of the
    component, the entry [weather-last-location] of [localStorage], the
    states of the two hooks and the toasts shown so far, oldest first.  The
    storage is taken to accept every write. *)
Record State : Type := {
  location : string;
  lastLocation : option string;
  weather : useWeather.State;
  search : useWeather.useLocationSearch.State;
  toasts : list Toast
}.

Definition setLocation (l : string) (st : State) : State :=
  {| location := l; lastLocation := lastLocation st; weather := weather st;
     search := search st; toasts := toasts st |}.

Definition setItem (l : string) (st : State) : State :=
  {| location := location st; lastLocation := Some l; weather := weather st;
     search := search st; toasts := toasts st |}.

Definition setWeather (h : useWeather.State) (st : State) : State :=
  {| location := location st; lastLocation := lastLocation st; weather := h;
     search := search st; toasts := toasts st |}.

Definition setSearchQuery (q : string) (st : State) : State :=
  {| location := location st; lastLocation := lastLocation st; weather := weather st;
     search := {| useWeather.useLocationSearch.searchQuery := q;
                  useWeather.useLocationSearch.isSearching :=
                    useWeather.useLocationSearch.isSearching (search st);
                  useWeather.useLocationSearch.searchResults :=
                    useWeather.useLocationSearch.searchResults (search st) |};
     toasts := toasts st |}.

Definition toast (t : Toast) (st : State) : State :=
  {| location := location st; lastLocation := lastLocation st; weather := weather st;
     search := search st; toasts := (toasts st ++ [t])%list |}.

Definition searchQuery (st : State) : string :=
  useWeather.useLocationSearch.searchQuery (search st).

Definition notFound (query : string) : Toast :=
  {| title := "Location not found";
     description :=
       String "034"
              (query ++ String "034" " is not a valid location. Please try another search.");
     variant := "destructive" |}.

Definition selectFailed : Toast :=
  {| title := "Location not found";
     description := "Please try searching for a valid location.";
     variant := "destructive" |}.

(** The argument of [handleLocationSelect]. *)
Record LocationType : Type := {
  name : string;
  lat : option Q;
  lon : option Q;
  originalLocation : option (Q * Q)
}.

(** The state with which a handler ends after a fetch of the hook that
    ended with [hook], for the place named [l]. *)
Definition selected (l : string) (hook : useWeather.State) (st : State) : State :=
  setSearchQuery "" (setItem l (setLocation l (setWeather hook st))).

(** [useState(() => localStorage.getItem(...) || "Asaba, Delta State, Nigeria")] *)
Definition initialLocation (stored : option string) : string :=
  match stored with
  | Some l => if nonempty l then l else "Asaba, Delta State, Nigeria"
  | None => "Asaba, Delta State, Nigeria"
  end.

Section Handlers.
Context `{Platform} `{Bundle}.

(** A number in a template literal, [undefined] included. *)
Definition template (x : option Q) : string :=
  match x with
  | Some q => String_of_number q
  | None => "undefined"
  end.

Definition coords_of (lat lon : option Q) : string :=
  (template lat ++ "," ++ template lon)%string.

(** The loop over the attempts, from the results of the attempt before:
    [found] and [results] when it is left. *)
Fixpoint tryAttempts (todo : list string) (results : list LocationSuggestion.t)
  : M (bool * list LocationSuggestion.t) :=
  match todo with
  | [] => ret (false, results)
  | attempt :: rest =>
      results <- locationService.searchLocations attempt 1 ;;
      match results with
      | _ :: _ => ret (true, results)
      | [] => tryAttempts rest results
      end
  end.

Definition handleDirectSearch (st : State) : M State :=
  if negb (nonempty (JS.trim (searchQuery st))) then ret st
  else
    try_catch
      (let original := JS.trim (searchQuery st) in
       found_results <- tryAttempts (attempts original) [] ;;
       match found_results with
       | (true, loc :: _) =>
           hook <- useWeather.fetchWeatherData (weather st)
                     (Some (coords_of (Some (LocationSuggestion.lat loc))
                                      (Some (LocationSuggestion.lon loc)))) ;;
           ret (selected (formatted loc) hook st)
       | _ => ret (toast (notFound (searchQuery st)) st)
       end)
      (fun err => ret (toast (notFound (searchQuery st)) st)).

Definition handleLocationSelect (st : State) (selectedLocation : LocationType) : M State :=
  try_catch
    (let coords :=
       match originalLocation selectedLocation with
       | Some (lat, lon) => coords_of (Some lat) (Some lon)
       | None => coords_of (lat selectedLocation) (lon selectedLocation)
       end in
     hook <- useWeather.fetchWeatherData (weather st) (Some coords) ;;
     ret (selected (name selectedLocation) hook st))
    (fun err => ret (toast selectFailed st)).
End Handlers.
End WeatherDashboard.

(* ================================================================== *)
(** * A reference platform and sample payloads, for the examples *)
(* ================================================================== *)

Module Reference.

Definition string_of_Z (z : Z) : string := NilZero.string_of_int (Z.to_int z).

Definition two_digits (z : Z) : string :=
  if (z <? 10)%Z then ("0" ++ string_of_Z z)%string else string_of_Z z.

Definition weekdays : list string := ["Thu"; "Fri"; "Sat"; "Sun"; "Mon"; "Tue"; "Wed"].

(** UTC calendar, 24-hour clock, integers printed in decimal and other
    numbers as a fraction, a polynomial for the sine. *)
Definition utc : Platform :=
  {| getHours := fun ms => (Qfloor (ms / 3600000) mod 24)%Z;
     toLocaleTimeString := fun ms =>
       (two_digits (Qfloor (ms / 3600000) mod 24) ++ ":"
        ++ two_digits (Qfloor (ms / 60000) mod 60))%string;
     toLocaleDateString_weekday := fun ms =>
       nth (Z.to_nat (Qfloor (ms / 86400000) mod 7)) weekdays "";
     toISOString := fun ms => ("@" ++ string_of_Z (Qfloor ms))%string;
     String_of_number := fun x =>
       if (Zpos (Qden x) =? 1)%Z then string_of_Z (Qnum x)
       else (string_of_Z (Qnum x) ++ "/" ++ string_of_Z (Zpos (Qden x)))%string;
     Math_sin := fun x => x - x * x * x / 6 + x * x * x * x * x / 120;
     Math_PI := 3.141592653589793 |}.

Definition weather_item (icon description : string) : OpenWeather.weather_item :=
  {| OpenWeather.main := description;
     OpenWeather.description := description;
     OpenWeather.icon := icon |}.

Definition main_block (temp temp_min temp_max : Q) : OpenWeather.main_block :=
  {| OpenWeather.temp := temp;
     OpenWeather.feels_like := temp;
     OpenWeather.temp_min := temp_min;
     OpenWeather.temp_max := temp_max;
     OpenWeather.pressure := 1015;
     OpenWeather.humidity := 50 |}.

(** A forecast entry at [dt] seconds. *)
Definition item (dt : Q) (temp_min temp_max : Q) (icon description : string) (pop : Q)
  : ForecastItem.t :=
  {| ForecastItem.dt := dt;
     ForecastItem.main := main_block temp_min temp_min temp_max;
     ForecastItem.weather := [weather_item icon description];
     ForecastItem.wind_speed := 3;
     ForecastItem.visibility := Some 10000;
     ForecastItem.pop := Some pop |}.

Definition current_payload (icon : string) : OpenWeatherApiResponse.t :=
  {| OpenWeatherApiResponse.coord_lon := -74.01;
     OpenWeatherApiResponse.coord_lat := 40.71;
     OpenWeatherApiResponse.weather := [weather_item icon "clear sky"];
     OpenWeatherApiResponse.main := main_block 21.4 19 23;
     OpenWeatherApiResponse.visibility := Some 10000;
     OpenWeatherApiResponse.wind_speed := 4;
     OpenWeatherApiResponse.wind_deg := Some 180;
     OpenWeatherApiResponse.dt := 36000;
     OpenWeatherApiResponse.sys_country := "US";
     OpenWeatherApiResponse.sys_sunrise := 21600;
     OpenWeatherApiResponse.sys_sunset := 64800;
     OpenWeatherApiResponse.name := "New York" |}.

Definition forecast_payload : ForecastApiResponse.t :=
  {| ForecastApiResponse.list_ :=
       [ item 36000 12 15 "01d" "clear sky" 0.2;
         item 46800 14 19 "10d" "light rain" 0.9 ];
     ForecastApiResponse.city_name := "New York";
     ForecastApiResponse.city_coord_lat := 40.71;
     ForecastApiResponse.city_coord_lon := -74.01;
     ForecastApiResponse.city_country := "US";
     ForecastApiResponse.city_timezone := -18000;
     ForecastApiResponse.city_sunrise := 21600;
     ForecastApiResponse.city_sunset := 64800 |}.

(** The bundle loaded at nine o'clock with every random draw equal to
    one half. *)
Definition bundle (key : option string) : Bundle :=
  @load utc key 9%Z (fun _ => 0.5).

(** A world where every request is rejected, and one where the network
    answers the current-weather request only. *)
Definition offline : World :=
  {| fetch := fun _ => Http.Rejected "Failed to fetch"; Date_now := 40000000 |}.

Definition only_current : World :=
  {| fetch := fun url =>
       if (Http.endpoint url =? weatherApi.API_CONFIG.BASE_URL ++ "/weather")%string
       then Http.Replied 200 "OK" (Http.IsJson (Http.JWeather (current_payload "01d")))
       else Http.Rejected "Failed to fetch";
     Date_now := 40000000 |}.

Definition only_forecast : World :=
  {| fetch := fun url =>
       if (Http.endpoint url =? weatherApi.API_CONFIG.BASE_URL ++ "/forecast")%string
       then Http.Replied 200 "OK" (Http.IsJson (Http.JForecast forecast_payload))
       else Http.Rejected "Failed to fetch";
     Date_now := 40000000 |}.

(** A later moment, at which the service answers with an error status. *)
Definition later : World :=
  {| fetch := fun _ => Http.Replied 503 "Service Unavailable" Http.NotJson;
     Date_now := 90000000 |}.

(** The bundle configured with a key. *)
Definition demo : Bundle := bundle (Some "demo-key").

End Reference.

(** A network that answers every request, and knows one place. *)
Module Online.
Import Http weatherApi Reference.

Definition new_york : GeoEntry :=
  {| geo_name := "New York";
     geo_country := "US";
     geo_state := Some "NY";
     geo_lat := 40.71;
     geo_lon := -74.01 |}.

(** The request carries the search parameter [key] with [value]. *)
Definition asks (url : Request) (key value : string) : bool :=
  existsb (fun kv => (fst kv =? key)%string && (snd kv =? value)%string) (searchParams url).

Definition online : World :=
  {| fetch := fun url =>
       if (endpoint url =? API_CONFIG.GEO_URL ++ "/direct")%string then
         Replied 200 "OK"
                 (IsJson (JGeo (if asks url "q" "New York" then [new_york] else [])))
       else if (endpoint url =? API_CONFIG.GEO_URL ++ "/reverse")%string then
         Replied 200 "OK" (IsJson (JGeo [new_york]))
       else if (endpoint url =? API_CONFIG.BASE_URL ++ "/weather")%string then
         Replied 200 "OK" (IsJson (JWeather (current_payload "01d")))
       else if (endpoint url =? API_CONFIG.BASE_URL ++ "/forecast")%string then
         Replied 200 "OK" (IsJson (JForecast forecast_payload))
       else Rejected "Failed to fetch";
     Date_now := 40000000 |}.

(** A forecast whose only entry is dated beyond the time values of
    [Date], and a network that answers with it. *)
Definition undatable_payload : ForecastApiResponse.t :=
  {| ForecastApiResponse.list_ := [ item 10000000000000 12 15 "01d" "clear sky" 0.2 ];
     ForecastApiResponse.city_name := "New York";
     ForecastApiResponse.city_coord_lat := 40.71;
     ForecastApiResponse.city_coord_lon := -74.01;
     ForecastApiResponse.city_country := "US";
     ForecastApiResponse.city_timezone := -18000;
     ForecastApiResponse.city_sunrise := 21600;
     ForecastApiResponse.city_sunset := 64800 |}.

Definition undatable : World :=
  {| fetch := fun url =>
       if (endpoint url =? API_CONFIG.BASE_URL ++ "/forecast")%string
       then Replied 200 "OK" (IsJson (JForecast undatable_payload))
       else Rejected "Failed to fetch";
     Date_now := 40000000 |}.

(** The dashboard before a search for [query]. *)
Definition dashboard (query : string) : WeatherDashboard.State :=
  {| WeatherDashboard.location := "Asaba, Delta State, Nigeria";
     WeatherDashboard.lastLocation := None;
     WeatherDashboard.weather := @useWeather.initialState demo 0;
     WeatherDashboard.search :=
       {| useWeather.useLocationSearch.searchQuery := query;
          useWeather.useLocationSearch.isSearching := false;
          useWeather.useLocationSearch.searchResults := [] |};
     WeatherDashboard.toasts := [] |}.
End Online.

(* ================================================================== *)
(** * The requests of the services and their outcomes *)
(* ================================================================== *)

Module Requests.
Import Http weatherApi.
Section Urls.
Context `{Platform} `{Bundle}.

Definition geocoding_url (query : string) (limit : Q) : Request :=
  apiClient.url_of (API_CONFIG.GEO_URL ++ "/direct")%string
    [("q", PStr query); ("limit", PNum limit)].

Definition weather_url (lat lon : Q) : Request :=
  apiClient.url_of (API_CONFIG.BASE_URL ++ "/weather")%string
    [("lat", PNum lat); ("lon", PNum lon);
     ("units", PStr API_CONFIG.DEFAULT_UNITS); ("lang", PStr API_CONFIG.DEFAULT_LANG)].

Definition forecast_url (lat lon : Q) : Request :=
  apiClient.url_of (API_CONFIG.BASE_URL ++ "/forecast")%string
    [("lat", PNum lat); ("lon", PNum lon);
     ("units", PStr API_CONFIG.DEFAULT_UNITS); ("lang", PStr API_CONFIG.DEFAULT_LANG)].

Definition reverse_url (lat lon : Q) : Request :=
  apiClient.url_of (API_CONFIG.GEO_URL ++ "/reverse")%string
    [("lat", PNum lat); ("lon", PNum lon); ("limit", PNum 1)].
End Urls.

(** The requests of one call of [locationService.searchLocations]. *)
Definition search_requests `{Platform} `{Bundle} (query : string) (limit : Q)
  : list Request :=
  if nonempty (JS.trim query) then [geocoding_url query limit] else [].

(** The request fails: a network error or a response outside 2xx. *)
Definition request_fails (w : World) (url : Request) : Prop :=
  match fetch w url with
  | Rejected _ => True
  | Replied status _ _ => ok status = false
  end.

(** The request succeeds with the JSON body [j]. *)
Definition request_yields (w : World) (url : Request) (j : Json) : Prop :=
  exists status statusText,
    fetch w url = Replied status statusText (IsJson j) /\ ok status = true.

(** The geocoding requests of [parseLocation]: one, for a text that is
    neither empty, nor a coordinate pair, nor blank. *)
Definition geocoding_requests `{Platform} `{Bundle} (location : option string)
  : list Request :=
  match location with
  | Some l =>
      if nonempty l && negb (JS.test useWeather.coordinatePattern l) && nonempty (JS.trim l)
      then [geocoding_url l 1]
      else []
  | None => []
  end.

(** The guard [coords && coords.lat && coords.lon] of the hook. *)
Definition usable (coords : option useWeather.Coords) : bool :=
  match coords with
  | Some {| useWeather.lat := Some lat; useWeather.lon := Some lon |} =>
      JS.truthy lat && JS.truthy lon
  | _ => false
  end.

(** The state of the hook after a fetch that stored [data] at [now]. *)
Definition settled (data : WeatherData.t) (now : Q) : useWeather.State :=
  {| useWeather.weatherData := data;
     useWeather.isLoading := false;
     useWeather.error := None;
     useWeather.lastUpdated := now |}.
End Requests.

(* ================================================================== *)
(** * Buckets and extrema of the daily aggregation *)
(* ================================================================== *)

Module Aggregation.
Import weatherApi.

Definition is_max (x : Q) (xs : list Q) : Prop := In x xs /\ forall y, In y xs -> y <= x.
Definition is_min (x : Q) (xs : list Q) : Prop := In x xs /\ forall y, In y xs -> x <= y.

Definition temp_max_of (item : ForecastItem.t) : Q := OpenWeather.temp_max (ForecastItem.main item).
Definition temp_min_of (item : ForecastItem.t) : Q := OpenWeather.temp_min (ForecastItem.main item).

(** The entries of [items] whose weekday label is [label], in order. *)
Definition bucket `{Platform} (items : list ForecastItem.t) (label : string)
  : list ForecastItem.t :=
  filter (fun item => (day_of item =? label)%string) items.

(** [daysMap] summarises the entries [done] processed so far. *)
Definition summarises `{Platform} (done : list ForecastItem.t) (daysMap : DaysMap) : Prop :=
  NoDup (map fst daysMap) /\
  (forall item, In item done -> In (day_of item) (map fst daysMap)) /\
  (forall k d, In (k, d) daysMap ->
               DailyWeatherData.day d = k /\
               is_max (DailyWeatherData.high d) (map temp_max_of (bucket done k)) /\
               is_min (DailyWeatherData.low d) (map temp_min_of (bucket done k))).
End Aggregation.

Module DailyRecords.
Import weatherApi Aggregation.

(** The labels of a list in the order of their first occurrence. *)
Definition first_occurrences (labels : list string) : list string :=
  fold_left (fun seen l => if in_dec string_dec l seen then seen else (seen ++ [l])%list)
            labels [].

(** The record [d] of the day [k] holds the date, humidity and wind speed of
    the first entry of the day among [done], and the icon, description and
    precipitation of one and the same entry of that day. *)
Definition represents `{Platform} (done : list ForecastItem.t) (k : string)
           (d : DailyWeatherData.t) : Prop :=
  (exists first rest,
      bucket done k = first :: rest /\
      DailyWeatherData.date d = Some (toISOString (ForecastItem.dt first * 1000)) /\
      DailyWeatherData.humidity d = Some (OpenWeather.humidity (ForecastItem.main first)) /\
      DailyWeatherData.windSpeed d = Some (ForecastItem.wind_speed first)) /\
  (exists rep w0 ws,
      In rep (bucket done k) /\
      ForecastItem.weather rep = w0 :: ws /\
      DailyWeatherData.icon d = icon_of (OpenWeather.icon w0) /\
      DailyWeatherData.description d = Some (OpenWeather.description w0) /\
      DailyWeatherData.precipitation d = percent (ForecastItem.pop rep)).

(** A whole number of percent, from 0 to 100. *)
Definition is_percentage (x : Q) : Prop :=
  exists z : Z, x = inject_Z z /\ (0 <= z <= 100)%Z.

(** A probability: absent, or a number from 0 to 1. *)
Definition is_probability (pop : option Q) : Prop :=
  match pop with
  | Some p => 0 <= p <= 1
  | None => True
  end.
End DailyRecords.

Module MockRanges.

(** A whole number from [lo] to [hi]. *)
Definition whole_between (lo hi : Z) (x : Q) : Prop :=
  exists z : Z, x = inject_Z z /\ (lo <= z <= hi)%Z.

(** The ranges of a generated hourly entry: one of the four conditions of
    the pattern, a precipitation that fits the condition, and humidity,
    pressure and wind speed within their bands. *)
Definition in_ranges (e : HourlyWeatherData.t) : Prop :=
  (exists c,
      HourlyWeatherData.icon e = Tag c /\
      match c with
      | rainy => whole_between 60 90 (HourlyWeatherData.precipitation e)
      | cloudy => whole_between 0 20 (HourlyWeatherData.precipitation e)
      | partly_cloudy => whole_between 0 10 (HourlyWeatherData.precipitation e)
      | sunny => HourlyWeatherData.precipitation e = 0
      | _ => False
      end) /\
  whole_between 45 93 (HourlyWeatherData.humidity e) /\
  whole_between 1010 1025 (HourlyWeatherData.pressure e) /\
  (exists speed,
      HourlyWeatherData.windSpeed e = Some speed /\ whole_between 5 15 speed) /\
  HourlyWeatherData.feelsLike e = None.
End MockRanges.

Module Clock12.

(** The hour of the 12-hour clock for the hour [h] of the day. *)
Definition hour12_of (h : Z) : Z := if (h mod 12 =? 0)%Z then 12%Z else (h mod 12)%Z.

(** The platform prints the whole numbers below 60 in decimal digits. *)
Definition prints_decimal `{Platform} : Prop :=
  forall n : Z, (0 <= n < 60)%Z -> String_of_number (inject_Z n) = JS.decimal n.

(** A string without the character [c]. *)
Definition lacks (c : ascii) (s : string) : Prop :=
  Forall (fun x => Ascii.eqb x c = false) (JS.chars s).
End Clock12.

Module Traces.

(** The computation appends its requests to the trace it starts from, and
    neither the requests nor the result depend on that trace. *)
Definition framed {A : Type} (m : M A) : Prop :=
  forall w t, m w t = (fst (m w []), (t ++ snd (m w []))%list).
End Traces.

Module DirectSearch.
Import weatherApi WeatherDashboard.

(** The search for one result of [attempt] returns [results] in [w]. *)
Definition finds `{Platform} `{Bundle} (w : World) (attempt : string)
           (results : list LocationSuggestion.t) : Prop :=
  fst (run (locationService.searchLocations attempt 1) w) = Normal results.

(** Some character that satisfies [p1] is followed by one that satisfies
    [p2]. *)
Fixpoint has_pair (p1 p2 : ascii -> bool) (cs : list ascii) : bool :=
  match cs with
  | [] => false
  | a :: rest =>
      match rest with
      | [] => false
      | b :: _ => p1 a && p2 b || has_pair p1 p2 rest
      end
  end.

(** One plain word: no white space, no lower-case letter before a capital
    or a digit, no digit before a letter. *)
Definition plain (s : string) : bool :=
  forallb (fun c => negb (JS.is_space c)) (JS.chars s)
  && negb (has_pair is_lower is_upper_or_digit (JS.chars s))
  && negb (has_pair JS.is_digit is_letter (JS.chars s)).
End DirectSearch.

(* ================================================================== *)
(** * Coordinate strings: what the pattern denotes and what they mean *)
(* ================================================================== *)

Module Coordinates.
Import JS.


(** A decimal literal: sign, integer digits, fraction digits if any. *)
Record Decimal : Type := {
  negative : bool;
  integer : list ascii;
  fraction : option (list ascii)
}.





(** Place values: [d1 d2 ... dn] before the point, [0.d1 d2 ... dn] after. *)
Definition mantissa (acc : Z) (ds : list ascii) : Z :=
  fold_left (fun a c => (a * 10 + digit_of c)%Z) ds acc.

Definition integer_value (ds : list ascii) : Z := mantissa 0 ds.

Fixpoint fraction_value (fs : list ascii) : Q :=
  match fs with
  | [] => 0
  | c :: rest => (inject_Z (digit_of c) + fraction_value rest) / 10
  end.

Definition value (d : Decimal) : Q :=
  let magnitude :=
    inject_Z (integer_value (integer d))
    + match fraction d with
      | Some fs => fraction_value fs
      | None => 0
      end in
  if negative d then - magnitude else magnitude.


(** ** The numbers of the language

    The doubles: a significand below [2 ^ 53] in absolute value, times a
    power of two from [2 ^ -1074] to [2 ^ 971]. *)
Definition is_double (x : Q) : Prop :=
  exists m k : Z,
    (Z.abs m < 2 ^ 53)%Z /\ (-1074 <= k <= 971)%Z /\ x == inject_Z m * 2 ^ k.


(** [x] is the Number value for [v]: a double, no double is nearer to [v],
    and if another double [y] is as near then [x] is the one with the even
    significand, an even multiple of the step [y - x] between them. *)
Definition Number_value (x v : Q) : Prop :=
  is_double x /\
  (forall y, is_double y -> Qabs (v - x) <= Qabs (v - y)) /\
  (forall y, is_double y -> ~ y == x -> Qabs (v - y) == Qabs (v - x) ->
             exists j : Z, x == inject_Z (2 * j) * (y - x)).
End Coordinates.

(* ================================================================== *)
(** * Properties *)
(* ================================================================== *)

(** ** Rounding *)

Section Numbers.
Import JS.

Lemma Math_round_lower (x : Q) (lo : Z) : inject_Z lo <= x -> (lo <= Math_round x)%Z.
Proof.
  intros Hx. unfold Math_round.
  rewrite <- (Qfloor_Z lo). apply Qfloor_resp_le. lra.
Qed.

Lemma Math_round_upper (x : Q) (hi : Z) : x <= inject_Z hi -> (Math_round x <= hi)%Z.
Proof.
  intros Hx. unfold Math_round.
  assert (Hlt : inject_Z (Qfloor (x + 0.5)) < inject_Z (hi + 1)).
  { apply Qle_lt_trans with (x + 0.5); [apply Qfloor_le|].
    rewrite inject_Z_plus. change (inject_Z 1) with 1. lra. }
  rewrite <- Zlt_Qlt in Hlt. lia.
Qed.
End Numbers.

(** ** The transport client and the services *)

Section Transport.
Import Http weatherApi Requests.
Context `{Platform} `{Bundle}.

Lemma request_trace (url : Request) (w : World) (t : list Request) :
  snd (apiClient.request url w t) = (t ++ [url])%list.
Proof.
  unfold apiClient.request, try_catch, bind, await_fetch, throw, ret.
  destruct (fetch w url) as [m | status statusText body]; cbn; [reflexivity|].
  destruct (ok status); cbn; [|reflexivity].
  destruct body; reflexivity.
Qed.

Lemma request_fails_throws (url : Request) (w : World) (t : list Request) :
  request_fails w url ->
  exists e, apiClient.request url w t = (Throw e, (t ++ [url])%list).
Proof.
  unfold request_fails, apiClient.request, try_catch, bind, await_fetch, throw, ret.
  destruct (fetch w url) as [m | status statusText body]; cbn.
  - eauto.
  - intros ->. cbn. eauto.
Qed.

Lemma request_yields_json (url : Request) (w : World) (t : list Request) (j : Json) :
  request_yields w url j ->
  apiClient.request url w t = (Normal j, (t ++ [url])%list).
Proof.
  intros (status & statusText & Hf & Hok).
  unfold apiClient.request, try_catch, bind, await_fetch, throw, ret.
  rewrite Hf. cbn. rewrite Hok. reflexivity.
Qed.

Lemma request_cases (url : Request) (w : World) (t : list Request) :
  (exists e, apiClient.request url w t = (Throw e, (t ++ [url])%list)) \/
  (exists j, apiClient.request url w t = (Normal j, (t ++ [url])%list)).
Proof.
  pose proof (request_trace url w t) as Ht.
  destruct (apiClient.request url w t) as [[j | e] t']; cbn in Ht; subst t'; eauto.
Qed.

(** ** The services *)

Lemma searchLocations_blank (query : string) (limit : Q) (w : World) (t : list Request) :
  nonempty (JS.trim query) = false ->
  locationService.searchLocations query limit w t = (Normal [], t).
Proof.
  intros Hb. unfold locationService.searchLocations. rewrite Hb. reflexivity.
Qed.

Lemma searchLocations_never_throws (query : string) (limit : Q) (w : World) (t : list Request) :
  nonempty (JS.trim query) = true ->
  exists results,
    locationService.searchLocations query limit w t
    = (Normal results, (t ++ [geocoding_url query limit])%list).
Proof.
  intros Hb. unfold locationService.searchLocations. rewrite Hb. cbn [negb].
  unfold try_catch, bind, apiClient.get. fold (geocoding_url query limit).
  destruct (request_cases (geocoding_url query limit) w t) as [[e ->] | [j ->]].
  - eexists; reflexivity.
  - destruct j; eexists; reflexivity.
Qed.

Lemma searchLocations_fallback (query : string) (limit : Q) (w : World) (t : list Request) :
  nonempty (JS.trim query) = true ->
  request_fails w (geocoding_url query limit) ->
  locationService.searchLocations query limit w t
  = (Normal (getMockLocationSuggestions query), (t ++ [geocoding_url query limit])%list).
Proof.
  intros Hb Hf. unfold locationService.searchLocations. rewrite Hb. cbn [negb].
  unfold try_catch, bind, apiClient.get. fold (geocoding_url query limit).
  destruct (request_fails_throws _ _ t Hf) as [e ->]. reflexivity.
Qed.

Lemma getCurrentWeather_runs (lat lon : Q) (w : World) (t : list Request) :
  exists data,
    weatherService.getCurrentWeather lat lon w t
    = (Normal data, (t ++ [weather_url lat lon])%list).
Proof.
  unfold weatherService.getCurrentWeather, try_catch, bind, apiClient.get.
  fold (weather_url lat lon).
  destruct (request_cases (weather_url lat lon) w t) as [[e ->] | [j ->]].
  - eexists; reflexivity.
  - destruct j as [m | r | apiData | apiData]; try (eexists; reflexivity).
    cbv beta iota. unfold lift.
    destruct (transformWeatherData apiData); eexists; reflexivity.
Qed.

Lemma getCurrentWeather_fallback (lat lon : Q) (w : World) (t : list Request) :
  request_fails w (weather_url lat lon) ->
  weatherService.getCurrentWeather lat lon w t
  = (Normal mockWeatherData, (t ++ [weather_url lat lon])%list).
Proof.
  intros Hf.
  unfold weatherService.getCurrentWeather, try_catch, bind, apiClient.get.
  fold (weather_url lat lon).
  destruct (request_fails_throws _ _ t Hf) as [e ->]. reflexivity.
Qed.

Lemma getCurrentWeather_success (lat lon : Q) (w : World) (t : list Request)
      (apiData : OpenWeatherApiResponse.t) (data : WeatherData.t) :
  request_yields w (weather_url lat lon) (JWeather apiData) ->
  transformWeatherData apiData = Normal data ->
  weatherService.getCurrentWeather lat lon w t
  = (Normal data, (t ++ [weather_url lat lon])%list).
Proof.
  intros Hy Ht.
  unfold weatherService.getCurrentWeather, try_catch, bind, apiClient.get.
  fold (weather_url lat lon).
  rewrite (request_yields_json _ _ t _ Hy). cbv beta iota. unfold lift, clock. rewrite Ht. reflexivity.
Qed.

Lemma getForecast_runs (lat lon : Q) (w : World) (t : list Request) :
  exists data,
    weatherService.getForecast lat lon w t
    = (Normal data, (t ++ [forecast_url lat lon])%list).
Proof.
  unfold weatherService.getForecast, try_catch, bind, apiClient.get.
  fold (forecast_url lat lon).
  destruct (request_cases (forecast_url lat lon) w t) as [[e ->] | [j ->]].
  - eexists; reflexivity.
  - destruct j as [m | r | apiData | apiData]; try (eexists; reflexivity).
    cbv beta iota. unfold lift, clock.
    destruct (transformForecastData (Date_now w) apiData); eexists; reflexivity.
Qed.

Lemma getForecast_fallback (lat lon : Q) (w : World) (t : list Request) :
  request_fails w (forecast_url lat lon) ->
  weatherService.getForecast lat lon w t
  = (Normal mockWeatherData, (t ++ [forecast_url lat lon])%list).
Proof.
  intros Hf.
  unfold weatherService.getForecast, try_catch, bind, apiClient.get.
  fold (forecast_url lat lon).
  destruct (request_fails_throws _ _ t Hf) as [e ->]. reflexivity.
Qed.

Lemma getForecast_success (lat lon : Q) (w : World) (t : list Request)
      (apiData : ForecastApiResponse.t) (data : WeatherData.t) :
  request_yields w (forecast_url lat lon) (JForecast apiData) ->
  transformForecastData (Date_now w) apiData = Normal data ->
  weatherService.getForecast lat lon w t
  = (Normal data, (t ++ [forecast_url lat lon])%list).
Proof.
  intros Hy Ht.
  unfold weatherService.getForecast, try_catch, bind, apiClient.get.
  fold (forecast_url lat lon).
  rewrite (request_yields_json _ _ t _ Hy). cbv beta iota. unfold lift, clock. rewrite Ht. reflexivity.
Qed.
End Transport.

(** ** The hook *)

Section HookFacts.
Import Http weatherApi Requests useWeather.
Context `{Platform} `{Bundle}.

Lemma parseLocation_runs (location : option string) (w : World) (t : list Request) :
  exists coords,
    parseLocation location w t = (Normal coords, (t ++ geocoding_requests location)%list).
Proof.
  unfold parseLocation, geocoding_requests.
  destruct location as [l|]; [|rewrite app_nil_r; eexists; reflexivity].
  destruct (nonempty l); cbn [negb andb]; [|rewrite app_nil_r; eexists; reflexivity].
  destruct (JS.test coordinatePattern l); cbn [negb andb];
    [rewrite app_nil_r; eexists; reflexivity|].
  unfold bind.
  destruct (nonempty (JS.trim l)) eqn:Hb.
  - destruct (searchLocations_never_throws l 1 w t Hb) as [results ->].
    destruct results; eexists; reflexivity.
  - rewrite (searchLocations_blank l 1 w t Hb), app_nil_r. eexists; reflexivity.
Qed.

(** The guard [if (location)] of [fetchWeatherData] repeats the one of
    [parseLocation]. *)
Lemma guarded_parseLocation (location : option string) :
  match location with
  | Some l => if nonempty l then parseLocation (Some l) else ret None
  | None => ret None
  end = parseLocation location.
Proof.
  destruct location as [l|]; [|reflexivity].
  unfold parseLocation. destruct (nonempty l); reflexivity.
Qed.

Lemma fetchWeatherData_unconfigured (st : State) (location : option string)
      (w : World) (t : list Request) :
  weatherUtils.isAPIConfigured = false ->
  fetchWeatherData st location w t
  = (Normal (settled mockWeatherData (Date_now w)), (t ++ geocoding_requests location)%list).
Proof.
  intros Hkey.
  unfold fetchWeatherData, fetchBody. rewrite guarded_parseLocation.
  unfold try_catch, bind at 1 2.
  destruct (parseLocation_runs location w t) as [coords ->].
  rewrite Hkey. cbn [andb].
  destruct coords as [[[lat|] [lon|]]|]; reflexivity.
Qed.

Lemma fetchWeatherData_configured (st : State) (location : option string)
      (w : World) (t t' : list Request) (lat lon : Q) (current forecast : WeatherData.t) :
  weatherUtils.isAPIConfigured = true ->
  parseLocation location w t = (Normal (Some {| lat := Some lat; lon := Some lon |}), t') ->
  JS.truthy lat = true -> JS.truthy lon = true ->
  weatherService.getCurrentWeather lat lon w t'
  = (Normal current, (t' ++ [weather_url lat lon])%list) ->
  weatherService.getForecast lat lon w (t' ++ [weather_url lat lon])%list
  = (Normal forecast, ((t' ++ [weather_url lat lon]) ++ [forecast_url lat lon])%list) ->
  fetchWeatherData st location w t
  = (Normal (settled (merge current forecast) (Date_now w)),
     (t' ++ [weather_url lat lon; forecast_url lat lon])%list).
Proof.
  intros Hkey Hparse Hlat Hlon Hc Hf.
  unfold fetchWeatherData, fetchBody. rewrite guarded_parseLocation.
  unfold try_catch, bind at 1 2. rewrite Hparse, Hkey, Hlat, Hlon. cbn [andb].
  unfold bind at 1 2, Promise_all2. rewrite Hc, Hf.
  rewrite <- app_assoc. reflexivity.
Qed.

Lemma merge_same (d : WeatherData.t) : merge d d = d.
Proof. destruct d; reflexivity. Qed.

(** Every fallback hands out the constant of the bundle, in any world. *)
Lemma fallback_is_bundle_constant (w1 w2 : World) :
  (forall st1 st2 l1 l2,
      weatherUtils.isAPIConfigured = false ->
      exists s1 s2 t1 t2,
        run (fetchWeatherData st1 l1) w1 = (Normal s1, t1) /\
        run (fetchWeatherData st2 l2) w2 = (Normal s2, t2) /\
        weatherData s1 = mockWeatherData /\ weatherData s2 = mockWeatherData)
  /\
  (forall lat1 lon1 lat2 lon2 t1 t2,
      request_fails w1 (weather_url lat1 lon1) ->
      request_fails w2 (forecast_url lat2 lon2) ->
      fst (weatherService.getCurrentWeather lat1 lon1 w1 t1) = Normal mockWeatherData /\
      fst (weatherService.getForecast lat2 lon2 w2 t2) = Normal mockWeatherData)
  /\ getMockWeatherData = mockWeatherData.
Proof.
  split; [|split].
  - intros st1 st2 l1 l2 Hkey.
    exists (settled mockWeatherData (Date_now w1)), (settled mockWeatherData (Date_now w2)),
      (geocoding_requests l1), (geocoding_requests l2).
    unfold run.
    rewrite (fetchWeatherData_unconfigured st1 l1 w1 [] Hkey).
    rewrite (fetchWeatherData_unconfigured st2 l2 w2 [] Hkey).
    repeat split.
  - intros lat1 lon1 lat2 lon2 t1 t2 Hc Hf.
    rewrite (getCurrentWeather_fallback lat1 lon1 w1 t1 Hc).
    rewrite (getForecast_fallback lat2 lon2 w2 t2 Hf). split; reflexivity.
  - reflexivity.
Qed.

(** C1, as the code has it.  With the key configured and the coordinates
    resolved, a failure of one of the two requests does not fail the
    combined fetch: [error] stays [null] and the stored data merges the
    successful part with the mock part.  With the current weather alone it
    is the real [current] and [location] over the mock hourly and daily
    series; with the forecast alone it is the mock [current] over the real
    hourly and daily series; it is the mock dataset when both fail. *)
Theorem partial_failure_is_merged
        (st : State) (location : option string) (w : World) (t : list Request) (lat lon : Q) :
  weatherUtils.isAPIConfigured = true ->
  parseLocation location w [] = (Normal (Some {| lat := Some lat; lon := Some lon |}), t) ->
  JS.truthy lat = true -> JS.truthy lon = true ->
  (forall apiData current,
      request_yields w (weather_url lat lon) (JWeather apiData) ->
      transformWeatherData apiData = Normal current ->
      request_fails w (forecast_url lat lon) ->
      run (fetchWeatherData st location) w
      = (Normal (settled (merge current mockWeatherData) (Date_now w)),
         (t ++ [weather_url lat lon; forecast_url lat lon])%list))
  /\
  (forall apiData forecast,
      request_fails w (weather_url lat lon) ->
      request_yields w (forecast_url lat lon) (JForecast apiData) ->
      transformForecastData (Date_now w) apiData = Normal forecast ->
      run (fetchWeatherData st location) w
      = (Normal (settled (merge mockWeatherData forecast) (Date_now w)),
         (t ++ [weather_url lat lon; forecast_url lat lon])%list))
  /\
  (request_fails w (weather_url lat lon) ->
   request_fails w (forecast_url lat lon) ->
   run (fetchWeatherData st location) w
   = (Normal (settled mockWeatherData (Date_now w)),
      (t ++ [weather_url lat lon; forecast_url lat lon])%list)).
Proof.
  intros Hkey Hparse Hlat Hlon. unfold run. repeat split.
  - intros apiData current Hy Ht Hf.
    apply fetchWeatherData_configured with (lat := lat) (lon := lon); auto.
    + apply getCurrentWeather_success with (apiData := apiData); auto.
    + apply getForecast_fallback; auto.
  - intros apiData forecast Hf Hy Ht.
    apply fetchWeatherData_configured with (lat := lat) (lon := lon); auto.
    + apply getCurrentWeather_fallback; auto.
    + apply getForecast_success with (apiData := apiData); auto.
  - intros Hc Hf.
    rewrite <- (merge_same mockWeatherData) at 1.
    apply fetchWeatherData_configured with (lat := lat) (lon := lon); auto.
    + apply getCurrentWeather_fallback; auto.
    + apply getForecast_fallback; auto.
Qed.

(** C2, as the code has it.  Without an API key the fetch stores the mock
    dataset and sends no current-weather and no forecast request; the only
    request it can send is the geocoding search of [parseLocation], sent
    exactly when the location is a text that is neither empty, nor a
    coordinate pair, nor blank. *)
Theorem unconfigured_fetch_is_mock
        (st : State) (location : option string) (w : World) :
  weatherUtils.isAPIConfigured = false ->
  run (fetchWeatherData st location) w
  = (Normal (settled mockWeatherData (Date_now w)), geocoding_requests location)
  /\ (forall url, In url (geocoding_requests location) ->
                  endpoint url = (API_CONFIG.GEO_URL ++ "/direct")%string)
  /\ (geocoding_requests location = [] <->
      match location with
      | Some l =>
          nonempty l && negb (JS.test coordinatePattern l) && nonempty (JS.trim l) = false
      | None => True
      end).
Proof.
  intros Hkey. split; [|split].
  - unfold run. rewrite (fetchWeatherData_unconfigured st location w [] Hkey). reflexivity.
  - unfold geocoding_requests. destruct location as [l|]; [|intros ? []].
    destruct (nonempty l && negb (JS.test coordinatePattern l) && nonempty (JS.trim l));
      [|intros ? []].
    intros url [<- | []]. reflexivity.
  - unfold geocoding_requests. destruct location as [l|]; [|tauto].
    destruct (nonempty l && negb (JS.test coordinatePattern l) && nonempty (JS.trim l));
      split; intros; try discriminate; auto.
Qed.

(** C8, as the code has it.  When the request of a search for a query that
    is not blank fails, the search does not throw and returns the built-in
    mock locations whose name contains the query, ignoring case: those and
    no others. *)
Theorem searchLocations_failure_gives_mock_matches
        (query : string) (limit : Q) (w : World) :
  nonempty (JS.trim query) = true ->
  request_fails w (geocoding_url query limit) ->
  exists results,
    run (locationService.searchLocations query limit) w
    = (Normal results, [geocoding_url query limit])
    /\ forall location,
        In location results <->
        In location mockLocations /\
        JS.includes (JS.toLowerCase (LocationSuggestion.name location))
                    (JS.toLowerCase query) = true.
Proof.
  intros Hb Hf. exists (getMockLocationSuggestions query). split.
  - unfold run. rewrite (searchLocations_fallback query limit w [] Hb Hf). reflexivity.
  - intros location. unfold getMockLocationSuggestions. apply filter_In.
Qed.
End HookFacts.

(** C10. The mock dataset is built when the bundle is loaded, from the hour
    and the random draws of that moment; every later fallback, in whatever
    world it runs, returns that same value: the fetch without an API key, the
    current-weather and the forecast service after a failed request, and
    [getMockWeatherData]. *)
Theorem mock_dataset_is_built_once `{Platform}
        (key : option string) (hour0 : Z) (rnd0 : nat -> Q) (w1 w2 : World) :
  let B := load key hour0 rnd0 in
  let built := fst (mockData.mockWeatherData hour0 rnd0 0%nat) in
  (forall st1 st2 l1 l2,
      @weatherApi.weatherUtils.isAPIConfigured B = false ->
      exists s1 s2 t1 t2,
        run (@useWeather.fetchWeatherData _ B st1 l1) w1 = (Normal s1, t1) /\
        run (@useWeather.fetchWeatherData _ B st2 l2) w2 = (Normal s2, t2) /\
        useWeather.weatherData s1 = built /\ useWeather.weatherData s2 = built)
  /\
  (forall lat1 lon1 lat2 lon2 t1 t2,
      Requests.request_fails w1 (@Requests.weather_url _ B lat1 lon1) ->
      Requests.request_fails w2 (@Requests.forecast_url _ B lat2 lon2) ->
      fst (@weatherApi.weatherService.getCurrentWeather _ B lat1 lon1 w1 t1) = Normal built /\
      fst (@weatherApi.weatherService.getForecast _ B lat2 lon2 w2 t2) = Normal built)
  /\ @weatherApi.getMockWeatherData B = built.
Proof.
  intros B built. exact (@fallback_is_bundle_constant _ B w1 w2).
Qed.

(** ** The daily aggregation *)

Section ObjectAsMap.
Import weatherApi.
Context {A : Type}.
Implicit Types (o : list (string * A)) (k : string) (v : A).

Lemma own_property_In o k v : own_property o k = Some v -> In (k, v) o.
Proof.
  induction o as [|[k0 x] rest IH]; cbn; [discriminate|].
  destruct (String.eqb_spec k0 k) as [->|Hne].
  - intros [= ->]. now left.
  - intros Hr. right. auto.
Qed.

Lemma own_property_None o k : own_property o k = None -> ~ In k (map fst o).
Proof.
  induction o as [|[k0 x] rest IH]; cbn; [tauto|].
  destruct (String.eqb_spec k0 k) as [->|Hne]; [discriminate|].
  intros Hr [Heq | Hin]; [congruence | now apply IH].
Qed.

Lemma own_property_Some_key o k v : own_property o k = Some v -> In k (map fst o).
Proof.
  intros Hp. apply own_property_In in Hp. apply (in_map fst) in Hp. exact Hp.
Qed.

Lemma keys_assign o k v :
  map fst (assign o k v)
  = if in_dec string_dec k (map fst o) then map fst o else (map fst o ++ [k])%list.
Proof.
  induction o as [|[k0 x] rest IH]; cbn [assign map fst app].
  - destruct (in_dec string_dec k []) as [[]|_]. reflexivity.
  - destruct (String.eqb_spec k0 k) as [->|Hne]; cbn [map fst].
    + destruct (in_dec string_dec k (k :: map fst rest)) as [_|Hn]; [reflexivity|].
      exfalso. apply Hn. now left.
    + rewrite IH.
      destruct (in_dec string_dec k (map fst rest)) as [Hin|Hn];
        destruct (in_dec string_dec k (k0 :: map fst rest)) as [Hin'|Hn']; try reflexivity.
      * exfalso. apply Hn'. now right.
      * destruct Hin' as [Heq|Hin']; [congruence | contradiction].
Qed.

Lemma NoDup_assign o k v : NoDup (map fst o) -> NoDup (map fst (assign o k v)).
Proof.
  intros Hnd. rewrite keys_assign.
  destruct (in_dec string_dec k (map fst o)) as [_|Hn]; [exact Hnd|].
  apply NoDup_app; [exact Hnd | constructor; [intros []|constructor] | ].
  intros a Ha [<- | []]. contradiction.
Qed.

Lemma In_assign_inv o k v k' v' :
  NoDup (map fst o) ->
  In (k', v') (assign o k v) ->
  (k' = k /\ v' = v) \/ (k' <> k /\ In (k', v') o).
Proof.
  induction o as [|[k0 x] rest IH]; cbn [assign map fst]; intros Hnd Hin.
  - destruct Hin as [[= <- <-] | []]. now left.
  - inversion Hnd as [|? ? Hnotin Hnd']; subst.
    destruct (String.eqb_spec k0 k) as [->|Hne].
    + destruct Hin as [[= <- <-] | Hin]; [now left|].
      right. split; [|now right].
      intros ->. apply Hnotin. apply (in_map fst) in Hin. exact Hin.
    + destruct Hin as [[= <- <-] | Hin].
      * right. split; [exact Hne | now left].
      * destruct (IH Hnd' Hin) as [Heq | [Hne' Hin']]; [now left|].
        right. split; [exact Hne' | now right].
Qed.
End ObjectAsMap.

Section Extrema.
Import JS Aggregation.

Lemma Math_max_cases a b :
  (Math_max a b = a \/ Math_max a b = b) /\ a <= Math_max a b /\ b <= Math_max a b.
Proof.
  unfold Math_max. destruct (Qle_bool a b) eqn:E.
  - apply Qle_bool_iff in E. repeat split; auto. apply Qle_refl.
  - assert (~ a <= b) by (rewrite <- Qle_bool_iff; congruence).
    repeat split; auto; [apply Qle_refl | lra].
Qed.

Lemma Math_min_cases a b :
  (Math_min a b = a \/ Math_min a b = b) /\ Math_min a b <= a /\ Math_min a b <= b.
Proof.
  unfold Math_min. destruct (Qle_bool a b) eqn:E.
  - apply Qle_bool_iff in E. repeat split; auto. apply Qle_refl.
  - assert (~ a <= b) by (rewrite <- Qle_bool_iff; congruence).
    repeat split; auto; [lra | apply Qle_refl].
Qed.

Lemma is_max_single x : is_max x [x].
Proof. split; [now left|]. intros y [<- | []]. apply Qle_refl. Qed.

Lemma is_min_single x : is_min x [x].
Proof. split; [now left|]. intros y [<- | []]. apply Qle_refl. Qed.

Lemma is_max_snoc x xs y : is_max x xs -> is_max (Math_max x y) (xs ++ [y]).
Proof.
  intros [Hin Hub]. destruct (Math_max_cases x y) as ([-> | ->] & Hx & Hy).
  - split; [apply in_or_app; now left|].
    intros z Hz. apply in_app_or in Hz as [Hz | [<- | []]]; auto.
  - split; [apply in_or_app; right; now left|].
    intros z Hz. apply in_app_or in Hz as [Hz | [<- | []]]; [|apply Qle_refl].
    apply Qle_trans with x; auto.
Qed.

Lemma is_min_snoc x xs y : is_min x xs -> is_min (Math_min x y) (xs ++ [y]).
Proof.
  intros [Hin Hlb]. destruct (Math_min_cases x y) as ([-> | ->] & Hx & Hy).
  - split; [apply in_or_app; now left|].
    intros z Hz. apply in_app_or in Hz as [Hz | [<- | []]]; auto.
  - split; [apply in_or_app; right; now left|].
    intros z Hz. apply in_app_or in Hz as [Hz | [<- | []]]; [|apply Qle_refl].
    apply Qle_trans with x; auto.
Qed.

Lemma is_max_unique x x' xs xs' :
  (forall y, In y xs <-> In y xs') -> is_max x xs -> is_max x' xs' -> x == x'.
Proof.
  intros Hsame [Hin Hub] [Hin' Hub']. apply Qle_antisym.
  - apply Hub'. now apply Hsame.
  - apply Hub. now apply Hsame.
Qed.

Lemma is_min_unique x x' xs xs' :
  (forall y, In y xs <-> In y xs') -> is_min x xs -> is_min x' xs' -> x == x'.
Proof.
  intros Hsame [Hin Hlb] [Hin' Hlb']. apply Qle_antisym.
  - apply Hlb. now apply Hsame.
  - apply Hlb'. now apply Hsame.
Qed.
End Extrema.

Section Daily.
Import weatherApi Aggregation.
Context `{Platform}.

Lemma bucket_snoc (done : list ForecastItem.t) (item : ForecastItem.t) (k : string) :
  bucket (done ++ [item]) k
  = (bucket done k ++ if (day_of item =? k)%string then [item] else [])%list.
Proof.
  unfold bucket. rewrite filter_app. cbn. destruct (day_of item =? k)%string; reflexivity.
Qed.

Lemma bucket_In (items : list ForecastItem.t) (k : string) (item : ForecastItem.t) :
  In item (bucket items k) <-> In item items /\ day_of item = k.
Proof.
  unfold bucket. rewrite filter_In. rewrite String.eqb_eq. tauto.
Qed.

Lemma bucket_without_key (done : list ForecastItem.t) (k : string) :
  (forall item, In item done -> day_of item <> k) -> bucket done k = [].
Proof.
  intros Hno. destruct (bucket done k) as [|item rest] eqn:E; [reflexivity|].
  assert (Hin : In item (bucket done k)) by (rewrite E; now left).
  apply bucket_In in Hin as [Hin Hday]. now apply Hno in Hin.
Qed.

Lemma In_keys_assign {A} (o : list (string * A)) (k k' : string) (v : A) :
  In k' (map fst (assign o k v)) <-> k' = k \/ In k' (map fst o).
Proof.
  rewrite keys_assign. destruct (in_dec string_dec k (map fst o)) as [Hin|Hn].
  - split; [tauto|]. intros [-> | Hk]; auto.
  - rewrite in_app_iff. cbn. intuition congruence.
Qed.

(** What the callback does to the record of the entry's day. *)
Lemma aggregate_new (daysMap daysMap' : DaysMap) (item : ForecastItem.t) :
  own_property daysMap (day_of item) = None ->
  aggregate daysMap item = Normal daysMap' ->
  exists d,
    daysMap' = assign daysMap (day_of item) d /\
    DailyWeatherData.day d = day_of item /\
    DailyWeatherData.high d = temp_max_of item /\
    DailyWeatherData.low d = temp_min_of item.
Proof.
  unfold aggregate. fold (day_of item). intros ->.
  destruct (first (ForecastItem.weather item)) as [w0|e]; cbn [cbind]; [|discriminate].
  destruct (Date_toISOString _) as [iso|e]; cbn [cbind]; [|discriminate].
  intros [= <-]. eexists. split; [reflexivity|]. repeat split.
Qed.

Lemma aggregate_existing (daysMap daysMap' : DaysMap) (item : ForecastItem.t)
      (d0 : DailyWeatherData.t) :
  own_property daysMap (day_of item) = Some d0 ->
  aggregate daysMap item = Normal daysMap' ->
  exists d,
    daysMap' = assign daysMap (day_of item) d /\
    DailyWeatherData.day d = DailyWeatherData.day d0 /\
    DailyWeatherData.high d = JS.Math_max (DailyWeatherData.high d0) (temp_max_of item) /\
    DailyWeatherData.low d = JS.Math_min (DailyWeatherData.low d0) (temp_min_of item).
Proof.
  unfold aggregate. fold (day_of item). intros ->.
  match goal with |- context [if ?b then _ else _] => destruct b end.
  - destruct (first (ForecastItem.weather item)) as [w0|e]; cbn [cbind]; [|discriminate].
    intros [= <-]. eexists. split; [reflexivity|]. repeat split.
  - intros [= <-]. eexists. split; [reflexivity|]. repeat split.
Qed.

Lemma aggregate_summarises (done : list ForecastItem.t) (daysMap daysMap' : DaysMap)
      (item : ForecastItem.t) :
  summarises done daysMap ->
  aggregate daysMap item = Normal daysMap' ->
  summarises (done ++ [item]) daysMap'.
Proof.
  intros (Hnd & Hall & Hrec) Hstep.
  assert (Hshape : exists d,
             daysMap' = assign daysMap (day_of item) d /\
             DailyWeatherData.day d = day_of item /\
             is_max (DailyWeatherData.high d)
                    (map temp_max_of (bucket done (day_of item) ++ [item])) /\
             is_min (DailyWeatherData.low d)
                    (map temp_min_of (bucket done (day_of item) ++ [item]))).
  { destruct (own_property daysMap (day_of item)) as [d0|] eqn:E.
    - destruct (aggregate_existing _ _ _ _ E Hstep) as (d & -> & Hday & Hhigh & Hlow).
      apply own_property_In in E. destruct (Hrec _ _ E) as (Hd0 & Hmax & Hmin).
      exists d. rewrite Hday, Hhigh, Hlow, !map_app. cbn [map].
      split; [reflexivity|]. split; [exact Hd0|].
      split; [apply is_max_snoc | apply is_min_snoc]; assumption.
    - destruct (aggregate_new _ _ _ E Hstep) as (d & -> & Hday & Hhigh & Hlow).
      apply own_property_None in E.
      assert (Hempty : bucket done (day_of item) = []).
      { apply bucket_without_key. intros it Hit Heq. apply E. rewrite <- Heq. auto. }
      exists d. rewrite Hday, Hhigh, Hlow, Hempty. cbn [map app].
      repeat split; auto; try apply is_max_single; try apply is_min_single. }
  destruct Hshape as (d & -> & Hday & Hmax & Hmin).
  split; [|split].
  - now apply NoDup_assign.
  - intros it Hit. apply In_keys_assign.
    apply in_app_or in Hit as [Hit | [<- | []]]; auto.
  - intros k d' Hin. rewrite bucket_snoc.
    destruct (In_assign_inv _ _ _ _ _ Hnd Hin) as [[-> ->] | [Hne Hin']].
    + rewrite String.eqb_refl. auto.
    + destruct (String.eqb_spec (day_of item) k) as [Heq|_]; [congruence|].
      rewrite app_nil_r. auto.
Qed.

Lemma forEach_summarises (items : list ForecastItem.t) :
  forall (done : list ForecastItem.t) (daysMap daysMap' : DaysMap),
    summarises done daysMap ->
    cfold aggregate items daysMap = Normal daysMap' ->
    summarises (done ++ items) daysMap'.
Proof.
  induction items as [|item rest IH]; intros done daysMap daysMap' Hs; cbn [cfold].
  - intros [= <-]. now rewrite app_nil_r.
  - destruct (aggregate daysMap item) as [m1|e] eqn:E; cbn [cbind]; [|discriminate].
    intros Hrest. replace (done ++ item :: rest)%list with ((done ++ [item]) ++ rest)%list
      by (rewrite <- app_assoc; reflexivity).
    eapply IH; eauto using aggregate_summarises.
Qed.

Lemma slice_In {A} (n : nat) (xs : list A) (x : A) : In x (firstn n xs) -> In x xs.
Proof.
  intros Hin. rewrite <- (firstn_skipn n xs). apply in_or_app. now left.
Qed.

Lemma summarises_nothing : summarises [] [].
Proof. split; [constructor | split; [intros ? [] | intros ? ? []]]. Qed.

Lemma daily_extrema (items : list ForecastItem.t) (daily : list DailyWeatherData.t)
      (r : DailyWeatherData.t) :
  dailyOf items = Normal daily -> In r daily ->
  is_max (DailyWeatherData.high r) (map temp_max_of (bucket items (DailyWeatherData.day r))) /\
  is_min (DailyWeatherData.low r) (map temp_min_of (bucket items (DailyWeatherData.day r))).
Proof.
  unfold dailyOf. destruct (cfold aggregate items []) as [m|e] eqn:E; cbn [cbind]; [|discriminate].
  intros [= <-] Hin. apply (slice_In 7 (Object_values m)) in Hin.
  unfold Object_values in Hin. apply in_map_iff in Hin as ([k d] & Hsnd & Hin).
  cbn in Hsnd. subst d.
  destruct (forEach_summarises items [] [] m summarises_nothing E) as (_ & _ & Hrec).
  destruct (Hrec _ _ Hin) as (-> & Hmax & Hmin). cbn [app] in *. auto.
Qed.

(** The aggregation returns whenever every entry carries a weather item
    and a time that [Date] can hold. *)
Lemma dailyOf_returns (items : list ForecastItem.t) :
  Forall (fun item => ForecastItem.weather item <> []) items ->
  Forall (fun item => JS.valid_time (ForecastItem.dt item * 1000) = true) items ->
  exists daily, dailyOf items = Normal daily.
Proof.
  intros Hall Htimes. unfold dailyOf.
  assert (Hfold : forall m, exists m', cfold aggregate items m = Normal m').
  { induction Hall as [|item rest Hw _ IH]; intros m; cbn [cfold]; [eauto|].
    inversion Htimes as [|? ? Htime Hrest]; subst.
    assert (Hstep : exists m1, aggregate m item = Normal m1).
    { unfold aggregate, Date_toISOString. rewrite Htime.
      destruct (ForecastItem.weather item) as [|w0 ws]; [congruence|].
      cbn [first cbind].
      destruct (own_property m _); [|eauto].
      match goal with |- context [if ?b then _ else _] => destruct b end; eauto. }
    destruct Hstep as [m1 ->]. cbn [cbind]. now apply IH. }
  destruct (Hfold []) as [m' ->]. cbn [cbind]. eauto.
Qed.

(** C4. For every record of the daily series, [high] is the maximum of the
    [temp_max] of the entries that carry the record's weekday label and
    [low] the minimum of their [temp_min]; both are the same, as numbers,
    for every reordering of the entries, whichever entry supplied the
    icon. *)
Theorem daily_high_low_are_bucket_extrema
        (items : list ForecastItem.t) (daily : list DailyWeatherData.t)
        (r : DailyWeatherData.t) :
  dailyOf items = Normal daily -> In r daily ->
  is_max (DailyWeatherData.high r) (map temp_max_of (bucket items (DailyWeatherData.day r))) /\
  is_min (DailyWeatherData.low r) (map temp_min_of (bucket items (DailyWeatherData.day r))) /\
  forall items' daily' r',
    Permutation items items' ->
    dailyOf items' = Normal daily' -> In r' daily' ->
    DailyWeatherData.day r' = DailyWeatherData.day r ->
    DailyWeatherData.high r' == DailyWeatherData.high r /\
    DailyWeatherData.low r' == DailyWeatherData.low r.
Proof.
  intros Hd Hin. destruct (daily_extrema items daily r Hd Hin) as [Hmax Hmin].
  split; [exact Hmax|]. split; [exact Hmin|].
  intros items' daily' r' Hperm Hd' Hin' Hday.
  destruct (daily_extrema items' daily' r' Hd' Hin') as [Hmax' Hmin']. rewrite Hday in Hmax', Hmin'.
  assert (Hsame : forall it, In it (bucket items' (DailyWeatherData.day r))
                             <-> In it (bucket items (DailyWeatherData.day r))).
  { intros it. rewrite !bucket_In. split; intros [Hit Hk]; split; auto.
    - eapply Permutation_in; [apply Permutation_sym|]; eauto.
    - eapply Permutation_in; eauto. }
  split.
  - eapply is_max_unique; [|exact Hmax'|exact Hmax].
    intros y. rewrite !in_map_iff.
    split; intros (it & <- & Hit); exists it; split; auto; now apply Hsame.
  - eapply is_min_unique; [|exact Hmin'|exact Hmin].
    intros y. rewrite !in_map_iff.
    split; intros (it & <- & Hit); exists it; split; auto; now apply Hsame.
Qed.
End Daily.

(** ** The mock dataset *)

Section MockShape.
Import mockData.
Context `{Platform}.
Variable currentHour : Z.

Lemma hourEntry_time (i : Z) (rnd : nat -> Q) (k : nat) :
  HourlyWeatherData.time (fst (hourEntry currentHour i rnd k)) = timeString currentHour i.
Proof.
  unfold hourEntry, rbind, rret, Math_random, pick_precipitation.
  repeat match goal with
         | |- context [if ?b then _ else _] => destruct b
         | |- context [match ?x with _ => _ end] => destruct x
         end; reflexivity.
Qed.

(** The loop appends one entry for each remaining [i], the first of them
    labelled for [i]. *)
Lemma forLoop_extends (steps : nat) :
  forall (i : Z) (forecast : list HourlyWeatherData.t) (rnd : nat -> Q) (k : nat),
    (0 <= i)%Z -> (i + Z.of_nat steps = 24)%Z ->
    exists more,
      fst (forLoop currentHour steps i forecast rnd k) = (forecast ++ more)%list /\
      List.length more = steps /\
      (forall e, hd_error more = Some e -> HourlyWeatherData.time e = timeString currentHour i).
Proof.
  induction steps as [|steps IH]; intros i forecast rnd k Hi Hsum.
  - exists []. cbn. rewrite app_nil_r. repeat split; auto. discriminate.
  - cbn [forLoop].
    destruct (Z.ltb_spec i 24) as [_|Habs]; [|lia].
    unfold rbind at 1.
    destruct (hourEntry currentHour i rnd k) as [e k'] eqn:He.
    destruct (IH (i + 1)%Z (forecast ++ [e])%list rnd k') as (more & Hfst & Hlen & _);
      [lia | lia |].
    exists (e :: more). rewrite Hfst, <- app_assoc. cbn. repeat split; auto.
    intros e' [= <-].
    pose proof (hourEntry_time i rnd k) as Ht. rewrite He in Ht. exact Ht.
Qed.

Lemma generate24HourForecast_shape (rnd : nat -> Q) (k : nat) :
  exists first rest,
    fst (generate24HourForecast currentHour rnd k) = first :: rest /\
    List.length (first :: rest) = 24%nat /\
    HourlyWeatherData.time first = "Now".
Proof.
  unfold generate24HourForecast.
  destruct (forLoop_extends 24 0%Z [] rnd k) as (more & Hfst & Hlen & Hhead); [lia | lia |].
  cbn [app] in Hfst. destruct more as [|first rest]; [discriminate|].
  exists first, rest. split; [exact Hfst|]. split; [exact Hlen|].
  exact (Hhead first eq_refl).
Qed.
End MockShape.

(** C9. Whatever the hour at which the bundle is loaded and whatever
    [Math.random] returns, the mock dataset has 24 hourly entries, the first
    of them labelled "Now", and 7 daily entries. *)
Theorem mockWeatherData_shape `{Platform}
        (key : option string) (currentHour : Z) (rnd : nat -> Q) :
  let data := @mockWeatherData (load key currentHour rnd) in
  List.length (WeatherData.hourly data) = 24%nat /\
  List.length (WeatherData.daily data) = 7%nat /\
  option_map HourlyWeatherData.time (hd_error (WeatherData.hourly data)) = Some "Now".
Proof.
  cbn [mockWeatherData load]. unfold mockData.mockWeatherData, mockData.rbind, mockData.rret.
  destruct (generate24HourForecast_shape currentHour rnd 0%nat) as (first & rest & Hgen & Hlen & Hnow).
  destruct (mockData.generate24HourForecast currentHour rnd 0%nat) as [h k'].
  cbn [fst] in Hgen. subst h. cbn [fst WeatherData.hourly WeatherData.daily].
  repeat split; auto. cbn. now rewrite Hnow.
Qed.

(** ** The Number value: rounding to the nearest double *)

Section Rounding.
Import JS Coordinates.


























(** The nearest double with ties to even is unique. *)
Lemma Number_value_unique (x x' v : Q) :
  Number_value x v -> Number_value x' v -> x == x'.
Proof.
  intros (Hd & Hnear & Htie) (Hd' & Hnear' & Htie').
  destruct (Qeq_dec x x') as [Heq|Hne]; [exact Heq|exfalso].
  assert (Hsame : Qabs (v - x') == Qabs (v - x)).
  { apply Qle_antisym; [apply Hnear', Hd | apply Hnear, Hd']. }
  destruct (Htie x' Hd') as [j Hj]; [intros H; apply Hne; now symmetry | exact Hsame |].
  destruct (Htie' x Hd) as [j' Hj']; [exact Hne | now symmetry |].
  assert (Hd0 : ~ x' - x == 0) by (intros H; apply Hne; lra).
  assert (Hsum : inject_Z (2 * j + 2 * j' + 1) * (x' - x) == 0).
  { assert (Hs : inject_Z (2 * j + 2 * j' + 1) * (x' - x)
                 == inject_Z (2 * j) * (x' - x) - inject_Z (2 * j') * (x - x') + (x' - x)).
    { rewrite !inject_Z_plus. change (inject_Z 1) with 1. ring. }
    rewrite Hs, <- Hj, <- Hj'. ring. }
  apply Qmult_integral in Hsum. destruct Hsum as [Hz|Hz]; [|contradiction].
  unfold Qeq, inject_Z in Hz. cbn [Qnum Qden] in Hz. lia.
Qed.


End Rounding.

(** ** The coordinate pattern and [Number] *)

Section RegExpSound.
Import JS Coordinates.








End RegExpSound.

Section Scanning.
Import JS Coordinates.




(** ** [split] *)

Lemma split_chars_whole (sep : ascii) (cs : list ascii) :
  Forall (fun c => Ascii.eqb c sep = false) cs -> split_chars sep cs = [cs].
Proof.
  induction 1 as [|c r Hc _ IH]; cbn; [reflexivity|]. now rewrite Hc, IH.
Qed.

Lemma split_chars_at (sep : ascii) (a b : list ascii) :
  Forall (fun c => Ascii.eqb c sep = false) a ->
  split_chars sep (a ++ sep :: b) = a :: split_chars sep b.
Proof.
  induction 1 as [|c r Hc _ IH]; cbn.
  - now rewrite Ascii.eqb_refl.
  - now rewrite Hc, IH.
Qed.

(** ** [trim] *)





(** ** Digits *)





End Scanning.

Section Literals.
Import JS Coordinates.





(** ** The size of a literal *)













End Literals.

Section Resolve.
Import Http weatherApi useWeather JS Coordinates.
Context `{Platform} `{Bundle}.




End Resolve.

(** ** The wind direction *)

(** C7. The compass label is the element of the 16-entry table at the index
    [round(degrees / 22.5) mod 16]: 0 gives "N", 45 "NE", 180 "S", 360 wraps to
    "N", and every value from 0 to 360 gives an element of the table. *)
Theorem getWindDirection_compass (degrees : Q) :
  0 <= degrees <= 360 ->
  weatherApi.directions
  = [ "N"; "NNE"; "NE"; "ENE"; "E"; "ESE"; "SE"; "SSE";
      "S"; "SSW"; "SW"; "WSW"; "W"; "WNW"; "NW"; "NNW" ] /\
  weatherApi.getWindDirection 0 = Some "N" /\
  weatherApi.getWindDirection 45 = Some "NE" /\
  weatherApi.getWindDirection 180 = Some "S" /\
  weatherApi.getWindDirection 360 = Some "N" /\
  exists label,
    weatherApi.getWindDirection degrees = Some label /\
    (0 <= Z.rem (JS.Math_round (degrees / 22.5)) 16 < 16)%Z /\
    nth_error weatherApi.directions
      (Z.to_nat (Z.rem (JS.Math_round (degrees / 22.5)) 16)) = Some label /\
    In label weatherApi.directions.
Proof.
  intros [Hlo Hhi]. do 5 (split; [reflexivity|]).
  assert (Hr : (0 <= JS.Math_round (degrees / 22.5) <= 16)%Z).
  { split.
    - apply Math_round_lower. change (inject_Z 0) with 0.
      apply Qle_shift_div_l; [reflexivity | lra].
    - apply Math_round_upper. apply Qle_shift_div_r; [reflexivity|].
      change (inject_Z 16 * 22.5) with (16 * 22.5). lra. }
  unfold weatherApi.getWindDirection, JS.index, JS.rem.
  set (z := JS.Math_round (degrees / 22.5)) in *.
  assert (Hi : (0 <= Z.rem z 16 < 16)%Z) by (apply Z.rem_bound_pos; lia).
  destruct (Z.ltb_spec (Z.rem z 16) 0) as [Hneg | _]; [lia|].
  destruct (nth_error weatherApi.directions (Z.to_nat (Z.rem z 16))) as [label|] eqn:E.
  - exists label. repeat split; auto; try lia. eapply nth_error_In; eauto.
  - apply nth_error_None in E. simpl in E. lia.
Qed.

(** ** The icon table *)

Section Icons.
Import weatherApi.

(** Every entry of the table gives its tag. *)
Lemma icon_of_table (code : string) (c : WeatherCondition) :
  In (code, c) iconMapping -> icon_of code = Tag c.
Proof.
  intros Hin. cbn in Hin.
  repeat (destruct Hin as [[= <- <-] | Hin]; [reflexivity|]). destruct Hin.
Qed.

(** The day and the night variant of an icon give the same tag. *)
Lemma icon_of_day_night :
  Forall (fun n => icon_of (n ++ "d") = icon_of (n ++ "n") /\ exists c, icon_of (n ++ "d") = Tag c)
         ["01"; "02"; "03"; "04"; "09"; "10"; "11"; "13"; "50"].
Proof. repeat constructor; eexists; reflexivity. Qed.

(** A code that is neither in the table nor the name of an inherited
    member gives the default. *)
Lemma icon_of_default (code : string) :
  own_property iconMapping code = None ->
  existsb (String.eqb code) Object_prototype = false ->
  icon_of code = Tag sunny.
Proof.
  intros Hown Hproto. unfold icon_of, iconMapping_get. now rewrite Hown, Hproto.
Qed.

(** C6, at a code outside the table that names a member inherited from
    [Object.prototype]: the lookup finds the inherited member, which is
    truthy, so the default is not taken and the icon of the produced entry
    is none of the condition tags. *)
Theorem inherited_member_is_not_defaulted :
  own_property iconMapping "constructor" = None /\
  icon_of "constructor" = Inherited "constructor" /\
  (forall c, icon_of "constructor" <> Tag c) /\
  (exists data,
      @transformWeatherData Reference.utc (Reference.current_payload "constructor")
      = Normal data /\
      CurrentWeatherData.icon (WeatherData.current data) = Inherited "constructor") /\
  (exists entry,
      @hourlyEntry Reference.utc 0 (Reference.item 36000 12 15 "constructor" "clear sky" 0.2)
      = Normal entry /\
      HourlyWeatherData.icon entry = Inherited "constructor").
Proof.
  split; [reflexivity|]. split; [reflexivity|]. split; [discriminate|].
  split; eexists; split; reflexivity.
Qed.
End Icons.

(** ** The representative entry of a day *)

Section Representative.
Import weatherApi Aggregation.
Context `{Platform}.

(** The test of the inner [if] compares the probability of the entry, a
    number from 0 to 1, with the stored percentage: once a day holds a
    percentage of 1 or more, no later entry replaces its icon, description
    and precipitation. *)
Lemma representative_is_kept (daysMap : DaysMap) (item : ForecastItem.t)
      (d0 : DailyWeatherData.t) :
  own_property daysMap (day_of item) = Some d0 ->
  1 <= DailyWeatherData.precipitation d0 ->
  JS.or_else (ForecastItem.pop item) 0 <= 1 ->
  exists d,
    aggregate daysMap item = Normal (assign daysMap (day_of item) d) /\
    DailyWeatherData.icon d = DailyWeatherData.icon d0 /\
    DailyWeatherData.description d = DailyWeatherData.description d0 /\
    DailyWeatherData.precipitation d = DailyWeatherData.precipitation d0.
Proof.
  intros Hown Hstored Hpop. unfold aggregate. fold (day_of item). rewrite Hown.
  assert (Hgt : JS.gt (JS.or_else (ForecastItem.pop item) 0)
                      (JS.or_else (Some (DailyWeatherData.precipitation d0)) 0) = false).
  { unfold JS.gt. apply negb_false_iff, Qle_bool_iff.
    unfold JS.or_else at 2, JS.truthy.
    destruct (Qeq_bool (DailyWeatherData.precipitation d0) 0) eqn:E; cbn [negb].
    - apply Qeq_bool_iff in E. lra.
    - lra. }
  cbn [DailyWeatherData.precipitation set_low set_high]. rewrite Hgt.
  eexists. split; [reflexivity|]. repeat split.
Qed.
End Representative.

(** C3, at two entries of one day with probabilities 0.2 and 0.9: the first
    stores 20 percent, the test [0.9 > 20] fails, and the day keeps the icon,
    the description and the precipitation of the first entry although the
    second has the strictly greater probability; [high] and [low] do take the
    second entry into account. *)
Theorem later_higher_pop_is_not_taken :
  let first := Reference.item 36000 12 15 "01d" "clear sky" 0.2 in
  let second := Reference.item 46800 14 19 "10d" "light rain" 0.9 in
  @weatherApi.day_of Reference.utc first = @weatherApi.day_of Reference.utc second /\
  exists d,
    @weatherApi.dailyOf Reference.utc [first; second] = Normal [d] /\
    DailyWeatherData.icon d = Tag sunny /\
    DailyWeatherData.description d = Some "clear sky" /\
    DailyWeatherData.precipitation d = 20 /\
    DailyWeatherData.high d = 19 /\
    DailyWeatherData.low d = 12.
Proof.
  split; [reflexivity|]. eexists. split; [vm_compute; reflexivity|].
  repeat split.
Qed.

(* ================================================================== *)
(** * Further properties of the pipeline *)
(* ================================================================== *)

(** ** The transport client *)

Section TransportMore.
Import Http weatherApi Requests.
Context `{Platform} `{Bundle}.


(** The suggestions built from the entries of a response, from [index]. *)
Lemma map_results_nth (entries : list GeoEntry) :
  forall (index i : nat) (e : GeoEntry),
    nth_error entries i = Some e ->
    exists r,
      nth_error (map_results index entries) i = Some r /\
      LocationSuggestion.name r = geo_name e /\
      LocationSuggestion.country r = geo_country e /\
      LocationSuggestion.state r = geo_state e /\
      LocationSuggestion.lat r = geo_lat e /\
      LocationSuggestion.lon r = geo_lon e /\
      LocationSuggestion.id r
      = (String_of_number (geo_lat e) ++ "-" ++ String_of_number (geo_lon e) ++ "-"
         ++ String_of_number (inject_Z (Z.of_nat (index + i))))%string.
Proof.
  induction entries as [|e0 rest IH]; intros index i e Hnth.
  - destruct i; discriminate.
  - destruct i as [|i]; cbn [nth_error map_results] in *.
    + injection Hnth as <-. eexists. split; [reflexivity|].
      rewrite Nat.add_0_r. repeat split.
    + destruct (IH (S index) i e Hnth) as (r & Hr & Hrest). exists r. split; [exact Hr|].
      replace (index + S i)%nat with (S index + i)%nat by lia. exact Hrest.
Qed.

Lemma map_results_length (entries : list GeoEntry) :
  forall index, List.length (map_results index entries) = List.length entries.
Proof. induction entries as [|e rest IH]; intros index; cbn; [reflexivity | now rewrite IH]. Qed.

(** X2. The search never throws.  A blank query gives the empty list and
    sends nothing; any other query sends exactly the one geocoding
    request. *)
Theorem searchLocations_never_fails (query : string) (limit : Q) (w : World)
        (t : list Request) :
  exists results,
    locationService.searchLocations query limit w t
    = (Normal results,
       (t ++ if nonempty (JS.trim query) then [geocoding_url query limit] else [])%list) /\
    (nonempty (JS.trim query) = false -> results = []).
Proof.
  destruct (nonempty (JS.trim query)) eqn:Hb.
  - destruct (searchLocations_never_throws query limit w t Hb) as [results ->].
    exists results. split; [reflexivity | discriminate].
  - rewrite (searchLocations_blank query limit w t Hb), app_nil_r.
    exists []. split; reflexivity.
Qed.

(** X3. When the geocoding request succeeds with an array, the search
    returns one suggestion per entry, in the order of the response, with the
    entry's name, country, state and coordinates, and the id
    "<lat>-<lon>-<position>". *)
Theorem searchLocations_maps_the_response (query : string) (limit : Q) (w : World)
        (entries : list GeoEntry) :
  nonempty (JS.trim query) = true ->
  request_yields w (geocoding_url query limit) (JGeo entries) ->
  exists results,
    run (locationService.searchLocations query limit) w
    = (Normal results, [geocoding_url query limit]) /\
    List.length results = List.length entries /\
    forall i e,
      nth_error entries i = Some e ->
      exists r,
        nth_error results i = Some r /\
        LocationSuggestion.name r = geo_name e /\
        LocationSuggestion.country r = geo_country e /\
        LocationSuggestion.state r = geo_state e /\
        LocationSuggestion.lat r = geo_lat e /\
        LocationSuggestion.lon r = geo_lon e /\
        LocationSuggestion.id r
        = (String_of_number (geo_lat e) ++ "-" ++ String_of_number (geo_lon e) ++ "-"
           ++ String_of_number (inject_Z (Z.of_nat i)))%string.
Proof.
  intros Hb Hy. exists (map_results 0 entries). split; [|split].
  - unfold run, locationService.searchLocations. rewrite Hb. cbn [negb].
    unfold try_catch, bind, apiClient.get. fold (geocoding_url query limit).
    rewrite (request_yields_json _ _ [] _ Hy). reflexivity.
  - apply map_results_length.
  - intros i e Hnth. exact (map_results_nth entries 0 i e Hnth).
Qed.

(** X4. The reverse lookup never throws and sends exactly one request, for
    one result.  It gives [null] when the request fails and when the
    response is an empty array, and otherwise the first entry of the
    response. *)
Theorem getLocationByCoords_outcome (lat lon : Q) (w : World) (t : list Request) :
  exists found,
    locationService.getLocationByCoords lat lon w t
    = (Normal found, (t ++ [reverse_url lat lon])%list) /\
    In ("limit", String_of_number 1) (searchParams (reverse_url lat lon)) /\
    (request_fails w (reverse_url lat lon) -> found = None) /\
    (request_yields w (reverse_url lat lon) (JGeo []) -> found = None) /\
    (forall e rest,
        request_yields w (reverse_url lat lon) (JGeo (e :: rest)) ->
        exists s,
          found = Some s /\
          LocationSuggestion.name s = geo_name e /\
          LocationSuggestion.country s = geo_country e /\
          LocationSuggestion.state s = geo_state e /\
          LocationSuggestion.lat s = geo_lat e /\
          LocationSuggestion.lon s = geo_lon e).
Proof.
  unfold locationService.getLocationByCoords, try_catch, bind, apiClient.get.
  fold (reverse_url lat lon).
  assert (Hlimit : In ("limit", String_of_number 1) (searchParams (reverse_url lat lon))).
  { unfold reverse_url, apiClient.url_of. cbn [searchParams].
    destruct (nonempty API_CONFIG.API_KEY); cbn; auto. }
  destruct (request_cases (reverse_url lat lon) w t) as [[e He] | [j Hj]].
  - rewrite He. exists None. split; [reflexivity|]. split; [exact Hlimit|].
    split; [reflexivity|]. split; [reflexivity|].
    intros e0 rest Hy. rewrite (request_yields_json _ _ t _ Hy) in He. discriminate.
  - rewrite Hj.
    assert (Hyield : forall j', request_yields w (reverse_url lat lon) j' -> j' = j).
    { intros j' Hy. rewrite (request_yields_json _ _ t _ Hy) in Hj. congruence. }
    assert (Hnofail : request_fails w (reverse_url lat lon) -> False).
    { intros Hf. destruct (request_fails_throws _ _ t Hf) as [e He]. congruence. }
    destruct j as [m | [|e0 rest] | d | d]; eexists; (split; [reflexivity|]);
      (split; [exact Hlimit|]); (split; [intros Hf; now destruct (Hnofail Hf)|]);
      (split; [intros Hy; apply Hyield in Hy; try discriminate; reflexivity|]);
      intros e1 rest1 Hy; apply Hyield in Hy; try discriminate.
    injection Hy as <- <-. eexists. split; [reflexivity|]. repeat split.
Qed.
End TransportMore.

(** ** The weather services *)

Section ServicesMore.
Import Http weatherApi Requests.
Context `{Platform} `{Bundle}.

Lemma request_Normal_yields (url : Request) (w : World) (t t' : list Request) (j : Json) :
  apiClient.request url w t = (Normal j, t') -> request_yields w url j.
Proof.
  unfold apiClient.request, try_catch, bind, await_fetch, throw, ret, request_yields.
  destruct (fetch w url) as [m | status statusText body]; [discriminate|].
  destruct (ok status) eqn:Hok; cbn [negb].
  - destruct body as [|j']; [discriminate|]. intros [= <- _]. eauto.
  - destruct body as [|[[m|]| | |]]; discriminate.
Qed.

Lemma request_yields_unique (url : Request) (w : World) (j j' : Json) :
  request_yields w url j -> request_yields w url j' -> j = j'.
Proof.
  intros (s & st & Hf & _) (s' & st' & Hf' & _). congruence.
Qed.

Lemma request_yields_not_fails (url : Request) (w : World) (j : Json) :
  request_yields w url j -> request_fails w url -> False.
Proof.
  intros (s & st & Hf & Hok). unfold request_fails. rewrite Hf. congruence.
Qed.

Lemma transformWeatherData_returns (apiData : OpenWeatherApiResponse.t) :
  OpenWeatherApiResponse.weather apiData <> [] ->
  exists data, transformWeatherData apiData = Normal data.
Proof.
  intros Hw. unfold transformWeatherData.
  destruct (OpenWeatherApiResponse.weather apiData); [congruence|]. cbn [first cbind]. eauto.
Qed.

Lemma transformWeatherData_throws (apiData : OpenWeatherApiResponse.t) :
  OpenWeatherApiResponse.weather apiData = [] ->
  exists e, transformWeatherData apiData = Throw e.
Proof.
  intros Hw. unfold transformWeatherData. rewrite Hw. cbn [first cbind]. eauto.
Qed.

Lemma cmap_returns {A B} (f : A -> Completion B) (xs : list A) :
  Forall (fun x => exists y, f x = Normal y) xs ->
  exists ys, cmap f xs = Normal ys.
Proof.
  induction 1 as [|x rest [y Hy] _ [ys Hys]]; cbn [cmap]; [eauto|].
  rewrite Hy. cbn [cbind]. rewrite Hys. cbn [cbind]. eauto.
Qed.

Lemma cmap_length {A B} (f : A -> Completion B) (xs : list A) :
  forall ys, cmap f xs = Normal ys -> List.length ys = List.length xs.
Proof.
  induction xs as [|x rest IH]; cbn [cmap]; intros ys.
  - intros [= <-]. reflexivity.
  - destruct (f x) as [y|e]; cbn [cbind]; [|discriminate].
    destruct (cmap f rest) as [ys'|e]; cbn [cbind]; [|discriminate].
    intros [= <-]. cbn. now rewrite (IH ys' eq_refl).
Qed.

Lemma hourlyEntry_returns (now : Q) (item : ForecastItem.t) :
  ForecastItem.weather item <> [] -> exists e, hourlyEntry now item = Normal e.
Proof.
  intros Hw. unfold hourlyEntry.
  destruct (ForecastItem.weather item); [congruence|]. cbn [first cbind]. eauto.
Qed.

Lemma Forall_firstn {A} (P : A -> Prop) (n : nat) (xs : list A) :
  Forall P xs -> Forall P (firstn n xs).
Proof.
  intros Hall. rewrite Forall_forall in *. intros x Hx. apply Hall.
  rewrite <- (firstn_skipn n xs). apply in_or_app. now left.
Qed.

(** The forecast transformer returns on every response that has entries,
    each with a weather item and a time that [Date] can hold. *)
Lemma transformForecastData_returns (now : Q) (apiData : ForecastApiResponse.t) :
  ForecastApiResponse.list_ apiData <> [] ->
  Forall (fun item => ForecastItem.weather item <> []) (ForecastApiResponse.list_ apiData) ->
  Forall (fun item => JS.valid_time (ForecastItem.dt item * 1000) = true)
         (ForecastApiResponse.list_ apiData) ->
  exists data, transformForecastData now apiData = Normal data.
Proof.
  intros Hne Hall Htimes. unfold transformForecastData.
  destruct (cmap_returns (hourlyEntry now) (firstn 8 (ForecastApiResponse.list_ apiData)))
    as [hourly ->].
  { apply Forall_firstn. eapply Forall_impl; [|exact Hall].
    intros item Hw. now apply hourlyEntry_returns. }
  destruct (dailyOf_returns _ Hall Htimes) as [daily ->]. cbn [cbind].
  destruct (ForecastApiResponse.list_ apiData) as [|item0 rest]; [congruence|].
  cbn [first cbind]. inversion Hall as [|? ? Hw0 _]; subst.
  destruct (ForecastItem.weather item0); [congruence|]. cbn [first cbind]. eauto.
Qed.

(** It throws on a response without entries and on one whose first entry
    has no weather item or a time that [Date] cannot hold: the first entry
    opens a day, and the date of a new day is written with
    [toISOString]. *)
Lemma transformForecastData_throws (now : Q) (apiData : ForecastApiResponse.t) :
  ForecastApiResponse.list_ apiData = [] \/
  (exists item rest,
      ForecastApiResponse.list_ apiData = item :: rest /\
      (ForecastItem.weather item = [] \/
       JS.valid_time (ForecastItem.dt item * 1000) = false)) ->
  exists e, transformForecastData now apiData = Throw e.
Proof.
  unfold transformForecastData. intros [-> | (item & rest & -> & [Hw | Htime])].
  - cbn. eauto.
  - cbn [firstn cmap]. unfold hourlyEntry at 1. rewrite Hw. cbn [first cbind]. eauto.
  - destruct (cmap (hourlyEntry now) (firstn 8 (item :: rest))) as [hourly|e];
      cbn [cbind]; [|eauto].
    unfold dailyOf. cbn [cfold]. unfold aggregate at 1, Date_toISOString.
    cbn [own_property]. rewrite Htime.
    destruct (first (ForecastItem.weather item)); cbn [cbind]; eauto.
Qed.

(** X5. The current-weather service never throws and sends exactly one
    request.  It returns the transformed response when a 2xx response
    carries a current-weather object with a weather item, and the mock
    dataset in every other case: rejected fetch, status outside 2xx, body
    that is not JSON or not of that shape, empty weather array. *)
Theorem getCurrentWeather_outcome (lat lon : Q) (w : World) (t : list Request) :
  exists data,
    weatherService.getCurrentWeather lat lon w t
    = (Normal data, (t ++ [weather_url lat lon])%list) /\
    (forall apiData,
        request_yields w (weather_url lat lon) (JWeather apiData) ->
        OpenWeatherApiResponse.weather apiData <> [] ->
        transformWeatherData apiData = Normal data) /\
    ((forall apiData,
         request_yields w (weather_url lat lon) (JWeather apiData) ->
         OpenWeatherApiResponse.weather apiData = []) ->
     data = mockWeatherData).
Proof.
  unfold weatherService.getCurrentWeather, try_catch, bind, apiClient.get.
  fold (weather_url lat lon).
  destruct (request_cases (weather_url lat lon) w t) as [[e He] | [j Hj]].
  - rewrite He. exists mockWeatherData. split; [reflexivity|]. split; [|reflexivity].
    intros apiData Hy _. rewrite (request_yields_json _ _ t _ Hy) in He. discriminate.
  - rewrite Hj. pose proof (request_Normal_yields _ _ _ _ _ Hj) as Hy.
    destruct j as [m | r | apiData | apiData];
      try (exists mockWeatherData; split; [reflexivity|]; split; [|reflexivity];
           intros a Ha _; pose proof (request_yields_unique _ _ _ _ Hy Ha); discriminate).
    unfold lift.
    destruct (OpenWeatherApiResponse.weather apiData) as [|w0 ws] eqn:Ew.
    + destruct (transformWeatherData_throws apiData Ew) as [e ->].
      exists mockWeatherData. split; [reflexivity|]. split; [|reflexivity].
      intros a Ha Hne. pose proof (request_yields_unique _ _ _ _ Hy Ha) as [= <-]. congruence.
    + destruct (transformWeatherData_returns apiData) as [data Hd]; [congruence|].
      rewrite Hd. exists data. split; [reflexivity|]. split.
      * intros a Ha _. pose proof (request_yields_unique _ _ _ _ Hy Ha) as [= <-]. exact Hd.
      * intros Hall. specialize (Hall apiData Hy). congruence.
Qed.

(** X6. The forecast service never throws and sends exactly one request.
    It returns the transformed response when a 2xx response carries a
    forecast whose entries, at least one, all have a weather item and a
    time that [Date] can hold (at most 8.64e15 milliseconds from the
    epoch); it returns the mock dataset when no forecast object arrives,
    when the forecast has no entry, and when its first entry has no weather
    item or a time beyond that range, for which [toISOString] throws a
    [RangeError]. *)
Theorem getForecast_outcome (lat lon : Q) (w : World) (t : list Request) :
  exists data,
    weatherService.getForecast lat lon w t
    = (Normal data, (t ++ [forecast_url lat lon])%list) /\
    (forall apiData,
        request_yields w (forecast_url lat lon) (JForecast apiData) ->
        ForecastApiResponse.list_ apiData <> [] ->
        Forall (fun item => ForecastItem.weather item <> [])
               (ForecastApiResponse.list_ apiData) ->
        Forall (fun item => JS.valid_time (ForecastItem.dt item * 1000) = true)
               (ForecastApiResponse.list_ apiData) ->
        transformForecastData (Date_now w) apiData = Normal data) /\
    ((forall apiData,
         request_yields w (forecast_url lat lon) (JForecast apiData) ->
         ForecastApiResponse.list_ apiData = [] \/
         (exists item rest,
             ForecastApiResponse.list_ apiData = item :: rest /\
             (ForecastItem.weather item = [] \/
              JS.valid_time (ForecastItem.dt item * 1000) = false))) ->
     data = mockWeatherData).
Proof.
  unfold weatherService.getForecast, try_catch, bind, apiClient.get.
  fold (forecast_url lat lon).
  destruct (request_cases (forecast_url lat lon) w t) as [[e He] | [j Hj]].
  - rewrite He. exists mockWeatherData. split; [reflexivity|]. split; [|reflexivity].
    intros apiData Hy _ _ _. rewrite (request_yields_json _ _ t _ Hy) in He. discriminate.
  - rewrite Hj. pose proof (request_Normal_yields _ _ _ _ _ Hj) as Hy.
    destruct j as [m | r | apiData | apiData];
      try (exists mockWeatherData; split; [reflexivity|]; split; [|reflexivity];
           intros a Ha _ _ _; pose proof (request_yields_unique _ _ _ _ Hy Ha); discriminate).
    cbv beta iota. unfold lift, clock.
    destruct (transformForecastData (Date_now w) apiData) as [data|e] eqn:Et.
    + exists data. split; [reflexivity|]. split.
      * intros a Ha _ _ _. pose proof (request_yields_unique _ _ _ _ Hy Ha) as [= <-].
        exact Et.
      * intros Hbad. destruct (transformForecastData_throws (Date_now w) apiData (Hbad _ Hy))
          as [e He]. congruence.
    + exists mockWeatherData. split; [reflexivity|]. split; [|reflexivity].
      intros a Ha Hne Hall Htimes.
      pose proof (request_yields_unique _ _ _ _ Hy Ha) as [= <-].
      destruct (transformForecastData_returns (Date_now w) apiData Hne Hall Htimes)
        as [d Hd].
      congruence.
Qed.
End ServicesMore.

(** ** The hook, for every input *)

Section HookMore.
Import Http weatherApi Requests useWeather.
Context `{Platform} `{Bundle}.

(** X7. A fetch never throws and never records an error.  For every
    location, every world and every configuration it ends with [isLoading]
    false, [error] null and [lastUpdated] set to the clock, and its requests
    are the geocoding request of [parseLocation], if any, followed either by
    nothing or by the current-weather and the forecast request for one
    coordinate pair. *)
Theorem fetchWeatherData_always_settles (st : State) (location : option string) (w : World) :
  exists data t,
    run (fetchWeatherData st location) w = (Normal (settled data (Date_now w)), t) /\
    (t = geocoding_requests location \/
     exists lat lon,
       t = (geocoding_requests location ++ [weather_url lat lon; forecast_url lat lon])%list).
Proof.
  unfold run, fetchWeatherData, fetchBody. rewrite guarded_parseLocation.
  unfold try_catch, bind at 1 2.
  destruct (parseLocation_runs location w []) as [coords ->]. cbn [app].
  assert (Hmock : exists data t,
             (Normal (settled mockWeatherData (Date_now w)), geocoding_requests location)
             = (Normal (settled data (Date_now w)), t) /\
             (t = geocoding_requests location \/
              exists lat lon,
                t = (geocoding_requests location
                     ++ [weather_url lat lon; forecast_url lat lon])%list)).
  { eexists _, _. split; [reflexivity | now left]. }
  destruct coords as [[[lat|] [lon|]]|]; try exact Hmock.
  destruct (weatherUtils.isAPIConfigured && JS.truthy lat && JS.truthy lon); [|exact Hmock].
  unfold bind at 1 2, Promise_all2.
  destruct (getCurrentWeather_runs lat lon w (geocoding_requests location)) as [current ->].
  destruct (getForecast_runs lat lon w (geocoding_requests location ++ [weather_url lat lon]))
    as [forecast ->].
  exists (merge current forecast), ((geocoding_requests location ++ [weather_url lat lon])
                                    ++ [forecast_url lat lon])%list.
  split; [reflexivity|]. right. exists lat, lon. now rewrite <- app_assoc.
Qed.

(** X8. A refresh fetches without a location: whatever the configuration
    and whatever was displayed, it stores the mock dataset and sends no
    request. *)
Theorem refreshWeatherData_stores_mock (st : State) (w : World) :
  run (refreshWeatherData st) w = (Normal (settled mockWeatherData (Date_now w)), []).
Proof. reflexivity. Qed.

(** X9. When the location does not resolve to a pair of non-zero numbers
    (no result of the search, or a latitude or longitude equal to zero) the
    fetch stores the mock dataset, records no error and sends no
    current-weather and no forecast request, also with the key
    configured. *)
Theorem unusable_coordinates_fall_back
        (st : State) (location : option string) (w : World)
        (coords : option Coords) (t : list Request) :
  parseLocation location w [] = (Normal coords, t) ->
  usable coords = false ->
  run (fetchWeatherData st location) w = (Normal (settled mockWeatherData (Date_now w)), t).
Proof.
  intros Hparse Husable.
  unfold run, fetchWeatherData, fetchBody. rewrite guarded_parseLocation.
  unfold try_catch, bind at 1 2. rewrite Hparse.
  destruct coords as [[[lat|] [lon|]]|]; try reflexivity.
  cbn [usable] in Husable. rewrite <- andb_assoc, Husable, andb_false_r. reflexivity.
Qed.

Lemma nonblank_is_nonempty (l : string) : nonempty (JS.trim l) = true -> nonempty l = true.
Proof. destruct l; [discriminate | reflexivity]. Qed.

(** X10. A place name for which the geocoding search answers with an empty
    array is not reported: the fetch stores the mock dataset with [error]
    null, after the one geocoding request. *)
Theorem unknown_place_falls_back_silently (st : State) (l : string) (w : World) :
  JS.test coordinatePattern l = false ->
  nonempty (JS.trim l) = true ->
  request_yields w (geocoding_url l 1) (JGeo []) ->
  run (fetchWeatherData st (Some l)) w
  = (Normal (settled mockWeatherData (Date_now w)), [geocoding_url l 1]).
Proof.
  intros Hpat Hb Hy.
  assert (Hparse : parseLocation (Some l) w [] = (Normal None, [geocoding_url l 1])).
  { unfold parseLocation. rewrite (nonblank_is_nonempty l Hb), Hpat. cbn [negb].
    unfold bind, locationService.searchLocations. rewrite Hb. cbn [negb].
    unfold try_catch, bind, apiClient.get. fold (geocoding_url l 1).
    rewrite (request_yields_json _ _ [] _ Hy). reflexivity. }
  unfold run, fetchWeatherData, fetchBody. cbv beta iota zeta.
  rewrite (nonblank_is_nonempty l Hb).
  unfold try_catch, bind at 1 2. rewrite Hparse. reflexivity.
Qed.

Lemma transformWeatherData_fields (apiData : OpenWeatherApiResponse.t) (data : WeatherData.t) :
  transformWeatherData apiData = Normal data ->
  WeatherData.hourly data = [] /\
  WeatherData.daily data = [] /\
  WeatherData.lastUpdated data = None /\
  WeatherData.location data
  = Some {| LocationData.name := OpenWeatherApiResponse.name apiData;
            LocationData.country := Some (OpenWeatherApiResponse.sys_country apiData);
            LocationData.region := None;
            LocationData.lat := Some (OpenWeatherApiResponse.coord_lat apiData);
            LocationData.lon := Some (OpenWeatherApiResponse.coord_lon apiData);
            LocationData.timezone := None |}.
Proof.
  unfold transformWeatherData.
  destruct (first (OpenWeatherApiResponse.weather apiData)); cbn [cbind]; [|discriminate].
  intros [= <-]. repeat split.
Qed.

(** X11. With the key configured, usable coordinates and both requests
    answered, the stored data is composed of the two transformed responses:
    the [current] block and the [location] of the current-weather response,
    the hourly and daily series of the forecast response.  The [current]
    block, the [location] and the [lastUpdated] stamp that the forecast
    transformer computed are dropped, and [lastUpdated] of the stored data
    is undefined. *)
Theorem successful_fetch_composes
        (st : State) (location : option string) (w : World) (t : list Request) (lat lon : Q)
        (apiCurrent : OpenWeatherApiResponse.t) (apiForecast : ForecastApiResponse.t)
        (current forecast : WeatherData.t) :
  weatherUtils.isAPIConfigured = true ->
  parseLocation location w [] = (Normal (Some {| lat := Some lat; lon := Some lon |}), t) ->
  JS.truthy lat = true -> JS.truthy lon = true ->
  request_yields w (weather_url lat lon) (JWeather apiCurrent) ->
  transformWeatherData apiCurrent = Normal current ->
  request_yields w (forecast_url lat lon) (JForecast apiForecast) ->
  transformForecastData (Date_now w) apiForecast = Normal forecast ->
  exists data,
    run (fetchWeatherData st location) w
    = (Normal (settled data (Date_now w)),
       (t ++ [weather_url lat lon; forecast_url lat lon])%list) /\
    WeatherData.current data = WeatherData.current current /\
    WeatherData.hourly data = WeatherData.hourly forecast /\
    WeatherData.daily data = WeatherData.daily forecast /\
    WeatherData.lastUpdated data = None /\
    WeatherData.location data
    = Some {| LocationData.name := OpenWeatherApiResponse.name apiCurrent;
              LocationData.country := Some (OpenWeatherApiResponse.sys_country apiCurrent);
              LocationData.region := None;
              LocationData.lat := Some (OpenWeatherApiResponse.coord_lat apiCurrent);
              LocationData.lon := Some (OpenWeatherApiResponse.coord_lon apiCurrent);
              LocationData.timezone := None |}.
Proof.
  intros Hkey Hparse Hlat Hlon Hyc Htc Hyf Htf.
  exists (merge current forecast).
  destruct (transformWeatherData_fields _ _ Htc) as (_ & _ & Hlast & Hloc).
  split; [|cbn [merge WeatherData.current WeatherData.hourly WeatherData.daily
                      WeatherData.lastUpdated WeatherData.location]; auto].
  - unfold run. apply fetchWeatherData_configured with (lat := lat) (lon := lon); auto.
    + now apply getCurrentWeather_success with (apiData := apiCurrent).
    + now apply getForecast_success with (apiData := apiForecast).
Qed.
End HookMore.

(** ** The forecast transformer *)

Section ForecastMore.
Import weatherApi Aggregation DailyRecords.
Context `{Platform}.

Lemma aggregate_assigns (daysMap daysMap' : DaysMap) (item : ForecastItem.t) :
  aggregate daysMap item = Normal daysMap' ->
  exists d, daysMap' = assign daysMap (day_of item) d.
Proof.
  intros Hstep. destruct (own_property daysMap (day_of item)) as [d0|] eqn:E.
  - destruct (aggregate_existing _ _ _ _ E Hstep) as (d & -> & _). eauto.
  - destruct (aggregate_new _ _ _ E Hstep) as (d & -> & _). eauto.
Qed.

Lemma forEach_keys (items : list ForecastItem.t) :
  forall (daysMap daysMap' : DaysMap),
    cfold aggregate items daysMap = Normal daysMap' ->
    map fst daysMap'
    = fold_left (fun seen l => if in_dec string_dec l seen then seen else (seen ++ [l])%list)
                (map day_of items) (map fst daysMap).
Proof.
  induction items as [|item rest IH]; intros daysMap daysMap'; cbn [cfold map fold_left].
  - now intros [= <-].
  - destruct (aggregate daysMap item) as [m1|e] eqn:E; cbn [cbind]; [|discriminate].
    intros Hrest. rewrite (IH _ _ Hrest).
    destruct (aggregate_assigns _ _ _ E) as [d ->]. now rewrite keys_assign.
Qed.

Lemma NoDup_firstn {A} (n : nat) (xs : list A) : NoDup xs -> NoDup (firstn n xs).
Proof.
  intros Hnd. rewrite <- (firstn_skipn n xs) in Hnd. now apply NoDup_app_remove_r in Hnd.
Qed.

Lemma values_days (done : list ForecastItem.t) (daysMap : DaysMap) :
  summarises done daysMap ->
  map DailyWeatherData.day (Object_values daysMap) = map fst daysMap.
Proof.
  intros (_ & _ & Hrec). unfold Object_values. rewrite map_map.
  apply map_ext_in. intros [k d] Hin. cbn. now destruct (Hrec k d Hin).
Qed.

(** X12. The daily series has one record per weekday label of the
    forecast, in the order in which the labels first occur, cut after seven:
    no label occurs twice and there are at most seven records. *)
Theorem daily_series_follows_first_occurrences
        (items : list ForecastItem.t) (daily : list DailyWeatherData.t) :
  dailyOf items = Normal daily ->
  map DailyWeatherData.day daily = firstn 7 (first_occurrences (map day_of items)) /\
  NoDup (map DailyWeatherData.day daily) /\
  (List.length daily <= 7)%nat.
Proof.
  unfold dailyOf. destruct (cfold aggregate items []) as [m|e] eqn:E; cbn [cbind]; [|discriminate].
  intros Hd. assert (Hdaily : daily = firstn 7 (Object_values m)) by congruence. clear Hd.
  pose proof (forEach_summarises items [] [] m summarises_nothing E) as Hs. cbn [app] in Hs.
  pose proof (values_days _ _ Hs) as Hdays.
  pose proof (forEach_keys items [] m E) as Hkeys. cbn [map] in Hkeys.
  subst daily. rewrite <- firstn_map, Hdays. split; [|split].
  - now rewrite Hkeys.
  - apply NoDup_firstn. now destruct Hs.
  - rewrite <- (length_map DailyWeatherData.day), <- firstn_map. apply firstn_le_length.
Qed.

Lemma cmap_Forall2 {A B} (f : A -> Completion B) (xs : list A) :
  forall ys, cmap f xs = Normal ys -> Forall2 (fun x y => f x = Normal y) xs ys.
Proof.
  induction xs as [|x rest IH]; cbn [cmap]; intros ys.
  - intros [= <-]. constructor.
  - destruct (f x) as [y|e] eqn:E; cbn [cbind]; [|discriminate].
    destruct (cmap f rest) as [ys'|e]; cbn [cbind]; [|discriminate].
    intros [= <-]. constructor; auto.
Qed.

(** X13. The hourly series has one entry for each of the first eight
    entries of the forecast, in their order: as many as the forecast has
    when it has fewer than eight.  Each carries the rounded temperature, the
    humidity, the pressure and the wind speed of its entry. *)
Theorem hourly_series_is_the_first_eight
        (now : Q) (apiData : ForecastApiResponse.t) (data : WeatherData.t) :
  transformForecastData now apiData = Normal data ->
  List.length (WeatherData.hourly data)
  = Nat.min 8 (List.length (ForecastApiResponse.list_ apiData)) /\
  Forall2 (fun item e =>
             HourlyWeatherData.temperature e
             = inject_Z (JS.Math_round (OpenWeather.temp (ForecastItem.main item))) /\
             HourlyWeatherData.humidity e = OpenWeather.humidity (ForecastItem.main item) /\
             HourlyWeatherData.pressure e = OpenWeather.pressure (ForecastItem.main item) /\
             HourlyWeatherData.windSpeed e = Some (ForecastItem.wind_speed item) /\
             HourlyWeatherData.precipitation e = percent (ForecastItem.pop item))
          (firstn 8 (ForecastApiResponse.list_ apiData)) (WeatherData.hourly data).
Proof.
  unfold transformForecastData.
  destruct (cmap (hourlyEntry now) (firstn 8 (ForecastApiResponse.list_ apiData)))
    as [hourly|e] eqn:Eh; cbn [cbind]; [|discriminate].
  destruct (dailyOf (ForecastApiResponse.list_ apiData)); cbn [cbind]; [|discriminate].
  destruct (first (ForecastApiResponse.list_ apiData)) as [item0|]; cbn [cbind]; [|discriminate].
  destruct (first (ForecastItem.weather item0)); cbn [cbind]; [|discriminate].
  intros [= <-]. cbn [WeatherData.hourly]. split.
  - rewrite (cmap_length _ _ _ Eh). apply length_firstn.
  - eapply Forall2_impl; [|exact (cmap_Forall2 _ _ _ Eh)].
    intros item e. unfold hourlyEntry.
    destruct (first (ForecastItem.weather item)); cbn [cbind]; [|discriminate].
    intros [= <-]. repeat split.
Qed.
End ForecastMore.

Section DailyRecordsMore.
Import weatherApi Aggregation DailyRecords.
Context `{Platform}.

Lemma aggregate_new_record (daysMap daysMap' : DaysMap) (item : ForecastItem.t) :
  own_property daysMap (day_of item) = None ->
  aggregate daysMap item = Normal daysMap' ->
  exists w0 ws d,
    ForecastItem.weather item = w0 :: ws /\
    daysMap' = assign daysMap (day_of item) d /\
    DailyWeatherData.date d = Some (toISOString (ForecastItem.dt item * 1000)) /\
    DailyWeatherData.humidity d = Some (OpenWeather.humidity (ForecastItem.main item)) /\
    DailyWeatherData.windSpeed d = Some (ForecastItem.wind_speed item) /\
    DailyWeatherData.icon d = icon_of (OpenWeather.icon w0) /\
    DailyWeatherData.description d = Some (OpenWeather.description w0) /\
    DailyWeatherData.precipitation d = percent (ForecastItem.pop item).
Proof.
  unfold aggregate. fold (day_of item). intros ->.
  destruct (ForecastItem.weather item) as [|w0 ws]; cbn [first cbind]; [discriminate|].
  unfold Date_toISOString.
  destruct (JS.valid_time (ForecastItem.dt item * 1000)); cbn [cbind]; [|discriminate].
  intros [= <-]. exists w0, ws. eexists. split; [reflexivity|]. split; [reflexivity|].
  repeat split.
Qed.

Lemma aggregate_existing_record (daysMap daysMap' : DaysMap) (item : ForecastItem.t)
      (d0 : DailyWeatherData.t) :
  own_property daysMap (day_of item) = Some d0 ->
  aggregate daysMap item = Normal daysMap' ->
  exists d,
    daysMap' = assign daysMap (day_of item) d /\
    DailyWeatherData.date d = DailyWeatherData.date d0 /\
    DailyWeatherData.humidity d = DailyWeatherData.humidity d0 /\
    DailyWeatherData.windSpeed d = DailyWeatherData.windSpeed d0 /\
    ((DailyWeatherData.icon d = DailyWeatherData.icon d0 /\
      DailyWeatherData.description d = DailyWeatherData.description d0 /\
      DailyWeatherData.precipitation d = DailyWeatherData.precipitation d0)
     \/
     (exists w0 ws,
         ForecastItem.weather item = w0 :: ws /\
         DailyWeatherData.icon d = icon_of (OpenWeather.icon w0) /\
         DailyWeatherData.description d = Some (OpenWeather.description w0) /\
         DailyWeatherData.precipitation d = percent (ForecastItem.pop item))).
Proof.
  unfold aggregate. fold (day_of item). intros ->.
  match goal with |- context [if ?b then _ else _] => destruct b end.
  - destruct (ForecastItem.weather item) as [|w0 ws]; cbn [first cbind]; [discriminate|].
    intros [= <-]. eexists. split; [reflexivity|]. do 3 (split; [reflexivity|]).
    right. exists w0, ws. repeat split.
  - intros [= <-]. eexists. split; [reflexivity|]. do 3 (split; [reflexivity|]).
    left. repeat split.
Qed.

Lemma aggregate_represents (done : list ForecastItem.t) (daysMap daysMap' : DaysMap)
      (item : ForecastItem.t) :
  summarises done daysMap ->
  (forall k d, In (k, d) daysMap -> represents done k d) ->
  aggregate daysMap item = Normal daysMap' ->
  forall k d, In (k, d) daysMap' -> represents (done ++ [item]) k d.
Proof.
  intros (Hnd & Hall & Hrec) Hrep Hstep k d Hin.
  destruct (own_property daysMap (day_of item)) as [d0|] eqn:E.
  - destruct (aggregate_existing_record _ _ _ _ E Hstep)
      as (dn & -> & Hdate & Hhum & Hwind & Hchoice).
    destruct (In_assign_inv _ _ _ _ _ Hnd Hin) as [[-> ->] | [Hne Hin']].
    + apply own_property_In in E.
      destruct (Hrep _ _ E) as ((first & rest & Hb & Hd0 & Hh0 & Hw0) & Hrep0).
      unfold represents. rewrite bucket_snoc, String.eqb_refl, Hb. split.
      * exists first, (rest ++ [item])%list. rewrite Hdate, Hhum, Hwind. auto.
      * destruct Hchoice as [(Hi & Hde & Hp) | (w0 & ws & Hw & Hi & Hde & Hp)].
        -- destruct Hrep0 as (rep & w0 & ws & Hin0 & Hw & Hi0 & Hde0 & Hp0).
           exists rep, w0, ws. rewrite Hi, Hde, Hp. rewrite Hb in Hin0.
           split; [apply in_or_app; now left | auto].
        -- exists item, w0, ws.
           split; [apply in_or_app; right; now left | auto].
    + destruct (Hrep _ _ Hin') as (Hfirst & Hrep0).
      unfold represents. rewrite bucket_snoc.
      destruct (String.eqb_spec (day_of item) k) as [Heq|_]; [congruence|].
      rewrite app_nil_r. auto.
  - destruct (aggregate_new_record _ _ _ E Hstep)
      as (w0 & ws & dn & Hw & -> & Hdate & Hhum & Hwind & Hi & Hde & Hp).
    destruct (In_assign_inv _ _ _ _ _ Hnd Hin) as [[-> ->] | [Hne Hin']].
    + apply own_property_None in E.
      assert (Hempty : bucket done (day_of item) = []).
      { apply bucket_without_key. intros it Hit Heq. apply E. rewrite <- Heq. auto. }
      unfold represents. rewrite bucket_snoc, String.eqb_refl, Hempty. cbn [app]. split.
      * exists item, []. auto.
      * exists item, w0, ws. split; [now left | auto].
    + destruct (Hrep _ _ Hin') as (Hfirst & Hrep0).
      unfold represents. rewrite bucket_snoc.
      destruct (String.eqb_spec (day_of item) k) as [Heq|_]; [congruence|].
      rewrite app_nil_r. auto.
Qed.

Lemma forEach_represents (items : list ForecastItem.t) :
  forall (done : list ForecastItem.t) (daysMap daysMap' : DaysMap),
    summarises done daysMap ->
    (forall k d, In (k, d) daysMap -> represents done k d) ->
    cfold aggregate items daysMap = Normal daysMap' ->
    forall k d, In (k, d) daysMap' -> represents (done ++ items) k d.
Proof.
  induction items as [|item rest IH]; intros done daysMap daysMap' Hs Hrep; cbn [cfold].
  - intros [= <-]. now rewrite app_nil_r.
  - destruct (aggregate daysMap item) as [m1|e] eqn:E; cbn [cbind]; [|discriminate].
    intros Hrest. replace (done ++ item :: rest)%list with ((done ++ [item]) ++ rest)%list
      by (rewrite <- app_assoc; reflexivity).
    eapply IH; eauto using aggregate_summarises, aggregate_represents.
Qed.

(** A record of the daily series is a value of the map that the loop has
    built, under its own weekday label. *)
Lemma dailyOf_values
      (items : list ForecastItem.t) (daily : list DailyWeatherData.t)
      (r : DailyWeatherData.t) :
  dailyOf items = Normal daily -> In r daily ->
  exists daysMap,
    cfold aggregate items [] = Normal daysMap /\
    In (DailyWeatherData.day r, r) daysMap.
Proof.
  unfold dailyOf. destruct (cfold aggregate items []) as [m|e] eqn:E; cbn [cbind]; [|discriminate].
  intros Hd Hin. assert (Hdaily : daily = firstn 7 (Object_values m)) by congruence.
  subst daily. apply slice_In in Hin.
  unfold Object_values in Hin. apply in_map_iff in Hin as ([k d] & Hsnd & Hin).
  cbn in Hsnd. subst d.
  destruct (forEach_summarises items [] [] m summarises_nothing E) as (_ & _ & Hrec).
  destruct (Hrec _ _ Hin) as (Hday & _).
  exists m. split; [reflexivity|]. now rewrite Hday.
Qed.

(** X14. In every record of the daily series the date, the humidity and the
    wind speed are those of the first forecast entry of that weekday, and
    the icon, the description and the precipitation are taken together from
    one entry of that weekday. *)
Theorem daily_record_sources
        (items : list ForecastItem.t) (daily : list DailyWeatherData.t)
        (r : DailyWeatherData.t) :
  dailyOf items = Normal daily -> In r daily ->
  represents items (DailyWeatherData.day r) r.
Proof.
  intros Hd Hin.
  destruct (dailyOf_values items daily r Hd Hin) as (daysMap & Hloop & Hvalue).
  apply (forEach_represents items [] [] daysMap summarises_nothing).
  - intros ? ? [].
  - exact Hloop.
  - exact Hvalue.
Qed.

Lemma percent_is_percentage (pop : option Q) :
  is_probability pop -> is_percentage (percent pop).
Proof.
  intros Hp. unfold percent, is_percentage.
  assert (Hrange : 0 <= JS.or_else pop 0 <= 1).
  { unfold JS.or_else. destruct pop as [p|]; [|split; discriminate].
    destruct (JS.truthy p); [exact Hp | split; discriminate]. }
  eexists. split; [reflexivity|]. split.
  - apply Math_round_lower. change (inject_Z 0) with 0. nra.
  - apply Math_round_upper. change (inject_Z 100) with 100. nra.
Qed.

Lemma transformForecastData_parts (now : Q) (apiData : ForecastApiResponse.t)
      (data : WeatherData.t) :
  transformForecastData now apiData = Normal data ->
  cmap (hourlyEntry now) (firstn 8 (ForecastApiResponse.list_ apiData))
  = Normal (WeatherData.hourly data) /\
  dailyOf (ForecastApiResponse.list_ apiData) = Normal (WeatherData.daily data).
Proof.
  unfold transformForecastData.
  destruct (cmap (hourlyEntry now) (firstn 8 (ForecastApiResponse.list_ apiData)));
    cbn [cbind]; [|discriminate].
  destruct (dailyOf (ForecastApiResponse.list_ apiData)); cbn [cbind]; [|discriminate].
  destruct (first (ForecastApiResponse.list_ apiData)) as [item0|]; cbn [cbind]; [|discriminate].
  destruct (first (ForecastItem.weather item0)); cbn [cbind]; [|discriminate].
  intros [= <-]. split; reflexivity.
Qed.

(** X15. When every probability of precipitation of the forecast is a
    number from 0 to 1, or absent, every precipitation of the hourly and of
    the daily series is a whole number of percent from 0 to 100. *)
Theorem precipitation_is_a_percentage
        (now : Q) (apiData : ForecastApiResponse.t) (data : WeatherData.t) :
  transformForecastData now apiData = Normal data ->
  Forall (fun item => is_probability (ForecastItem.pop item))
         (ForecastApiResponse.list_ apiData) ->
  Forall (fun e => is_percentage (HourlyWeatherData.precipitation e))
         (WeatherData.hourly data) /\
  Forall (fun r => is_percentage (DailyWeatherData.precipitation r))
         (WeatherData.daily data).
Proof.
  intros Ht Hpop. destruct (transformForecastData_parts _ _ _ Ht) as [Hh Hd]. split.
  - pose proof (cmap_Forall2 _ _ _ Hh) as H2.
    assert (Hpop8 : Forall (fun item => is_probability (ForecastItem.pop item))
                           (firstn 8 (ForecastApiResponse.list_ apiData))).
    { rewrite Forall_forall in *. intros x Hx. apply Hpop. eapply slice_In; eauto. }
    clear Hh. induction H2 as [|item e items es He _ IH]; constructor.
    + inversion Hpop8; subst. unfold hourlyEntry in He.
      destruct (first (ForecastItem.weather item)); cbn [cbind] in He; [|discriminate].
      injection He as <-. now apply percent_is_percentage.
    + apply IH. now inversion Hpop8.
  - apply Forall_forall. intros r Hr.
    destruct (dailyOf_values _ _ _ Hd Hr) as (daysMap & Hloop & Hvalue).
    assert (Hrep : represents (ForecastApiResponse.list_ apiData) (DailyWeatherData.day r) r).
    { apply (forEach_represents _ [] [] daysMap summarises_nothing); auto. intros ? ? []. }
    destruct Hrep as (_ & rep & w0 & ws & Hin & _ & _ & _ & ->).
    apply percent_is_percentage. rewrite Forall_forall in Hpop. apply Hpop.
    now apply bucket_In in Hin.
Qed.

(** X16. When no forecast entry has its minimum above its maximum, no
    record of the daily series has [low] above [high]. *)
Theorem daily_low_is_below_high
        (items : list ForecastItem.t) (daily : list DailyWeatherData.t) :
  dailyOf items = Normal daily ->
  Forall (fun item => temp_min_of item <= temp_max_of item) items ->
  Forall (fun r => DailyWeatherData.low r <= DailyWeatherData.high r) daily.
Proof.
  intros Hd Hall. apply Forall_forall. intros r Hr.
  destruct (daily_extrema items daily r Hd Hr) as [[Hin Hub] [_ Hlb]].
  apply in_map_iff in Hin as (it & _ & Hit).
  apply Qle_trans with (temp_min_of it); [apply Hlb; now apply in_map|].
  apply Qle_trans with (temp_max_of it); [|apply Hub; now apply in_map].
  rewrite Forall_forall in Hall. apply Hall. now apply bucket_In in Hit.
Qed.
End DailyRecordsMore.

(** ** Rounding and the compass sectors *)

Section Sectors.
Import JS weatherApi.

Lemma Qfloor_unique (y : Q) (z : Z) :
  inject_Z z <= y -> y < inject_Z (z + 1) -> Qfloor y = z.
Proof.
  intros Hlo Hhi.
  assert (H1 : (z <= Qfloor y)%Z).
  { rewrite <- (Qfloor_Z z). now apply Qfloor_resp_le. }
  assert (H2 : inject_Z (Qfloor y) < inject_Z (z + 1)).
  { apply Qle_lt_trans with y; [apply Qfloor_le | exact Hhi]. }
  rewrite <- Zlt_Qlt in H2. lia.
Qed.

(** [Math.round] gives the nearest integer, the upper one at a half. *)
Lemma Math_round_nearest (x : Q) (z : Z) :
  inject_Z z - 0.5 <= x -> x < inject_Z z + 0.5 -> Math_round x = z.
Proof.
  intros Hlo Hhi. unfold Math_round. apply Qfloor_unique.
  - lra.
  - rewrite inject_Z_plus. change (inject_Z 1) with 1. lra.
Qed.

Lemma Math_round_within_half (x : Q) :
  inject_Z (Math_round x) - 0.5 <= x /\ x < inject_Z (Math_round x) + 0.5.
Proof.
  unfold Math_round. pose proof (Qfloor_le (x + 0.5)) as Hlo.
  pose proof (Qlt_floor (x + 0.5)) as Hhi.
  rewrite inject_Z_plus in Hhi. change (inject_Z 1) with 1 in Hhi. split; lra.
Qed.

(** X17. Each compass label covers the sector of 22.5 degrees centred on its
    multiple of 22.5: a direction within 11.25 degrees below and less than
    11.25 degrees above [k * 22.5] gets the label at position [k mod 16],
    for every turn count [k >= 0], so that the label is defined for every
    direction from -11.25 degrees on and repeats every 360 degrees.  Below
    that, in a sector [k < 0] that is not a multiple of 16, the result is
    undefined. *)
Theorem getWindDirection_sector (k : Z) (degrees : Q) :
  inject_Z k * 22.5 - 11.25 <= degrees ->
  degrees < inject_Z k * 22.5 + 11.25 ->
  ((0 <= k)%Z ->
   getWindDirection degrees = nth_error directions (Z.to_nat (k mod 16)) /\
   (exists label, getWindDirection degrees = Some label) /\
   getWindDirection (degrees + 360) = getWindDirection degrees) /\
  ((k < 0)%Z -> Z.rem k 16 <> 0%Z -> getWindDirection degrees = None).
Proof.
  intros Hlo Hhi.
  assert (Hround : Math_round (degrees / 22.5) = k).
  { apply Math_round_nearest.
    - apply Qle_shift_div_l; [reflexivity|]. lra.
    - apply Qlt_shift_div_r; [reflexivity|]. lra. }
  assert (Hround' : Math_round ((degrees + 360) / 22.5) = (k + 16)%Z).
  { apply Math_round_nearest; rewrite inject_Z_plus; change (inject_Z 16) with 16.
    - apply Qle_shift_div_l; [reflexivity|]. lra.
    - apply Qlt_shift_div_r; [reflexivity|]. lra. }
  split.
  - intros Hk.
    assert (Hidx : forall z, (0 <= z)%Z ->
              JS.index directions (JS.rem z 16) = nth_error directions (Z.to_nat (z mod 16))).
    { intros z Hz. unfold JS.index, JS.rem. rewrite Z.rem_mod_nonneg by lia.
      destruct (Z.ltb_spec (z mod 16) 0) as [Hneg|_]; [|reflexivity].
      pose proof (Z.mod_pos_bound z 16). lia. }
    unfold getWindDirection. rewrite Hround, Hround', !Hidx by lia.
    replace ((k + 16) mod 16)%Z with (k mod 16)%Z
      by (rewrite <- (Z.mod_add k 1 16) by lia; f_equal; lia).
    split; [reflexivity|]. split; [|reflexivity].
    destruct (nth_error directions (Z.to_nat (k mod 16))) as [label|] eqn:E; [eauto|].
    apply nth_error_None in E. cbn in E. pose proof (Z.mod_pos_bound k 16). lia.
  - intros Hk Hrem. unfold getWindDirection, JS.index, JS.rem. rewrite Hround.
    destruct (Z.ltb_spec (Z.rem k 16) 0) as [_|Hge]; [reflexivity|].
    pose proof (Z.rem_nonpos k 16). lia.
Qed.

(** X18. The current-weather transformer reports the temperature and the
    felt temperature as the nearest whole numbers, a half rounding up, and a
    visibility in thousands of metres, except that a missing or zero
    visibility is reported as 10. *)
Theorem current_block_is_rounded `{Platform}
        (apiData : OpenWeatherApiResponse.t) (data : WeatherData.t) :
  transformWeatherData apiData = Normal data ->
  let main := OpenWeatherApiResponse.main apiData in
  let c := WeatherData.current data in
  (exists z, CurrentWeatherData.temperature c = inject_Z z /\
             inject_Z z - 0.5 <= OpenWeather.temp main < inject_Z z + 0.5) /\
  (exists z, CurrentWeatherData.feelsLike c = inject_Z z /\
             inject_Z z - 0.5 <= OpenWeather.feels_like main < inject_Z z + 0.5) /\
  match OpenWeatherApiResponse.visibility apiData with
  | Some v => if Qeq_bool v 0 then CurrentWeatherData.visibility c = 10
              else CurrentWeatherData.visibility c = v / 1000
  | None => CurrentWeatherData.visibility c = 10
  end.
Proof.
  unfold transformWeatherData.
  destruct (first (OpenWeatherApiResponse.weather apiData)); cbn [cbind]; [|discriminate].
  intros [= <-]. cbn [WeatherData.current CurrentWeatherData.temperature
                        CurrentWeatherData.feelsLike CurrentWeatherData.visibility].
  split; [|split].
  - eexists. split; [reflexivity | apply Math_round_within_half].
  - eexists. split; [reflexivity | apply Math_round_within_half].
  - unfold visibility_km, JS.truthy.
    destruct (OpenWeatherApiResponse.visibility apiData) as [v|]; [|reflexivity].
    destruct (Qeq_bool v 0); reflexivity.
Qed.
End Sectors.

(** ** The generated hourly entries *)

Section MockRangesMore.
Import mockData MockRanges.
Context `{Platform}.
Variable currentHour : Z.
Variable rnd : nat -> Q.
Hypothesis rnd_unit : forall k, 0 <= rnd k < 1.

Lemma pattern_at (index : Z) :
  (0 <= index < 12)%Z ->
  exists c,
    JS.index weatherPatterns index = Some (Tag c) /\
    (c = sunny \/ c = cloudy \/ c = rainy \/ c = partly_cloudy).
Proof.
  intros Hi.
  assert (Hcases : (index = 0 \/ index = 1 \/ index = 2 \/ index = 3 \/ index = 4
                    \/ index = 5 \/ index = 6 \/ index = 7 \/ index = 8 \/ index = 9
                    \/ index = 10 \/ index = 11)%Z) by lia.
  repeat (destruct Hcases as [-> | Hcases]); try subst index;
    (eexists; split; [reflexivity | tauto]).
Qed.

Lemma weatherIndex_range (i : Z) (r : Q) :
  (0 <= i)%Z -> 0 <= r < 1 ->
  (0 <= JS.rem (i + JS.Math_floor (r * 3)) (Z.of_nat (List.length weatherPatterns)) < 12)%Z.
Proof.
  intros Hi Hr. unfold JS.rem, JS.Math_floor. cbn [List.length weatherPatterns Z.of_nat].
  assert (Hf : (0 <= Qfloor (r * 3))%Z).
  { rewrite <- (Qfloor_Z 0). apply Qfloor_resp_le. change (inject_Z 0) with 0. nra. }
  change (Z.pos (Pos.of_succ_nat 11)) with 12%Z.
  apply Z.rem_bound_pos; lia.
Qed.

Lemma round_between (lo hi : Z) (x : Q) :
  inject_Z lo <= x -> x <= inject_Z hi ->
  whole_between lo hi (inject_Z (JS.Math_round x)).
Proof.
  intros Hlo Hhi. eexists. split; [reflexivity|].
  split; [now apply Math_round_lower | now apply Math_round_upper].
Qed.

Ltac know_draws :=
  repeat match goal with
         | |- context [rnd ?n] =>
             lazymatch goal with
             | _ : 0 <= rnd n < 1 |- _ => fail
             | _ => pose proof (rnd_unit n)
             end
         end.

Lemma fifth_of_percent (x : Q) : x / 100 * 20 == x * 0.2.
Proof. field. Qed.

Ltac in_band := apply round_between; unfold inject_Z; rewrite ?fifth_of_percent; lra.

Lemma hourEntry_in_ranges (i : Z) (k : nat) :
  (0 <= i)%Z -> in_ranges (fst (hourEntry currentHour i rnd k)).
Proof.
  intros Hi. unfold hourEntry, rbind, rret, Math_random.
  destruct ((6 <=? hourAfter currentHour i) && (hourAfter currentHour i <=? 18))%Z;
    cbv beta iota zeta;
    match goal with
    | |- context [JS.Math_floor (rnd ?n * 3)] =>
        destruct (pattern_at _ (weatherIndex_range i (rnd n) Hi (rnd_unit n)))
          as (c & Hidx & Hc)
    end;
    rewrite Hidx;
    unfold in_ranges, pick_precipitation, rbind, rret, Math_random;
    destruct Hc as [-> | [-> | [-> | ->]]]; cbv beta iota zeta;
    cbn [fst HourlyWeatherData.icon HourlyWeatherData.precipitation
             HourlyWeatherData.humidity HourlyWeatherData.pressure
             HourlyWeatherData.windSpeed HourlyWeatherData.feelsLike];
    know_draws;
    (split; [eexists; split; [reflexivity | cbv beta iota; first [reflexivity | in_band]]|]);
    (split; [in_band|]); (split; [in_band|]); (split; [|reflexivity]);
    (eexists; split; [reflexivity | in_band]).
Qed.

Lemma forLoop_in_ranges (steps : nat) :
  forall (i : Z) (forecast : list HourlyWeatherData.t) (k : nat),
    (0 <= i)%Z ->
    Forall in_ranges forecast ->
    Forall in_ranges (fst (forLoop currentHour steps i forecast rnd k)).
Proof.
  induction steps as [|steps IH]; intros i forecast k Hi Hall; cbn [forLoop].
  - exact Hall.
  - destruct (i <? 24)%Z; [|exact Hall].
    unfold rbind at 1.
    pose proof (hourEntry_in_ranges i k Hi) as He.
    destruct (hourEntry currentHour i rnd k) as [e k']. cbn [fst] in He.
    apply IH; [lia|]. apply Forall_app. split; [exact Hall | constructor; auto].
Qed.
End MockRangesMore.

(** X19. When [Math.random] returns numbers from 0 inclusive to 1 exclusive,
    every hourly entry of the mock dataset has one of the four conditions of
    the pattern (sunny, cloudy, rainy, partly cloudy), a whole precipitation
    that fits it (60 to 90 if rainy, at most 20 if cloudy, at most 10 if
    partly cloudy, 0 if sunny), a whole humidity from 45 to 93, pressure from
    1010 to 1025 and wind speed from 5 to 15, and no felt temperature,
    whatever the hour of loading. *)
Theorem mock_hourly_entries_are_in_range `{Platform}
        (key : option string) (currentHour : Z) (rnd : nat -> Q) :
  (forall k, 0 <= rnd k < 1) ->
  Forall MockRanges.in_ranges
         (WeatherData.hourly (@mockWeatherData (load key currentHour rnd))).
Proof.
  intros Hrnd. cbn [mockWeatherData load].
  unfold mockData.mockWeatherData, mockData.rbind, mockData.rret.
  pose proof (forLoop_in_ranges currentHour rnd Hrnd 24 0%Z [] 0%nat (Z.le_refl 0)
                                (Forall_nil _)) as Hall.
  fold (mockData.generate24HourForecast currentHour) in Hall.
  destruct (mockData.generate24HourForecast currentHour rnd 0%nat) as [h k'].
  exact Hall.
Qed.

(** ** The hooks [useLocationSearch] and [useResponsive] *)

Section SearchHook.
Import Http weatherApi Requests useWeather.
Import useLocationSearch.
Context `{Platform} `{Bundle}.

End SearchHook.

Section Responsive.
Import useWeather.useResponsive.

(** X21. After the viewport has been measured, exactly one of mobile,
    tablet and desktop holds: mobile below 768 pixels of width, tablet from
    768 to below 1024, desktop from 1024 on; and exactly one of portrait and
    landscape, portrait when the height exceeds the width.  Before the
    measurement the hook reports desktop and landscape. *)
Theorem viewport_classes_partition (width height : Q) :
  let r := result (checkViewport width height) in
  (Result.isMobile r = true <-> width < 768) /\
  (Result.isTablet r = true <-> 768 <= width /\ width < 1024) /\
  (Result.isDesktop r = true <-> 1024 <= width) /\
  (Result.isPortrait r = true <-> width < height) /\
  Result.isLandscape r = negb (Result.isPortrait r) /\
  ((Result.isMobile r = true /\ Result.isTablet r = false /\ Result.isDesktop r = false) \/
   (Result.isMobile r = false /\ Result.isTablet r = true /\ Result.isDesktop r = false) \/
   (Result.isMobile r = false /\ Result.isTablet r = false /\ Result.isDesktop r = true)) /\
  Result.isDesktop (result initialState) = true /\
  Result.isLandscape (result initialState) = true.
Proof.
  cbn [result checkViewport Result.isMobile Result.isTablet Result.isDesktop
              Result.isPortrait Result.isLandscape
              isMobile isTablet isPortrait initialState negb andb].
  unfold JS.lt, JS.ge, JS.gt.
  assert (Hle : forall a b, Qle_bool a b = true <-> a <= b) by (intros; apply Qle_bool_iff).
  assert (Hnle : forall a b, Qle_bool a b = false <-> b < a).
  { intros a b. split.
    - intros E. apply Qnot_le_lt. rewrite <- Hle. congruence.
    - intros Hlt. destruct (Qle_bool a b) eqn:E; [|reflexivity].
      apply Hle in E. lra. }
  destruct (Qle_bool 768 width) eqn:E1; destruct (Qle_bool 1024 width) eqn:E2;
    destruct (Qle_bool height width) eqn:E3; cbn [negb andb];
    try apply Hle in E1; try apply Hnle in E1; try apply Hle in E2; try apply Hnle in E2;
    try apply Hle in E3; try apply Hnle in E3;
    repeat split; try tauto; try discriminate; try lra; intros; try lra;
    intuition (try discriminate; try lra).
Qed.
End Responsive.

(** ** Clock times *)

Section ClockTimes.
Import JS weatherUtilsTs Clock12.

Lemma chars_app (s1 s2 : string) : chars (s1 ++ s2) = (chars s1 ++ chars s2)%list.
Proof.
  unfold chars. induction s1 as [|c s1 IH]; cbn; [reflexivity | now rewrite IH].
Qed.

Lemma string_app_assoc (a b c : string) : ((a ++ b) ++ c = a ++ (b ++ c))%string.
Proof. induction a as [|x a IH]; cbn; [reflexivity | now rewrite IH]. Qed.

Lemma str_chars (s : string) : str (chars s) = s.
Proof. apply string_of_list_ascii_of_string. Qed.

Lemma split_in_two (sep : ascii) (a b : string) :
  lacks sep a -> lacks sep b ->
  split sep (a ++ String sep b) = [a; b].
Proof.
  intros Ha Hb. unfold split. rewrite chars_app. cbn [chars list_ascii_of_string].
  rewrite split_chars_at by exact Ha. rewrite split_chars_whole by exact Hb.
  cbn [map]. fold (chars a) (chars b). now rewrite !str_chars.
Qed.

Lemma lacks_app (c : ascii) (a b : string) : lacks c a -> lacks c b -> lacks c (a ++ b).
Proof. unfold lacks. rewrite chars_app. intros Ha Hb. apply Forall_app. now split. Qed.

Lemma below (bound : nat) (P : Z -> Prop) :
  (forall k, (k < bound)%nat -> P (Z.of_nat k)) ->
  forall n, (0 <= n < Z.of_nat bound)%Z -> P n.
Proof.
  intros Hall n Hn. rewrite <- (Z2Nat.id n) by lia. apply Hall. lia.
Qed.

(** The decimal digits of a minute or an hour, as printed and as padded,
    read back as the number and contain neither a space nor a colon. *)
Lemma two_digits_read_back (n : Z) :
  (0 <= n < 60)%Z ->
  Number (decimal n) = Some (inject_Z n) /\
  Number (padStart2 (decimal n)) = Some (inject_Z n) /\
  lacks " " (decimal n) /\ lacks ":" (decimal n) /\
  lacks " " (padStart2 (decimal n)) /\ lacks ":" (padStart2 (decimal n)).
Proof.
  revert n. apply (below 60). intros k Hk.
  do 60 (destruct k as [|k];
         [vm_compute; repeat split; repeat constructor|]).
  lia.
Qed.

Lemma twelve_hour_parts (h : Z) :
  (0 <= h < 24)%Z ->
  JS.ge (inject_Z h) 12 = (12 <=? h)%Z /\
  (if JS.truthy (JS.fmod (inject_Z h) 12) then JS.fmod (inject_Z h) 12 else 12)
  = inject_Z (hour12_of h) /\
  JS.eq (inject_Z (hour12_of h)) 12 = (hour12_of h =? 12)%Z /\
  (1 <= hour12_of h <= 12)%Z /\
  (h = if (12 <=? h)%Z
       then (if (hour12_of h =? 12)%Z then 12 else hour12_of h + 12)
       else (if (hour12_of h =? 12)%Z then 0 else hour12_of h))%Z.
Proof.
  revert h. apply (below 24). intros k Hk.
  do 24 (destruct k as [|k]; [vm_compute; repeat split; discriminate|]).
  lia.
Qed.

(** The text that [convertTo12Hour] prints for the hour [h] and the minute
    [m], and what [parseTimeString] reads in it. *)
Lemma clock_text_parses (h m : Z) :
  (0 <= h <= 23)%Z -> (0 <= m <= 59)%Z ->
  let text := (decimal (hour12_of h) ++ ":" ++ padStart2 (decimal m) ++ " "
               ++ (if (12 <=? h)%Z then "PM" else "AM"))%string in
  weatherApi.nonempty text = true /\
  exists total, parseTimeString text = Some total /\ total == inject_Z (h * 60 + m).
Proof.
  intros Hh Hm text. split.
  { subst text. now destruct (decimal (hour12_of h)). }
  destruct (twelve_hour_parts h) as (_ & _ & Heq & Hk & Hback); [lia|].
  destruct (two_digits_read_back (hour12_of h)) as (Nk & _ & Sk & Ck & _ & _); [lia|].
  destruct (two_digits_read_back m) as (_ & Nm & _ & _ & Sm & Cm); [lia|].
  subst text.
  set (dk := decimal (hour12_of h)) in *. set (pm := padStart2 (decimal m)) in *.
  set (period := if (12 <=? h)%Z then "PM" else "AM").
  assert (Hp : lacks " " period) by (subst period; destruct (12 <=? h)%Z; repeat constructor).
  assert (Hout : (dk ++ ":" ++ pm ++ " " ++ period)%string
                 = ((dk ++ String ":" pm) ++ String " " period)%string).
  { now rewrite string_app_assoc. }
  rewrite Hout. unfold parseTimeString.
  rewrite (split_in_two " " (dk ++ String ":" pm) period)
    by first [ exact Hp
             | apply lacks_app; [exact Sk|];
               unfold lacks; cbn [chars list_ascii_of_string];
               constructor; [reflexivity | exact Sm] ].
  cbv beta iota zeta. cbn [nth_error].
  rewrite (split_in_two ":" dk pm Ck Cm). cbn [map useWeather.element nth_error].
  rewrite Nk, Nm, Heq. eexists. split; [reflexivity|].
  rewrite inject_Z_plus, inject_Z_mult. change (inject_Z 60) with 60.
  assert (Hq : inject_Z h
               == if (12 <=? h)%Z
                  then (if (hour12_of h =? 12)%Z then 12 else inject_Z (hour12_of h) + 12)
                  else (if (hour12_of h =? 12)%Z then 0 else inject_Z (hour12_of h))).
  { rewrite Hback at 1.
    destruct (12 <=? h)%Z, (hour12_of h =? 12)%Z; rewrite ?inject_Z_plus; reflexivity. }
  assert (Hk12 : (hour12_of h =? 12)%Z = true -> inject_Z (hour12_of h) == 12).
  { intros E. apply Z.eqb_eq in E. now rewrite E. }
  subst period.
  destruct (12 <=? h)%Z, (hour12_of h =? 12)%Z;
    cbv beta iota delta [is_period String.eqb Ascii.eqb Bool.eqb negb andb];
    rewrite Hq; try specialize (Hk12 eq_refl); lra.
Qed.

(** Every part of a split string is made of characters of the string. *)
Lemma split_chars_Forall (P : ascii -> Prop) (sep : ascii) (cs : list ascii) :
  Forall P cs -> Forall (Forall P) (split_chars sep cs).
Proof.
  induction 1 as [|c r Hc _ IH]; cbn; [repeat constructor|].
  destruct (Ascii.eqb c sep); [constructor; [constructor | exact IH]|].
  destruct (split_chars sep r) as [|w ws]; [repeat constructor; exact Hc|].
  inversion IH; subst. constructor; [constructor; assumption | assumption].
Qed.

(** Without a colon there are no minutes to read. *)
Lemma parseTimeString_needs_colon (timeStr : string) :
  lacks ":" timeStr -> parseTimeString timeStr = None.
Proof.
  intros Hno. unfold parseTimeString, split.
  pose proof (split_chars_Forall _ " "%char (chars timeStr) Hno) as Hparts.
  destruct (split_chars " " (chars timeStr)) as [|t ts]; cbn [map].
  - cbn. reflexivity.
  - inversion Hparts as [|? ? Ht _]; subst.
    assert (Hone : map Number (map str (split_chars ":" (chars (str t)))) = [Number (str t)]).
    { unfold chars, str. rewrite list_ascii_of_string_of_list_ascii.
      now rewrite split_chars_whole by exact Ht. }
    cbv beta iota zeta. rewrite Hone. cbn [useWeather.element nth_error].
    now destruct (Number (str t)).
Qed.

Lemma ge_inject_Z (a : Z) (q : Q) (b : Z) :
  q == inject_Z b -> JS.ge (inject_Z a) q = (b <=? a)%Z.
Proof.
  intros Hq. unfold JS.ge. apply eq_true_iff_eq.
  rewrite Qle_bool_iff, Hq, <- Zle_Qle. symmetry. apply Z.leb_le.
Qed.

Lemma le_inject_Z (a : Z) (q : Q) (b : Z) :
  q == inject_Z b -> JS.le (inject_Z a) q = (a <=? b)%Z.
Proof.
  intros Hq. unfold JS.le. apply eq_true_iff_eq.
  rewrite Qle_bool_iff, Hq, <- Zle_Qle. symmetry. apply Z.leb_le.
Qed.

Context `{Platform}.

Lemma convertTo12Hour_prints (time24 : string) (h m : Z) (more : list (option Q)) :
  prints_decimal ->
  map JS.Number (JS.split ":" time24) = Some (inject_Z h) :: Some (inject_Z m) :: more ->
  (0 <= h <= 23)%Z -> (0 <= m <= 59)%Z ->
  convertTo12Hour time24
  = (decimal (hour12_of h) ++ ":" ++ padStart2 (decimal m) ++ " "
     ++ (if (12 <=? h)%Z then "PM" else "AM"))%string.
Proof.
  intros Hprint Hsplit Hh Hm.
  destruct (twelve_hour_parts h) as (Hge & Hh12 & _ & Hk & _); [lia|].
  unfold convertTo12Hour. rewrite Hsplit. cbv beta iota zeta.
  rewrite Hge, Hh12. cbn [toString].
  rewrite (Hprint (hour12_of h)) by lia. rewrite (Hprint m) by lia. reflexivity.
Qed.

(** X22. Formatting a time of day on the 12-hour clock and parsing it back
    gives the minutes since midnight: for a string whose two first
    colon-separated parts read as an hour from 0 to 23 and a minute from 0 to
    59, [parseTimeString (convertTo12Hour s)] is [60 * hour + minute],
    midnight and noon included. *)
Theorem parseTimeString_inverts_convertTo12Hour
        (time24 : string) (h m : Z) (more : list (option Q)) :
  prints_decimal ->
  map JS.Number (JS.split ":" time24) = Some (inject_Z h) :: Some (inject_Z m) :: more ->
  (0 <= h <= 23)%Z -> (0 <= m <= 59)%Z ->
  exists total,
    parseTimeString (convertTo12Hour time24) = Some total /\
    total == inject_Z (h * 60 + m).
Proof.
  intros Hprint Hsplit Hh Hm.
  rewrite (convertTo12Hour_prints time24 h m more Hprint Hsplit Hh Hm).
  exact (proj2 (clock_text_parses h m Hh Hm)).
Qed.

(** X23. With sunrise and sunset written by [convertTo12Hour], [isDayTime]
    holds exactly from the minute of sunrise to the minute of sunset, both
    included. *)
Theorem isDayTime_between_sunrise_and_sunset
        (currentTime : Clock) (sunrise24 sunset24 : string)
        (hr mr hs ms : Z) (more1 more2 : list (option Q)) :
  prints_decimal ->
  map JS.Number (JS.split ":" sunrise24) = Some (inject_Z hr) :: Some (inject_Z mr) :: more1 ->
  map JS.Number (JS.split ":" sunset24) = Some (inject_Z hs) :: Some (inject_Z ms) :: more2 ->
  (0 <= hr <= 23)%Z -> (0 <= mr <= 59)%Z ->
  (0 <= hs <= 23)%Z -> (0 <= ms <= 59)%Z ->
  isDayTime (Some currentTime)
            (Some (convertTo12Hour sunrise24)) (Some (convertTo12Hour sunset24)) = true
  <-> (hr * 60 + mr <= hours currentTime * 60 + minutes currentTime <= hs * 60 + ms)%Z.
Proof.
  intros Hprint Hr Hs Hhr Hmr Hhs Hms.
  rewrite (convertTo12Hour_prints sunrise24 hr mr more1 Hprint Hr Hhr Hmr).
  rewrite (convertTo12Hour_prints sunset24 hs ms more2 Hprint Hs Hhs Hms).
  destruct (clock_text_parses hr mr Hhr Hmr) as (Nr & tr & Pr & Er).
  destruct (clock_text_parses hs ms Hhs Hms) as (Ns & ts & Ps & Es).
  unfold isDayTime. rewrite Nr, Ns, Pr, Ps. cbn [andb].
  rewrite (ge_inject_Z _ tr _ Er), (le_inject_Z _ ts _ Es).
  rewrite andb_true_iff, !Z.leb_le. reflexivity.
Qed.

(** X24. A sunrise or a sunset without a colon, such as the hour labels
    "6 AM" of the hourly series, has no minutes to read: nothing is thrown,
    the [catch] with its default is not reached, and [isDayTime] answers
    night at every time of the day. *)
Theorem isDayTime_without_minutes_is_night
        (currentTime : Clock) (sunrise sunset : string) :
  weatherApi.nonempty sunrise = true -> weatherApi.nonempty sunset = true ->
  lacks ":" sunrise \/ lacks ":" sunset ->
  isDayTime (Some currentTime) (Some sunrise) (Some sunset) = false.
Proof.
  intros Nr Ns Hno. unfold isDayTime. rewrite Nr, Ns. cbn [andb].
  destruct Hno as [Hno|Hno]; rewrite (parseTimeString_needs_colon _ Hno);
    [reflexivity | now destruct (parseTimeString sunrise)].
Qed.
End ClockTimes.

(** ** The handlers of the dashboard *)

Section Framing.
Import Http weatherApi Requests useWeather Traces.

Lemma framed_ret {A} (a : A) : framed (ret a).
Proof. intros w t. cbn. now rewrite app_nil_r. Qed.

Lemma framed_throw {A} (e : JSError) : framed (@throw A e).
Proof. intros w t. cbn. now rewrite app_nil_r. Qed.

Lemma framed_lift {A} (c : Completion A) : framed (lift c).
Proof. intros w t. cbn. now rewrite app_nil_r. Qed.

Lemma framed_clock : framed clock.
Proof. intros w t. cbn. now rewrite app_nil_r. Qed.

Lemma framed_await_fetch (url : Request) : framed (await_fetch url).
Proof. intros w t. unfold await_fetch. now destruct (fetch w url). Qed.

Lemma framed_bind {A B} (m : M A) (f : A -> M B) :
  framed m -> (forall a, framed (f a)) -> framed (bind m f).
Proof.
  intros Hm Hf w t. unfold bind. rewrite (Hm w t).
  destruct (m w []) as [[a|e] s]; cbn [fst snd]; [|reflexivity].
  rewrite (Hf a w (t ++ s)%list), (Hf a w s). cbn [fst snd]. now rewrite app_assoc.
Qed.

Lemma framed_try_catch {A} (m : M A) (handler : JSError -> M A) :
  framed m -> (forall e, framed (handler e)) -> framed (try_catch m handler).
Proof.
  intros Hm Hh w t. unfold try_catch. rewrite (Hm w t).
  destruct (m w []) as [[a|e] s]; cbn [fst snd]; [reflexivity|].
  rewrite (Hh e w (t ++ s)%list), (Hh e w s). cbn [fst snd]. now rewrite app_assoc.
Qed.

Lemma framed_Promise_all2 {A B} (p : M A) (q : M B) :
  framed p -> framed q -> framed (Promise_all2 p q).
Proof.
  intros Hp Hq w t. unfold Promise_all2. rewrite (Hp w t).
  destruct (p w []) as [a s]; cbn [fst snd].
  rewrite (Hq w (t ++ s)%list), (Hq w s).
  destruct (q w []) as [b s']; cbn [fst snd].
  destruct a, b; cbn [fst snd]; now rewrite app_assoc.
Qed.

Ltac frame :=
  repeat first
    [ apply framed_ret | apply framed_throw | apply framed_lift | apply framed_clock
    | apply framed_await_fetch
    | apply framed_bind; [|intros ?]
    | apply framed_try_catch; [|intros ?]
    | apply framed_Promise_all2
    | assumption
    | match goal with |- framed (match ?x with _ => _ end) => destruct x end ].

Context `{Platform} `{Bundle}.

Lemma framed_searchLocations (query : string) (limit : Q) :
  framed (locationService.searchLocations query limit).
Proof.
  unfold locationService.searchLocations.
  frame.
Qed.

Lemma framed_parseLocation (location : option string) : framed (parseLocation location).
Proof.
  unfold parseLocation. destruct location as [l|]; [|frame].
  destruct (nonempty l); cbn [negb]; [|frame].
  destruct (JS.test coordinatePattern l); [frame|].
  apply framed_bind; [apply framed_searchLocations|]. intros results. frame.
Qed.

Lemma framed_fetchWeatherData (st : State) (location : option string) :
  framed (fetchWeatherData st location).
Proof.
  unfold fetchWeatherData, fetchBody. rewrite guarded_parseLocation.
  apply framed_bind; [|intros ?; frame].
  apply framed_try_catch; [|intros ?; frame].
  apply framed_bind; [apply framed_parseLocation|]. intros coords.
  apply framed_bind; [|intros ?; frame].
  frame.
Qed.
End Framing.

Section Dashboard.
Import Http weatherApi Requests useWeather Traces WeatherDashboard DirectSearch.
Context `{Platform} `{Bundle}.

Lemma searchLocations_requests (query : string) (limit : Q) (w : World) :
  snd (run (locationService.searchLocations query limit) w) = search_requests query limit.
Proof.
  unfold run, search_requests. destruct (nonempty (JS.trim query)) eqn:Hb.
  - now destruct (searchLocations_never_throws query limit w [] Hb) as [results ->].
  - now rewrite (searchLocations_blank query limit w [] Hb).
Qed.

Lemma searchLocations_at (attempt : string) (results : list LocationSuggestion.t)
      (w : World) (t : list Request) :
  finds w attempt results ->
  locationService.searchLocations attempt 1 w t
  = (Normal results, (t ++ search_requests attempt 1)%list).
Proof.
  intros Hfinds. rewrite (framed_searchLocations attempt 1 w t).
  fold (run (locationService.searchLocations attempt 1) w).
  now rewrite searchLocations_requests, Hfinds.
Qed.

Lemma tryAttempts_none (todo : list string) (w : World) :
  (forall a, In a todo -> finds w a []) ->
  forall results t,
  exists last,
    tryAttempts todo results w t
    = (Normal (false, last), (t ++ flat_map (fun a => search_requests a 1) todo)%list).
Proof.
  induction todo as [|a rest IH]; intros Hall results t.
  - exists results. cbn. now rewrite app_nil_r.
  - cbn [tryAttempts flat_map]. unfold bind.
    rewrite (searchLocations_at a [] w t) by (apply Hall; now left).
    destruct (IH (fun b Hb => Hall b (or_intror Hb)) [] (t ++ search_requests a 1)%list)
      as [last ->].
    exists last. now rewrite app_assoc.
Qed.

Lemma tryAttempts_found (before : list string) (a : string) (after : list string)
      (loc : LocationSuggestion.t) (more : list LocationSuggestion.t) (w : World) :
  (forall b, In b before -> finds w b []) ->
  finds w a (loc :: more) ->
  forall results t,
    tryAttempts (before ++ a :: after) results w t
    = (Normal (true, loc :: more),
       (t ++ flat_map (fun a => search_requests a 1) (before ++ [a]))%list).
Proof.
  intros Hall Ha. induction before as [|b rest IH]; intros results t.
  - cbn [app tryAttempts flat_map]. unfold bind.
    rewrite (searchLocations_at a (loc :: more) w t Ha). now rewrite app_nil_r.
  - cbn [app tryAttempts flat_map]. unfold bind.
    rewrite (searchLocations_at b [] w t) by (apply Hall; now left).
    rewrite (IH (fun c Hc => Hall c (or_intror Hc))). now rewrite app_assoc.
Qed.

(** A fetch of the hook ends normally, in a settled state. *)
Lemma fetchWeatherData_settled (st : useWeather.State) (location : option string)
      (w : World) :
  exists data,
    fst (run (fetchWeatherData st location) w) = Normal (settled data (Date_now w)).
Proof.
  unfold run, fetchWeatherData, fetchBody. rewrite guarded_parseLocation.
  unfold try_catch, bind at 1 2.
  destruct (parseLocation_runs location w []) as [coords ->].
  destruct coords as [[[lat|] [lon|]]|]; try (eexists; reflexivity).
  destruct (weatherUtils.isAPIConfigured && JS.truthy lat && JS.truthy lon);
    [|eexists; reflexivity].
  unfold bind at 1 2, Promise_all2.
  destruct (getCurrentWeather_runs lat lon w ([] ++ geocoding_requests location))
    as [current ->].
  destruct (getForecast_runs lat lon w
              (([] ++ geocoding_requests location) ++ [weather_url lat lon]))
    as [forecast ->].
  eexists; reflexivity.
Qed.

Lemma fetchWeatherData_at (st : useWeather.State) (location : option string)
      (w : World) (t : list Request) :
  exists data,
    fst (run (fetchWeatherData st location) w) = Normal (settled data (Date_now w)) /\
    fetchWeatherData st location w t
    = (Normal (settled data (Date_now w)),
       (t ++ snd (run (fetchWeatherData st location) w))%list).
Proof.
  destruct (fetchWeatherData_settled st location w) as [data Hdata].
  exists data. split; [exact Hdata|].
  rewrite (framed_fetchWeatherData st location w t).
  fold (run (fetchWeatherData st location) w). now rewrite Hdata.
Qed.

(** X25. A direct search for which none of the four spellings finds a
    place asks for each of them in turn, then shows the toast "Location not
    found" with the query as it was typed, and changes nothing else: the
    location, the stored location, the weather and the query stay. *)
Theorem direct_search_without_result (st : WeatherDashboard.State) (w : World) :
  nonempty (JS.trim (searchQuery st)) = true ->
  (forall a, In a (attempts (JS.trim (searchQuery st))) -> finds w a []) ->
  run (handleDirectSearch st) w
  = (Normal (toast (notFound (searchQuery st)) st),
     flat_map (fun a => search_requests a 1) (attempts (JS.trim (searchQuery st)))).
Proof.
  intros Hb Hall. unfold run, handleDirectSearch. rewrite Hb. cbn [negb].
  unfold try_catch, bind.
  destruct (tryAttempts_none _ w Hall [] []) as [last ->]. reflexivity.
Qed.

(** X26. A direct search stops at the first spelling that finds a place:
    the spellings before it have been asked, those after it are not.  It
    then fetches the weather for the coordinates of the first result,
    written as "<lat>,<lon>", and ends with the formatted name of the place
    as location and as stored location, an empty query, the weather state
    in which that fetch ended, and no toast, the storage accepting the
    write. *)
Theorem direct_search_takes_first_result
        (st : WeatherDashboard.State) (w : World)
        (before : list string) (a : string) (after : list string)
        (loc : LocationSuggestion.t) (more : list LocationSuggestion.t) :
  nonempty (JS.trim (searchQuery st)) = true ->
  attempts (JS.trim (searchQuery st)) = (before ++ a :: after)%list ->
  (forall b, In b before -> finds w b []) ->
  finds w a (loc :: more) ->
  let coords := (String_of_number (LocationSuggestion.lat loc) ++ ","
                 ++ String_of_number (LocationSuggestion.lon loc))%string in
  exists hook requests st',
    run (fetchWeatherData (weather st) (Some coords)) w = (Normal hook, requests) /\
    run (handleDirectSearch st) w
    = (Normal st',
       (flat_map (fun a => search_requests a 1) (before ++ [a]) ++ requests)%list) /\
    location st' = formatted loc /\
    lastLocation st' = Some (formatted loc) /\
    searchQuery st' = "" /\
    weather st' = hook /\
    toasts st' = toasts st.
Proof.
  intros Hb Hsplit Hall Ha coords.
  destruct (fetchWeatherData_at (weather st) (Some coords) w
              (flat_map (fun a => search_requests a 1) (before ++ [a])))
    as (data & Hrun & Hat).
  exists (settled data (Date_now w)),
         (snd (run (fetchWeatherData (weather st) (Some coords)) w)),
         (selected (formatted loc) (settled data (Date_now w)) st).
  split; [now rewrite <- Hrun; destruct (run _ w)|].
  split; [|repeat split].
  unfold run, handleDirectSearch. rewrite Hb, Hsplit. cbn [negb].
  unfold try_catch, bind at 1.
  rewrite (tryAttempts_found before a after loc more w Hall Ha [] []). cbn [app].
  unfold bind, coords_of, template. fold coords. now rewrite Hat.
Qed.

Lemma commas_plain (cs : list ascii) :
  forallb (fun c => negb (JS.is_space c)) cs = true -> commas_chars false cs = cs.
Proof.
  induction cs as [|c r IH]; cbn [forallb commas_chars]; [reflexivity|].
  intros [Hc Hr]%andb_true_iff. apply negb_true_iff in Hc. rewrite Hc. now rewrite IH.
Qed.

Lemma spaced_plain (p1 p2 : ascii -> bool) (cs : list ascii) :
  has_pair p1 p2 cs = false -> spaced_chars p1 p2 cs = cs.
Proof.
  induction cs as [|a rest IH]; [reflexivity|].
  cbn [has_pair spaced_chars]. destruct rest as [|b r]; [reflexivity|].
  intros [Hab Hr]%orb_false_iff. rewrite Hab. now rewrite IH.
Qed.

Lemma trimStart_plain (cs : list ascii) :
  forallb (fun c => negb (JS.is_space c)) cs = true -> JS.trimStart cs = cs.
Proof.
  destruct cs as [|c r]; [reflexivity|]. cbn [forallb JS.trimStart].
  intros [Hc _]%andb_true_iff. apply negb_true_iff in Hc. now rewrite Hc.
Qed.

Lemma trim_plain (s : string) :
  forallb (fun c => negb (JS.is_space c)) (JS.chars s) = true -> JS.trim s = s.
Proof.
  intros Hs. unfold JS.trim, JS.trim_chars, JS.trimEnd.
  rewrite (trimStart_plain _ Hs), trimStart_plain, rev_involutive.
  - apply string_of_list_ascii_of_string.
  - rewrite forallb_forall in *. intros c Hc. apply Hs. now apply in_rev.
Qed.

(** The four spellings of one plain word are the word itself. *)
Lemma attempts_plain (original : string) :
  plain original = true -> attempts original = [original; original; original; original].
Proof.
  unfold plain. intros [[Hs Hl]%andb_true_iff Hd]%andb_true_iff.
  apply negb_true_iff in Hl, Hd.
  assert (Hspaced : spaced original = original).
  { unfold spaced. rewrite (spaced_plain _ _ _ Hl), (spaced_plain _ _ _ Hd).
    apply string_of_list_ascii_of_string. }
  assert (Hcommas : commas original = original).
  { unfold commas. rewrite (commas_plain _ Hs). apply string_of_list_ascii_of_string. }
  unfold attempts. now rewrite Hspaced, Hcommas.
Qed.

(** X27. For a query of one plain word (no white space inside, no
    lower-case letter before a capital or a digit, no digit before a
    letter) the four spellings are the same string: when the search finds
    nothing for the word, the same geocoding request is sent four times
    before the toast is shown. *)
Theorem plain_word_is_asked_four_times (st : WeatherDashboard.State) (w : World) :
  let original := JS.trim (searchQuery st) in
  nonempty original = true ->
  plain original = true ->
  finds w original [] ->
  run (handleDirectSearch st) w
  = (Normal (toast (notFound (searchQuery st)) st),
     [geocoding_url original 1; geocoding_url original 1;
      geocoding_url original 1; geocoding_url original 1]).
Proof.
  intros original Hne Hplain Hnone.
  assert (Htrim : JS.trim original = original).
  { apply trim_plain. unfold plain in Hplain.
    now apply andb_true_iff in Hplain as [[Hs _]%andb_true_iff _]. }
  assert (Hb : nonempty (JS.trim (searchQuery st)) = true) by exact Hne.
  assert (Hall : forall a, In a (attempts original) -> finds w a []).
  { rewrite (attempts_plain original Hplain). cbn [In]. intros a Ha.
    repeat destruct Ha as [<-|Ha]; try exact Hnone. contradiction. }
  unfold run, handleDirectSearch. rewrite Hb. cbn [negb].
  unfold try_catch, bind. fold original.
  destruct (tryAttempts_none _ w Hall [] []) as [last ->].
  rewrite (attempts_plain original Hplain). cbn [flat_map app].
  unfold search_requests. rewrite Htrim, Hne. reflexivity.
Qed.

(** X28. Selecting a suggestion never shows the toast "Location not
    found": the fetch of the hook does not throw, so the handler always
    ends with the name of the suggestion as location and as stored
    location and with an empty query, whatever the network answered and
    whether the weather that is stored is real or the mock dataset.  The
    coordinates asked for are those of [originalLocation] when it is
    there. *)
Theorem handleLocationSelect_always_accepts
        (st : WeatherDashboard.State) (selectedLocation : LocationType) (w : World) :
  let coords :=
    match originalLocation selectedLocation with
    | Some (lat, lon) => (String_of_number lat ++ "," ++ String_of_number lon)%string
    | None => coords_of (WeatherDashboard.lat selectedLocation)
                        (WeatherDashboard.lon selectedLocation)
    end in
  exists data st',
    run (handleLocationSelect st selectedLocation) w
    = (Normal st', snd (run (fetchWeatherData (weather st) (Some coords)) w)) /\
    fst (run (fetchWeatherData (weather st) (Some coords)) w)
    = Normal (settled data (Date_now w)) /\
    location st' = name selectedLocation /\
    lastLocation st' = Some (name selectedLocation) /\
    searchQuery st' = "" /\
    weather st' = settled data (Date_now w) /\
    toasts st' = toasts st.
Proof.
  intros coords.
  destruct (fetchWeatherData_settled (weather st) (Some coords) w) as [data Hdata].
  exists data, (selected (name selectedLocation) (settled data (Date_now w)) st).
  split; [|split; [exact Hdata | repeat split]].
  unfold handleLocationSelect, run, try_catch, bind.
  assert (Hc : match originalLocation selectedLocation with
               | Some (lat, lon) => coords_of (Some lat) (Some lon)
               | None => coords_of (WeatherDashboard.lat selectedLocation)
                                   (WeatherDashboard.lon selectedLocation)
               end = coords).
  { subst coords. now destruct (originalLocation selectedLocation) as [[? ?]|]. }
  rewrite Hc. unfold run in Hdata.
  destruct (fetchWeatherData (weather st) (Some coords) w []) as [[hook|e] t];
    cbn [fst snd] in *; [|discriminate].
  now injection Hdata as ->.
Qed.
End Dashboard.

(* ================================================================== *)
(** * Instances on the reference platform *)
(* ================================================================== *)

Section Instances.
Import Http weatherApi Requests useWeather Reference.

Lemma getWindDirection_compass_witness :
  0 <= 348.75 <= 360 /\
  exists label,
    getWindDirection 348.75 = Some label /\
    (0 <= Z.rem (JS.Math_round (348.75 / 22.5)) 16 < 16)%Z /\
    nth_error directions (Z.to_nat (Z.rem (JS.Math_round (348.75 / 22.5)) 16)) = Some label /\
    In label directions.
Proof.
  assert (Hrange : 0 <= 348.75 <= 360) by (split; discriminate).
  split; [exact Hrange|].
  exact (proj2 (proj2 (proj2 (proj2 (proj2 (getWindDirection_compass 348.75 Hrange)))))).
Defined.



(** The pair of the example of the specification: its two numbers are the
    doubles that the literals [40.71] and [-74.01] denote. *)
Example parseLocation_example :
  run (@parseLocation utc (bundle None) (Some "40.71 , -74.01")) offline
  = (Normal (Some {| lat := Some (JS.to_double 40.71);
                     lon := Some (JS.to_double (-74.01)) |}), []).
Proof. reflexivity. Qed.

(** Two literals may denote one number, and a whole number beyond [2 ^ 53]
    need not be a double. *)
Example Number_rounds :
  JS.Number "40.7127753000000001" = JS.Number "40.7127753" /\
  JS.Number "9007199254740993" = Some 9007199254740992 /\
  JS.Number "40.75" = Some (163 # 4).
Proof. repeat split. Qed.

Lemma daily_high_low_are_bucket_extrema_witness :
  exists daily r,
    @dailyOf utc (ForecastApiResponse.list_ forecast_payload) = Normal daily /\
    In r daily /\
    Aggregation.is_max (DailyWeatherData.high r)
      (map Aggregation.temp_max_of
           (@Aggregation.bucket utc (ForecastApiResponse.list_ forecast_payload)
                                (DailyWeatherData.day r))) /\
    Aggregation.is_min (DailyWeatherData.low r)
      (map Aggregation.temp_min_of
           (@Aggregation.bucket utc (ForecastApiResponse.list_ forecast_payload)
                                (DailyWeatherData.day r))).
Proof.
  eexists. eexists.
  assert (Hd : @dailyOf utc (ForecastApiResponse.list_ forecast_payload)
               = Normal [ {| DailyWeatherData.day := "Thu";
                             DailyWeatherData.date := Some "@36000000";
                             DailyWeatherData.high := 19;
                             DailyWeatherData.low := 12;
                             DailyWeatherData.icon := Tag sunny;
                             DailyWeatherData.precipitation := 20;
                             DailyWeatherData.humidity := Some 50;
                             DailyWeatherData.windSpeed := Some 3;
                             DailyWeatherData.description := Some "clear sky" |} ])
    by reflexivity.
  split; [exact Hd|]. split; [left; reflexivity|].
  destruct (@daily_high_low_are_bucket_extrema utc _ _ _ Hd (or_introl eq_refl))
    as (Hmax & Hmin & _).
  split; [exact Hmax | exact Hmin].
Defined.

(** ** The fetch with one of the two requests failing *)

Lemma partial_failure_is_merged_witness :
  (exists current,
      @transformWeatherData utc (current_payload "01d") = Normal current /\
      run (@fetchWeatherData utc demo (@initialState demo 0) (Some "40.71,-74.01")) only_current
      = (Normal (settled (merge current (@mockWeatherData demo)) (Date_now only_current)),
         [@weather_url utc demo (JS.to_double 40.71) (JS.to_double (-74.01)); @forecast_url utc demo (JS.to_double 40.71) (JS.to_double (-74.01))]))
  /\
  (exists forecast,
      @transformForecastData utc (Date_now only_forecast) forecast_payload = Normal forecast /\
      run (@fetchWeatherData utc demo (@initialState demo 0) (Some "40.71,-74.01")) only_forecast
      = (Normal (settled (merge (@mockWeatherData demo) forecast) (Date_now only_forecast)),
         [@weather_url utc demo (JS.to_double 40.71) (JS.to_double (-74.01)); @forecast_url utc demo (JS.to_double 40.71) (JS.to_double (-74.01))]))
  /\
  run (@fetchWeatherData utc demo (@initialState demo 0) (Some "40.71,-74.01")) offline
  = (Normal (settled (@mockWeatherData demo) (Date_now offline)),
     [@weather_url utc demo (JS.to_double 40.71) (JS.to_double (-74.01)); @forecast_url utc demo (JS.to_double 40.71) (JS.to_double (-74.01))]).
Proof.
  split; [|split].
  - eexists. split; [reflexivity|].
    refine (proj1 (@partial_failure_is_merged utc demo (@initialState demo 0)
                     (Some "40.71,-74.01") only_current [] (JS.to_double 40.71) (JS.to_double (-74.01))
                     eq_refl eq_refl eq_refl eq_refl)
                  (current_payload "01d") _ _ eq_refl I).
    exists 200%Z, "OK". split; reflexivity.
  - eexists. split; [reflexivity|].
    refine (proj1 (proj2 (@partial_failure_is_merged utc demo (@initialState demo 0)
                            (Some "40.71,-74.01") only_forecast [] (JS.to_double 40.71) (JS.to_double (-74.01))
                            eq_refl eq_refl eq_refl eq_refl))
                  forecast_payload _ I _ eq_refl).
    exists 200%Z, "OK". split; reflexivity.
  - exact (proj2 (proj2 (@partial_failure_is_merged utc demo (@initialState demo 0)
                           (Some "40.71,-74.01") offline [] (JS.to_double 40.71) (JS.to_double (-74.01))
                           eq_refl eq_refl eq_refl eq_refl)) I I).
Defined.

(** C1 fails on the code: the current-weather request succeeds, the
    forecast request fails, and the stored data is not the mock dataset: its
    [current] block is the transformed response, over the mock series, and
    no error is recorded. *)
Lemma current_only_success_is_not_the_mock_dataset :
  request_yields only_current (@weather_url utc demo (JS.to_double 40.71) (JS.to_double (-74.01)))
                 (JWeather (current_payload "01d")) /\
  request_fails only_current (@forecast_url utc demo (JS.to_double 40.71) (JS.to_double (-74.01))) /\
  exists st t,
    run (@fetchWeatherData utc demo (@initialState demo 0) (Some "40.71,-74.01")) only_current
    = (Normal st, t) /\
    error st = None /\
    weatherData st <> @mockWeatherData demo /\
    CurrentWeatherData.temperature (WeatherData.current (weatherData st)) = 21 /\
    CurrentWeatherData.temperature (WeatherData.current (@mockWeatherData demo)) = 68 /\
    WeatherData.hourly (weatherData st) = WeatherData.hourly (@mockWeatherData demo) /\
    WeatherData.daily (weatherData st) = WeatherData.daily (@mockWeatherData demo).
Proof.
  split; [exists 200%Z, "OK"; split; reflexivity|]. split; [exact I|].
  eexists. eexists. split; [vm_compute; reflexivity|].
  split; [reflexivity|]. split; [|repeat split].
  intros Heq.
  apply (f_equal (fun d => CurrentWeatherData.temperature (WeatherData.current d))) in Heq.
  vm_compute in Heq. discriminate.
Qed.

(** ** The fetch without an API key *)

Lemma unconfigured_fetch_is_mock_witness :
  @weatherUtils.isAPIConfigured (bundle None) = false /\
  run (@fetchWeatherData utc (bundle None) (@initialState (bundle None) 0) (Some "London")) offline
  = (Normal (settled (@mockWeatherData (bundle None)) (Date_now offline)),
     @geocoding_requests utc (bundle None) (Some "London")).
Proof.
  split; [reflexivity|].
  exact (proj1 (@unconfigured_fetch_is_mock utc (bundle None) (@initialState (bundle None) 0)
                  (Some "London") offline eq_refl)).
Defined.

(** C2 fails on the code: without an API key, the fetch for the text
    "London" sends the geocoding request. *)
Lemma unconfigured_search_issues_geocoding_request :
  @weatherUtils.isAPIConfigured (bundle None) = false /\
  snd (run (@fetchWeatherData utc (bundle None) (@initialState (bundle None) 0)
                              (Some "London")) offline)
  = [ {| endpoint := "https://api.openweathermap.org/geo/1.0/direct";
         searchParams := [("q", "London"); ("limit", "1")] |} ] /\
  snd (run (@fetchWeatherData utc (bundle None) (@initialState (bundle None) 0)
                              (Some "London")) offline) <> [].
Proof.
  split; [reflexivity|]. split; [vm_compute; reflexivity|].
  vm_compute. discriminate.
Qed.

(** ** The search with a failing request *)

Lemma searchLocations_failure_gives_mock_matches_witness :
  nonempty (JS.trim "London") = true /\
  request_fails offline (@geocoding_url utc (bundle None) "London" 5) /\
  exists results,
    run (@locationService.searchLocations utc (bundle None) "London" 5) offline
    = (Normal results, [@geocoding_url utc (bundle None) "London" 5])
    /\ forall location,
        In location results <->
        In location mockLocations /\
        JS.includes (JS.toLowerCase (LocationSuggestion.name location))
                    (JS.toLowerCase "London") = true.
Proof.
  split; [reflexivity|]. split; [exact I|].
  exact (@searchLocations_failure_gives_mock_matches utc (bundle None) "London" 5 offline
           eq_refl I).
Defined.

(** C8 fails on the code: the request of the search for "London" fails and
    the result is not empty, it is the mock location of that name. *)
Lemma failed_search_for_London_is_not_empty :
  request_fails offline (@geocoding_url utc (bundle None) "London" 5) /\
  fst (run (@locationService.searchLocations utc (bundle None) "London" 5) offline)
  = Normal [mockLocation "2" "London" "GB" None 51.5074 (-0.1278)] /\
  fst (run (@locationService.searchLocations utc (bundle None) "London" 5) offline)
  <> Normal [].
Proof.
  split; [exact I|]. split; [vm_compute; reflexivity|].
  vm_compute. discriminate.
Qed.

(** ** Two fallbacks at different times *)

Lemma mock_dataset_is_built_once_witness :
  (@weatherUtils.isAPIConfigured (@load utc None 9%Z (fun _ => 0.5)) = false /\
   exists s1 s2 t1 t2,
     run (@fetchWeatherData utc (@load utc None 9%Z (fun _ => 0.5))
            (@initialState (bundle None) 0) (Some "London")) offline = (Normal s1, t1) /\
     run (@fetchWeatherData utc (@load utc None 9%Z (fun _ => 0.5))
            (@initialState (bundle None) 0) None) later = (Normal s2, t2) /\
     weatherData s1 = fst (@mockData.mockWeatherData utc 9%Z (fun _ => 0.5) 0%nat) /\
     weatherData s2 = fst (@mockData.mockWeatherData utc 9%Z (fun _ => 0.5) 0%nat))
  /\
  (request_fails offline (@weather_url utc demo 40.71 (-74.01)) /\
   request_fails later (@forecast_url utc demo 51.5 0) /\
   fst (@weatherService.getCurrentWeather utc demo 40.71 (-74.01) offline [])
   = Normal (fst (@mockData.mockWeatherData utc 9%Z (fun _ => 0.5) 0%nat)) /\
   fst (@weatherService.getForecast utc demo 51.5 0 later [])
   = Normal (fst (@mockData.mockWeatherData utc 9%Z (fun _ => 0.5) 0%nat))).
Proof.
  split.
  - split; [reflexivity|].
    exact (proj1 (@mock_dataset_is_built_once utc None 9%Z (fun _ => 0.5) offline later)
                 (@initialState (bundle None) 0) (@initialState (bundle None) 0)
                 (Some "London") None eq_refl).
  - split; [exact I|]. split; [reflexivity|].
    exact (proj1 (proj2 (@mock_dataset_is_built_once utc (Some "demo-key") 9%Z (fun _ => 0.5)
                           offline later))
                 40.71 (-74.01) 51.5 0 [] [] I eq_refl).
Defined.
End Instances.

(* ================================================================== *)
(** * Further instances on the reference platform *)
(* ================================================================== *)

Section MoreInstances.
Import Http weatherApi Requests useWeather Reference Online.

(** ** The services *)

Lemma searchLocations_maps_the_response_witness :
  nonempty (JS.trim "New York") = true /\
  request_yields online (@geocoding_url utc demo "New York" 5) (JGeo [new_york]) /\
  exists results,
    run (@locationService.searchLocations utc demo "New York" 5) online
    = (Normal results, [@geocoding_url utc demo "New York" 5]) /\
    List.length results = 1%nat /\
    exists r,
      nth_error results 0 = Some r /\
      LocationSuggestion.name r = "New York" /\
      LocationSuggestion.lat r = 40.71.
Proof.
  assert (Hy : request_yields online (@geocoding_url utc demo "New York" 5) (JGeo [new_york]))
    by (exists 200%Z, "OK"; split; reflexivity).
  split; [reflexivity|]. split; [exact Hy|].
  destruct (@searchLocations_maps_the_response utc demo "New York" 5 online [new_york]
              eq_refl Hy) as (results & Hrun & Hlen & Hnth).
  exists results. split; [exact Hrun|]. split; [exact Hlen|].
  destruct (Hnth 0%nat new_york eq_refl) as (r & Hr & Hname & _ & _ & Hlat & _).
  exists r. split; [exact Hr|]. split; [exact Hname | exact Hlat].
Defined.

Lemma getLocationByCoords_outcome_witness :
  request_yields online (@reverse_url utc demo 40.71 (-74.01)) (JGeo [new_york]) /\
  request_fails offline (@reverse_url utc demo 40.71 (-74.01)) /\
  (exists s,
      @locationService.getLocationByCoords utc demo 40.71 (-74.01) online []
      = (Normal (Some s), [@reverse_url utc demo 40.71 (-74.01)]) /\
      LocationSuggestion.name s = "New York") /\
  @locationService.getLocationByCoords utc demo 40.71 (-74.01) offline []
  = (Normal None, [@reverse_url utc demo 40.71 (-74.01)]).
Proof.
  assert (Hy : request_yields online (@reverse_url utc demo 40.71 (-74.01)) (JGeo [new_york]))
    by (exists 200%Z, "OK"; split; reflexivity).
  split; [exact Hy|]. split; [exact I|]. split.
  - destruct (@getLocationByCoords_outcome utc demo 40.71 (-74.01) online [])
      as (found & Hrun & _ & _ & _ & Hsome).
    destruct (Hsome new_york [] Hy) as (s & Hs & Hname & _).
    exists s. split; [now rewrite Hrun, Hs | exact Hname].
  - destruct (@getLocationByCoords_outcome utc demo 40.71 (-74.01) offline [])
      as (found & Hrun & _ & Hfails & _).
    now rewrite Hrun, (Hfails I).
Defined.

Lemma getCurrentWeather_outcome_witness :
  request_yields online (@weather_url utc demo 40.71 (-74.01))
                 (JWeather (current_payload "01d")) /\
  exists data,
    @weatherService.getCurrentWeather utc demo 40.71 (-74.01) online []
    = (Normal data, [@weather_url utc demo 40.71 (-74.01)]) /\
    @transformWeatherData utc (current_payload "01d") = Normal data.
Proof.
  assert (Hy : request_yields online (@weather_url utc demo 40.71 (-74.01))
                              (JWeather (current_payload "01d")))
    by (exists 200%Z, "OK"; split; reflexivity).
  split; [exact Hy|].
  destruct (@getCurrentWeather_outcome utc demo 40.71 (-74.01) online [])
    as (data & Hrun & Hok & _).
  exists data. split; [exact Hrun|].
  apply (Hok (current_payload "01d") Hy). discriminate.
Defined.

Lemma getForecast_outcome_witness :
  request_yields online (@forecast_url utc demo 40.71 (-74.01)) (JForecast forecast_payload) /\
  (exists data,
      @weatherService.getForecast utc demo 40.71 (-74.01) online []
      = (Normal data, [@forecast_url utc demo 40.71 (-74.01)]) /\
      @transformForecastData utc (Date_now online) forecast_payload = Normal data) /\
  request_yields undatable (@forecast_url utc demo 40.71 (-74.01))
                 (JForecast undatable_payload) /\
  JS.valid_time (10000000000000 * 1000) = false /\
  @weatherService.getForecast utc demo 40.71 (-74.01) undatable []
  = (Normal (@mockWeatherData demo), [@forecast_url utc demo 40.71 (-74.01)]).
Proof.
  assert (Hy : request_yields online (@forecast_url utc demo 40.71 (-74.01))
                              (JForecast forecast_payload))
    by (exists 200%Z, "OK"; split; reflexivity).
  assert (Hu : request_yields undatable (@forecast_url utc demo 40.71 (-74.01))
                              (JForecast undatable_payload))
    by (exists 200%Z, "OK"; split; reflexivity).
  split; [exact Hy|]. split; [|split; [exact Hu | split; [reflexivity|]]].
  - destruct (@getForecast_outcome utc demo 40.71 (-74.01) online [])
      as (data & Hrun & Hok & _).
    exists data. split; [exact Hrun|].
    apply (Hok forecast_payload Hy); [discriminate | |].
    + repeat constructor; discriminate.
    + repeat constructor.
  - destruct (@getForecast_outcome utc demo 40.71 (-74.01) undatable [])
      as (data & Hrun & _ & Hmock).
    rewrite Hrun. f_equal. f_equal. apply Hmock.
    intros apiData (status & statusText & Hf & _).
    change (fetch undatable (@forecast_url utc demo 40.71 (-74.01)))
      with (Replied 200 "OK" (IsJson (JForecast undatable_payload))) in Hf.
    injection Hf as _ _ <-. right.
    eexists _, _. split; [reflexivity | right; reflexivity].
Defined.

(** ** The hook *)

Lemma unusable_coordinates_fall_back_witness :
  @weatherUtils.isAPIConfigured demo = true /\
  run (@parseLocation utc demo (Some "0,10")) online
  = (Normal (Some {| lat := Some 0; lon := Some 10 |}), []) /\
  usable (Some {| lat := Some 0; lon := Some 10 |}) = false /\
  run (@fetchWeatherData utc demo (@initialState demo 0) (Some "0,10")) online
  = (Normal (settled (@mockWeatherData demo) (Date_now online)), []).
Proof.
  split; [reflexivity|]. split; [reflexivity|]. split; [reflexivity|].
  exact (@unusable_coordinates_fall_back utc demo (@initialState demo 0) (Some "0,10") online
           (Some {| lat := Some 0; lon := Some 10 |}) [] eq_refl eq_refl).
Defined.

Lemma unknown_place_falls_back_silently_witness :
  JS.test coordinatePattern "Atlantis" = false /\
  nonempty (JS.trim "Atlantis") = true /\
  request_yields online (@geocoding_url utc demo "Atlantis" 1) (JGeo []) /\
  run (@fetchWeatherData utc demo (@initialState demo 0) (Some "Atlantis")) online
  = (Normal (settled (@mockWeatherData demo) (Date_now online)),
     [@geocoding_url utc demo "Atlantis" 1]).
Proof.
  assert (Hy : request_yields online (@geocoding_url utc demo "Atlantis" 1) (JGeo []))
    by (exists 200%Z, "OK"; split; reflexivity).
  split; [reflexivity|]. split; [reflexivity|]. split; [exact Hy|].
  exact (@unknown_place_falls_back_silently utc demo (@initialState demo 0) "Atlantis" online
           eq_refl eq_refl Hy).
Defined.

Lemma successful_fetch_composes_witness :
  exists current forecast data,
    @transformWeatherData utc (current_payload "01d") = Normal current /\
    @transformForecastData utc (Date_now online) forecast_payload = Normal forecast /\
    run (@fetchWeatherData utc demo (@initialState demo 0) (Some "40.71,-74.01")) online
    = (Normal (settled data (Date_now online)),
       [@weather_url utc demo (JS.to_double 40.71) (JS.to_double (-74.01)); @forecast_url utc demo (JS.to_double 40.71) (JS.to_double (-74.01))]) /\
    WeatherData.current data = WeatherData.current current /\
    WeatherData.hourly data = WeatherData.hourly forecast /\
    WeatherData.daily data = WeatherData.daily forecast /\
    WeatherData.lastUpdated data = None.
Proof.
  eexists. eexists.
  assert (Hc : request_yields online (@weather_url utc demo (JS.to_double 40.71) (JS.to_double (-74.01)))
                              (JWeather (current_payload "01d")))
    by (exists 200%Z, "OK"; split; reflexivity).
  assert (Hf : request_yields online (@forecast_url utc demo (JS.to_double 40.71) (JS.to_double (-74.01)))
                              (JForecast forecast_payload))
    by (exists 200%Z, "OK"; split; reflexivity).
  destruct (@successful_fetch_composes utc demo (@initialState demo 0) (Some "40.71,-74.01")
              online [] (JS.to_double 40.71) (JS.to_double (-74.01)) (current_payload "01d") forecast_payload _ _
              eq_refl eq_refl eq_refl eq_refl Hc eq_refl Hf eq_refl)
    as (data & Hrun & Hcur & Hh & Hd & Hl & _).
  exists data. split; [reflexivity|]. split; [reflexivity|].
  split; [exact Hrun|]. repeat split; assumption.
Defined.

(** ** The forecast *)

Lemma daily_series_follows_first_occurrences_witness :
  exists daily,
    @dailyOf utc (ForecastApiResponse.list_ forecast_payload) = Normal daily /\
    map DailyWeatherData.day daily
    = firstn 7 (DailyRecords.first_occurrences
                  (map (@day_of utc) (ForecastApiResponse.list_ forecast_payload))) /\
    NoDup (map DailyWeatherData.day daily) /\
    (List.length daily <= 7)%nat.
Proof.
  eexists. split; [reflexivity|].
  exact (@daily_series_follows_first_occurrences utc
           (ForecastApiResponse.list_ forecast_payload) _ eq_refl).
Defined.

Lemma hourly_series_is_the_first_eight_witness :
  exists data,
    @transformForecastData utc 40000000 forecast_payload = Normal data /\
    List.length (WeatherData.hourly data) = 2%nat /\
    map HourlyWeatherData.temperature (WeatherData.hourly data) = [12; 14].
Proof.
  eexists. split; [reflexivity|].
  split; [|reflexivity].
  exact (proj1 (@hourly_series_is_the_first_eight utc 40000000 forecast_payload _ eq_refl)).
Defined.

Lemma daily_record_sources_witness :
  exists daily r,
    @dailyOf utc (ForecastApiResponse.list_ forecast_payload) = Normal daily /\
    In r daily /\
    @DailyRecords.represents utc (ForecastApiResponse.list_ forecast_payload)
                             (DailyWeatherData.day r) r.
Proof.
  eexists. eexists.
  assert (Hd : @dailyOf utc (ForecastApiResponse.list_ forecast_payload)
               = Normal [ {| DailyWeatherData.day := "Thu";
                             DailyWeatherData.date := Some "@36000000";
                             DailyWeatherData.high := 19;
                             DailyWeatherData.low := 12;
                             DailyWeatherData.icon := Tag sunny;
                             DailyWeatherData.precipitation := 20;
                             DailyWeatherData.humidity := Some 50;
                             DailyWeatherData.windSpeed := Some 3;
                             DailyWeatherData.description := Some "clear sky" |} ])
    by reflexivity.
  split; [exact Hd|]. split; [left; reflexivity|].
  exact (@daily_record_sources utc _ _ _ Hd (or_introl eq_refl)).
Defined.

Lemma precipitation_is_a_percentage_witness :
  Forall (fun item => DailyRecords.is_probability (ForecastItem.pop item))
         (ForecastApiResponse.list_ forecast_payload) /\
  exists data,
    @transformForecastData utc 40000000 forecast_payload = Normal data /\
    Forall (fun e => DailyRecords.is_percentage (HourlyWeatherData.precipitation e))
           (WeatherData.hourly data) /\
    Forall (fun r => DailyRecords.is_percentage (DailyWeatherData.precipitation r))
           (WeatherData.daily data).
Proof.
  assert (Hp : Forall (fun item => DailyRecords.is_probability (ForecastItem.pop item))
                      (ForecastApiResponse.list_ forecast_payload))
    by (repeat constructor; discriminate).
  split; [exact Hp|].
  eexists. split; [reflexivity|].
  exact (@precipitation_is_a_percentage utc 40000000 forecast_payload _ eq_refl Hp).
Defined.

Lemma daily_low_is_below_high_witness :
  Forall (fun item => Aggregation.temp_min_of item <= Aggregation.temp_max_of item)
         (ForecastApiResponse.list_ forecast_payload) /\
  exists daily,
    @dailyOf utc (ForecastApiResponse.list_ forecast_payload) = Normal daily /\
    Forall (fun r => DailyWeatherData.low r <= DailyWeatherData.high r) daily.
Proof.
  assert (Hm : Forall (fun item => Aggregation.temp_min_of item <= Aggregation.temp_max_of item)
                      (ForecastApiResponse.list_ forecast_payload))
    by (repeat constructor; discriminate).
  split; [exact Hm|].
  eexists. split; [reflexivity|].
  exact (@daily_low_is_below_high utc (ForecastApiResponse.list_ forecast_payload) _
           eq_refl Hm).
Defined.

(** ** The current weather *)

Lemma getWindDirection_sector_witness :
  inject_Z 14 * 22.5 - 11.25 <= 320 /\
  320 < inject_Z 14 * 22.5 + 11.25 /\
  getWindDirection 320 = Some "NW" /\
  getWindDirection (320 + 360) = getWindDirection 320.
Proof.
  assert (Hlo : inject_Z 14 * 22.5 - 11.25 <= 320) by discriminate.
  assert (Hhi : 320 < inject_Z 14 * 22.5 + 11.25) by reflexivity.
  split; [exact Hlo|]. split; [exact Hhi|].
  destruct (proj1 (getWindDirection_sector 14 320 Hlo Hhi)) as (Hlabel & _ & Hturn);
    [discriminate|].
  split; [exact Hlabel | exact Hturn].
Defined.

Lemma current_block_is_rounded_witness :
  exists data,
    @transformWeatherData utc (current_payload "01d") = Normal data /\
    (exists z, CurrentWeatherData.temperature (WeatherData.current data) = inject_Z z /\
               inject_Z z - 0.5 <= 21.4 < inject_Z z + 0.5) /\
    CurrentWeatherData.visibility (WeatherData.current data) = 10000 / 1000.
Proof.
  eexists. split; [reflexivity|].
  destruct (@current_block_is_rounded utc (current_payload "01d") _ eq_refl)
    as (Ht & _ & Hv).
  split; [exact Ht | exact Hv].
Defined.

(** ** The mock dataset *)

Lemma mock_hourly_entries_are_in_range_witness :
  (forall k : nat, 0 <= (fun _ : nat => 0.5) k < 1) /\
  Forall MockRanges.in_ranges (WeatherData.hourly (@mockWeatherData (bundle None))).
Proof.
  assert (Hr : forall k : nat, 0 <= (fun _ : nat => 0.5) k < 1)
    by (intros k; split; [discriminate | reflexivity]).
  split; [exact Hr|].
  exact (@mock_hourly_entries_are_in_range utc None 9%Z (fun _ => 0.5) Hr).
Defined.

(** ** Clock times *)

Lemma utc_prints_decimal : @Clock12.prints_decimal utc.
Proof. intros n _. reflexivity. Qed.

Lemma parseTimeString_inverts_convertTo12Hour_witness :
  map JS.Number (JS.split ":" "13:05") = [Some (inject_Z 13); Some (inject_Z 5)] /\
  @weatherUtilsTs.convertTo12Hour utc "13:05" = "1:05 PM" /\
  exists total,
    weatherUtilsTs.parseTimeString (@weatherUtilsTs.convertTo12Hour utc "13:05")
    = Some total /\
    total == inject_Z (13 * 60 + 5).
Proof.
  split; [reflexivity|]. split; [reflexivity|].
  apply (@parseTimeString_inverts_convertTo12Hour utc "13:05" 13 5 []
           utc_prints_decimal eq_refl); lia.
Defined.

Lemma isDayTime_between_sunrise_and_sunset_witness :
  @weatherUtilsTs.convertTo12Hour utc "06:42" = "6:42 AM" /\
  @weatherUtilsTs.convertTo12Hour utc "19:18" = "7:18 PM" /\
  weatherUtilsTs.isDayTime
    (Some {| weatherUtilsTs.hours := 12; weatherUtilsTs.minutes := 0 |})
    (Some (@weatherUtilsTs.convertTo12Hour utc "06:42"))
    (Some (@weatherUtilsTs.convertTo12Hour utc "19:18")) = true.
Proof.
  split; [reflexivity|]. split; [reflexivity|].
  apply (@isDayTime_between_sunrise_and_sunset utc
           {| weatherUtilsTs.hours := 12; weatherUtilsTs.minutes := 0 |}
           "06:42" "19:18" 6 42 19 18 [] [] utc_prints_decimal eq_refl eq_refl);
    cbn; lia.
Defined.

Lemma isDayTime_without_minutes_is_night_witness :
  nonempty "6 AM" = true /\ nonempty "7:18 PM" = true /\
  Clock12.lacks ":" "6 AM" /\
  weatherUtilsTs.isDayTime
    (Some {| weatherUtilsTs.hours := 12; weatherUtilsTs.minutes := 0 |})
    (Some "6 AM") (Some "7:18 PM") = false.
Proof.
  assert (Hno : Clock12.lacks ":" "6 AM") by (repeat constructor).
  split; [reflexivity|]. split; [reflexivity|]. split; [exact Hno|].
  exact (isDayTime_without_minutes_is_night
           {| weatherUtilsTs.hours := 12; weatherUtilsTs.minutes := 0 |}
           "6 AM" "7:18 PM" eq_refl eq_refl (or_introl Hno)).
Defined.

(** ** The dashboard *)

Lemma direct_search_without_result_witness :
  WeatherDashboard.attempts (JS.trim "Atlantis 2")
  = ["Atlantis 2"; "Atlantis, 2"; "Atlantis 2"; "Atlantis, 2"] /\
  run (@WeatherDashboard.handleDirectSearch utc demo (dashboard "Atlantis 2")) online
  = (Normal (WeatherDashboard.toast (WeatherDashboard.notFound "Atlantis 2")
                                    (dashboard "Atlantis 2")),
     [@geocoding_url utc demo "Atlantis 2" 1; @geocoding_url utc demo "Atlantis, 2" 1;
      @geocoding_url utc demo "Atlantis 2" 1; @geocoding_url utc demo "Atlantis, 2" 1]).
Proof.
  split; [reflexivity|].
  apply (@direct_search_without_result utc demo (dashboard "Atlantis 2") online eq_refl).
  intros a Ha. vm_compute in Ha.
  repeat destruct Ha as [<-|Ha]; try reflexivity. contradiction.
Defined.

Lemma direct_search_takes_first_result_witness :
  WeatherDashboard.attempts (JS.trim " NewYork")
  = (["NewYork"; "NewYork"] ++ "New York" :: ["New, York"])%list /\
  exists hook requests st',
    run (@fetchWeatherData utc demo (@initialState demo 0) (Some "4071/100,-7401/100")) online
    = (Normal hook, requests) /\
    run (@WeatherDashboard.handleDirectSearch utc demo (dashboard " NewYork")) online
    = (Normal st',
       ([@geocoding_url utc demo "NewYork" 1; @geocoding_url utc demo "NewYork" 1;
         @geocoding_url utc demo "New York" 1] ++ requests)%list) /\
    WeatherDashboard.location st' = "New York, NY, US" /\
    WeatherDashboard.lastLocation st' = Some "New York, NY, US" /\
    WeatherDashboard.searchQuery st' = "" /\
    WeatherDashboard.weather st' = hook /\
    WeatherDashboard.toasts st' = [].
Proof.
  split; [reflexivity|].
  assert (Hnone : forall b, In b ["NewYork"; "NewYork"] ->
                            @DirectSearch.finds utc demo online b []).
  { intros b Hb. repeat destruct Hb as [<-|Hb]; try reflexivity. contradiction. }
  exact (@direct_search_takes_first_result utc demo (dashboard " NewYork") online
           ["NewYork"; "NewYork"] "New York" ["New, York"]
           {| LocationSuggestion.id := "4071/100--7401/100-0";
              LocationSuggestion.name := "New York";
              LocationSuggestion.country := "US";
              LocationSuggestion.state := Some "NY";
              LocationSuggestion.lat := 40.71;
              LocationSuggestion.lon := -74.01 |} []
           eq_refl eq_refl Hnone eq_refl).
Defined.

Lemma plain_word_is_asked_four_times_witness :
  DirectSearch.plain (JS.trim "Atlantis ") = true /\
  @DirectSearch.finds utc demo online (JS.trim "Atlantis ") [] /\
  run (@WeatherDashboard.handleDirectSearch utc demo (dashboard "Atlantis ")) online
  = (Normal (WeatherDashboard.toast (WeatherDashboard.notFound "Atlantis ")
                                    (dashboard "Atlantis ")),
     [@geocoding_url utc demo "Atlantis" 1; @geocoding_url utc demo "Atlantis" 1;
      @geocoding_url utc demo "Atlantis" 1; @geocoding_url utc demo "Atlantis" 1]).
Proof.
  split; [reflexivity|]. split; [reflexivity|].
  exact (@plain_word_is_asked_four_times utc demo (dashboard "Atlantis ") online
           eq_refl eq_refl eq_refl).
Defined.
End MoreInstances.
